(** * Comment threads of a pull request node

    A shallow embedding of [src/view/treeNodes/pullRequestNode.ts]: the
    grouping of review comments into threads, the reconciliation of two
    thread generations, the commenting ranges, the reconstruction of
    document content from diff hunks, and the comment operations of
    [PRNode] (create, edit, delete, reply, delete draft).

    Numbers that the code uses as identities, positions and line numbers
    are integers ([Z]); [toString] is their decimal form.  Exceptions are
    values of [result]; the operations of [PRNode] thread the node's state
    explicitly and keep it when an exception is thrown. *)

From Stdlib Require Import ZArith Ascii String List Lia.
From stdpp Require Import base option list strings pretty sorting.

Local Open Scope string_scope.
Local Open Scope Z_scope.
Local Open Scope list_scope.

(** ** Exceptions *)

Inductive Error :=
  | TypeError
  | MkError (message : string).

Inductive result (A : Type) :=
  | Ok (a : A)
  | Throw (e : Error).
Arguments Ok {A} a.
Arguments Throw {A} e.

#[global] Instance result_ret : MRet result := @Ok.
#[global] Instance result_bind : MBind result := λ A B f m,
  match m with
  | Ok a => f a
  | Throw e => Throw e
  end.

Definition is_Throw {A} (r : result A) : Prop :=
  match r with
  | Ok _ => False
  | Throw _ => True
  end.

(** ** Data model *)

(** Modelled from the spec: the enum [DiffChangeType] is declared in
    [common/diffHunk]; the change kinds are context, add, delete and the
    control line. *)
Inductive DiffChangeType := Context | Add | Delete | Control.

#[global] Instance DiffChangeType_eq_dec : EqDecision DiffChangeType.
Proof. solve_decision. Defined.

(** Modelled from the spec: [DiffLine] and [DiffHunk] are declared in
    [common/diffHunk]; a line has its change kind, its text, its old and new
    line numbers and its position in the diff, a hunk its old and new start
    and length and its lines. *)
Record DiffLine := {
  type : DiffChangeType;
  text : string;
  line_oldLineNumber : Z;
  line_newLineNumber : Z;
  positionInHunk : Z
}.

Record DiffHunk := {
  oldLineNumber : Z;
  oldLength : Z;
  newLineNumber : Z;
  newLength : Z;
  diffLines : list DiffLine
}.

(** Modelled from the spec: [GitChangeType] is declared in [common/file];
    the members the node distinguishes are kept, [MODIFY] stands for the
    others. *)
Inductive GitChangeType := ADD | DELETE | RENAME | MODIFY.

#[global] Instance GitChangeType_eq_dec : EqDecision GitChangeType.
Proof. solve_decision. Defined.

Record User := {
  login : string;
  avatarUrl : string
}.

Record Reaction := {
  label : string;
  viewerHasReacted : bool
}.

(** Modelled from the spec: the interface [Comment] is declared in
    [common/comment]: an identity, a nullable diff position, a body, an
    author, capability flags, a draft flag, the commit, the file path and an
    optional reaction list; [pullRequestReviewId] is the review a draft
    comment belongs to. *)
Record Comment := {
  id : Z;
  position : option Z;
  body : string;
  user : User;
  canEdit : bool;
  canDelete : bool;
  isDraft : option bool;
  commitId : string;
  path : option string;
  pullRequestReviewId : option Z;
  reactions : option (list Reaction)
}.

(** The part of the editor's API the node uses.  [Position] and [Range]
    are plain records: their constructors' checks (a line is not negative,
    a range starts before it ends) are not part of the model. *)
Module vscode.

Record Uri := {
  scheme : string;
  fsPath : string;
  query : string
}.

Record Position := {
  line : Z;
  character : Z
}.

Record Range := {
  start : Position;
  end_ : Position
}.

(** [new vscode.Range(startLine, startCharacter, endLine, endCharacter)] *)
Definition Range4 (sl sc el ec : Z) : Range :=
  {| start := {| line := sl; character := sc |};
     end_ := {| line := el; character := ec |} |}.

Record MarkdownString := { value : string }.

Record CommentReaction := {
  reaction_label : string;
  hasReacted : bool
}.

Record Comment := {
  commentId : string;
  body : MarkdownString;
  userName : string;
  gravatar : string;
  canEdit : bool;
  canDelete : bool;
  isDraft : bool;
  commentReactions : option (list CommentReaction)
}.

Inductive CommentThreadCollapsibleState := Collapsed | Expanded.

Record CommentThread := {
  threadId : string;
  resource : Uri;
  range : Range;
  comments : list Comment;
  collapsibleState : option CommentThreadCollapsibleState
}.

Record TextDocument := {
  uri : Uri;
  lineCount : Z
}.

Record CommentInfo := {
  threads : list CommentThread;
  commentingRanges : list Range;
  inDraftMode : bool
}.

Record CommentThreadChangedEvent := {
  added : list CommentThread;
  removed : list CommentThread;
  changed : list CommentThread;
  event_inDraftMode : bool
}.

#[global] Instance Uri_eq_dec : EqDecision Uri.
Proof. solve_decision. Defined.
#[global] Instance Position_eq_dec : EqDecision Position.
Proof. solve_decision. Defined.
#[global] Instance Range_eq_dec : EqDecision Range.
Proof. solve_decision. Defined.
#[global] Instance MarkdownString_eq_dec : EqDecision MarkdownString.
Proof. solve_decision. Defined.
#[global] Instance CommentReaction_eq_dec : EqDecision CommentReaction.
Proof. solve_decision. Defined.
#[global] Instance Comment_eq_dec : EqDecision Comment.
Proof. solve_decision. Defined.
#[global] Instance CollapsibleState_eq_dec :
  EqDecision CommentThreadCollapsibleState.
Proof. solve_decision. Defined.
#[global] Instance CommentThread_eq_dec : EqDecision CommentThread.
Proof. solve_decision. Defined.

End vscode.

(** [thread.comments = cs] and [thread.collapsibleState = s] on a thread
    object. *)
Definition set_comments (cs : list vscode.Comment) (t : vscode.CommentThread)
  : vscode.CommentThread :=
  {| vscode.threadId := vscode.threadId t;
     vscode.resource := vscode.resource t;
     vscode.range := vscode.range t;
     vscode.comments := cs;
     vscode.collapsibleState := vscode.collapsibleState t |}.

Definition set_collapsibleState (s : vscode.CommentThreadCollapsibleState)
  (t : vscode.CommentThread) : vscode.CommentThread :=
  {| vscode.threadId := vscode.threadId t;
     vscode.resource := vscode.resource t;
     vscode.range := vscode.range t;
     vscode.comments := vscode.comments t;
     vscode.collapsibleState := Some s |}.

Record RemoteFileChangeNode := {
  remote_status : GitChangeType;
  remote_fileName : string;
  remote_blobUrl : string
}.

Record InMemFileChangeNode := {
  status : GitChangeType;
  fileName : string;
  previousFileName : option string;
  blobUrl : string;
  filePath : vscode.Uri;
  parentFilePath : vscode.Uri;
  isPartial : bool;
  patch : string;
  diffHunks : list DiffHunk;
  comments : list Comment
}.

Inductive FileChangeNode :=
  | Remote (n : RemoteFileChangeNode)
  | InMem (n : InMemFileChangeNode).

Definition node_fileName (change : FileChangeNode) : string :=
  match change with
  | Remote n => remote_fileName n
  | InMem n => fileName n
  end.

(** [change instanceof InMemFileChangeNode] *)
Definition isInMem (change : FileChangeNode) : Prop :=
  match change with
  | Remote _ => False
  | InMem _ => True
  end.

#[global] Instance isInMem_dec change : Decision (isInMem change).
Proof. destruct change; simpl; apply _. Defined.

(** [fileChange.comments = cs] *)
Definition set_file_comments (cs : list Comment) (n : InMemFileChangeNode)
  : InMemFileChangeNode :=
  {| status := status n; fileName := fileName n;
     previousFileName := previousFileName n; blobUrl := blobUrl n;
     filePath := filePath n; parentFilePath := parentFilePath n;
     isPartial := isPartial n; patch := patch n;
     diffHunks := diffHunks n; comments := cs |}.

(** The parameters [fromPRUri] reads out of the uri of a document. *)
Record PRUriParams := {
  params_baseCommit : string;
  params_headCommit : string;
  params_isBase : bool;
  params_fileName : string;
  params_prNumber : Z
}.

(** ** Collaborators

    Functions the node imports from modules that are not part of this
    development.  Every statement below holds for all of them. *)
Class Collaborators := {
  (* common/diffPositionMapping *)
  getZeroBased : Z → Z;
  getAbsolutePosition : Comment → list DiffHunk → bool → Z;
  getPositionInDiff : Comment → list DiffHunk → bool → Z;
  mapHeadLineToDiffHunkPosition : list DiffHunk → string → Z → bool → Z;
  (* common/uri *)
  fromPRUri : vscode.Uri → option PRUriParams;
  (* common/utils *)
  formatError : Error → string;
  (* common/diffHunk *)
  getModifiedContentFromDiffHunk : string → string → string;
  (* path.join on the root of the repository, repository.show *)
  path_join_root : string → string;
  repository_show : string → string → result string
}.

(** [n.toString()] and [String(n)] of an integer. *)
Definition toString (n : Z) : string := pretty n.

(** [String(comment.position)] *)
Definition String_position (p : option Z) : string :=
  match p with
  | Some n => toString n
  | None => "null"
  end.

(** ** Dictionaries

    A [Dictionary] is an object used as a map: its own keys in the order
    they were created. *)
Abbreviation Dictionary T := (list (string * T)) (only parsing).

(** [target = result[key]; if (!target) target = result[key] = [];
    target.push(element)] *)
Fixpoint dict_push {T} (key : string) (element : T) (d : Dictionary (list T))
  : Dictionary (list T) :=
  match d with
  | [] => [(key, [element])]
  | (k, target) :: d' =>
      if decide (k = key) then (k, target ++ [element]) :: d'
      else (k, target) :: dict_push key element d'
  end.

(** Modelled from the spec: [groupBy] of [common/utils] partitions a list by
    the key of its elements; the members of a group keep their order.  The
    key function may throw. *)
Definition groupBy {T} (data : list T) (groupFn : T → result string)
  : result (Dictionary (list T)) :=
  fold_left (λ acc element,
      d ← acc;
      key ← groupFn element;
      mret (dict_push key element d))
    data (Ok []).

Definition digit_of (a : Ascii.ascii) : option N :=
  let n := Ascii.N_of_ascii a in
  if decide (48 ≤ n ∧ n ≤ 57)%N then Some (n - 48)%N else None.

Fixpoint parse_digits (acc : N) (s : string) : option N :=
  match s with
  | EmptyString => Some acc
  | String a s' => d ← digit_of a; parse_digits (10 * acc + d)%N s'
  end.

(** A key is an array index when it is the decimal form of an integer
    below [2^32 - 1]. *)
Definition arrayIndex (key : string) : option N :=
  match key with
  | EmptyString => None
  | _ =>
      n ← parse_digits 0 key;
      if decide (pretty n = key ∧ n < 2 ^ 32 - 1)%N then Some n else None
  end.

Definition index_le {T} (a b : N * T) : Prop := (a.1 ≤ b.1)%N.

#[global] Instance index_le_dec {T} (a b : N * T) : Decision (index_le a b).
Proof. unfold index_le. apply _. Defined.

(** [for (let i in d)]: the array indices in ascending order, then the
    other keys in the order of their creation. *)
Definition forIn {T} (d : Dictionary T) : list (string * T) :=
  (merge_sort index_le
     (omap (λ kv, n ← arrayIndex kv.1; Some (n, kv)) d)).*2
  ++ filter (λ kv, arrayIndex kv.1 = None) d.

(** ** Grouping comments into threads *)

Section Grouping.
Context `{Collaborators}.

Definition toVsComment (comment : Comment) : vscode.Comment :=
  {| vscode.commentId := toString (id comment);
     vscode.body := {| vscode.value := body comment |};
     vscode.userName := login (user comment);
     vscode.gravatar := avatarUrl (user comment);
     vscode.canEdit := canEdit comment;
     vscode.canDelete := canDelete comment;
     vscode.isDraft := default false (isDraft comment);
     vscode.commentReactions := None |}.

Definition toVsCommentWithReactions (comment : Comment) : vscode.Comment :=
  {| vscode.commentId := toString (id comment);
     vscode.body := {| vscode.value := body comment |};
     vscode.userName := login (user comment);
     vscode.gravatar := avatarUrl (user comment);
     vscode.canEdit := canEdit comment;
     vscode.canDelete := canDelete comment;
     vscode.isDraft := default false (isDraft comment);
     vscode.commentReactions :=
       Some (match reactions comment with
             | Some rs =>
                 map (λ reaction,
                   {| vscode.reaction_label := label reaction;
                      vscode.hasReacted := viewerHasReacted reaction |}) rs
             | None => []
             end) |}.

(** The anchor line of a group, from its first comment. *)
Definition commentAbsolutePosition (fileChange : InMemFileChangeNode)
    (firstComment : Comment) (isBase : bool) : Z :=
  if isPartial fileChange
  then getPositionInDiff firstComment (diffHunks fileChange) isBase
  else getAbsolutePosition firstComment (diffHunks fileChange) isBase.

(** The body of the loop over the sections, shared by both grouping
    functions: [threads] after the section [commentGroup]. *)
Definition pushThread (fileChange : InMemFileChangeNode) (isBase : bool)
    (resource : vscode.Uri) (conv : Comment → vscode.Comment)
    (threads : result (list vscode.CommentThread))
    (section : string * list Comment)
  : result (list vscode.CommentThread) :=
  threads ← threads;
  match section.2 with
  | [] => Throw TypeError
  | firstComment :: _ =>
      let pos := commentAbsolutePosition fileChange firstComment isBase in
      if decide (pos < 0) then mret threads
      else
        let pos := {| vscode.line := getZeroBased pos;
                      vscode.character := 0 |} in
        mret (threads ++ [
          {| vscode.threadId := toString (id firstComment);
             vscode.resource := resource;
             vscode.range := {| vscode.start := pos; vscode.end_ := pos |};
             vscode.comments := map conv section.2;
             vscode.collapsibleState := Some vscode.Expanded |} ])
  end.

Definition commentsToCommentThreads (fileChange : InMemFileChangeNode)
    (comments : list Comment) (isBase : bool)
  : result (list vscode.CommentThread) :=
  sections ← groupBy comments (λ comment,
    match position comment with
    | Some p => Ok (toString p)
    | None => Throw TypeError
    end);
  fold_left
    (pushThread fileChange isBase
       (if isBase then parentFilePath fileChange else filePath fileChange)
       toVsComment)
    (forIn sections) (Ok []).

Definition computeCommentingRanges (document : vscode.TextDocument)
    (fileChange : InMemFileChangeNode) (isBase : bool)
  : list vscode.Range :=
  if isPartial fileChange
  then [vscode.Range4 0 0 (vscode.lineCount document) 0]
  else
    fold_left (λ commentingRanges diffHunk,
        let startingLine :=
          if isBase then getZeroBased (oldLineNumber diffHunk)
          else getZeroBased (newLineNumber diffHunk) in
        let length :=
          if isBase then getZeroBased (oldLength diffHunk)
          else getZeroBased (newLength diffHunk) in
        commentingRanges
          ++ [vscode.Range4 startingLine 0 (startingLine + length) 0])
      (diffHunks fileChange) [].

Definition providePRDocumentComments (document : vscode.TextDocument)
    (prNumber : Z) (fileChanges : list FileChangeNode) (inDraftMode : bool)
  : result (option vscode.CommentInfo) :=
  match fromPRUri (vscode.uri document) with
  | None => mret None
  | Some params =>
      if decide (params_prNumber params ≠ prNumber) then mret None
      else
        let isBase := params_isBase params in
        match list_find (λ change,
                node_fileName change = params_fileName params)
                fileChanges with
        | None | Some (_, Remote _) => mret None
        | Some (_, InMem fileChange) =>
            let commentingRanges :=
              computeCommentingRanges document fileChange isBase in
            let matchingComments := comments fileChange in
            if decide (length matchingComments = 0%nat)
            then mret (Some {| vscode.threads := [];
                               vscode.commentingRanges := commentingRanges;
                               vscode.inDraftMode := inDraftMode |})
            else
              sections ← groupBy matchingComments (λ comment,
                Ok (String_position (position comment)));
              threads ← fold_left
                (pushThread fileChange isBase (vscode.uri document)
                   toVsCommentWithReactions)
                (forIn sections) (Ok []);
              mret (Some {| vscode.threads := threads;
                            vscode.commentingRanges := commentingRanges;
                            vscode.inDraftMode := inDraftMode |})
        end
  end.

(** The comments [getChildren] gives the node of a changed file: those of
    the file that are anchored to a line. *)
Definition commentsOfFile (comments : list Comment) (name : string)
  : list Comment :=
  filter (λ comment, path comment = Some name ∧ position comment ≠ None)
    comments.

End Grouping.

(** ** Reconciling two generations of threads *)

Definition getRemovedCommentThreads
    (oldCommentThreads newCommentThreads : list vscode.CommentThread)
  : list vscode.CommentThread :=
  fold_left (λ removed thread,
      let matchingThreads :=
        filter (λ newThread,
          vscode.threadId newThread = vscode.threadId thread)
          newCommentThreads in
      if decide (length matchingThreads = 0%nat) then removed ++ [thread]
      else removed)
    oldCommentThreads [].

Definition commentsEditedInThread (oldComments newComments : list vscode.Comment)
  : bool :=
  existsb (λ oldComment,
      let matchingComment :=
        filter (λ newComment,
          vscode.commentId newComment = vscode.commentId oldComment)
          newComments in
      if decide (length matchingComment ≠ 1%nat) then true
      else
        match matchingComment with
        | first :: _ =>
            if decide (vscode.value (vscode.body first)
                       ≠ vscode.value (vscode.body oldComment))
            then true else false
        | [] => true
        end)
    oldComments.

(** The state of the loop over the new threads: the two result arrays and
    the threads visited so far, as the loop leaves them (the loop assigns
    [collapsibleState] on the thread object it has pushed to [added], so the
    array of new threads and [added] see the same assignment). *)
Record Reconciled := {
  rec_added : list vscode.CommentThread;
  rec_changed : list vscode.CommentThread;
  rec_visited : list vscode.CommentThread
}.

Definition visitThread (oldCommentThreads : list vscode.CommentThread)
    (acc : Reconciled) (thread : vscode.CommentThread) : Reconciled :=
  let matchingCommentThread :=
    filter (λ oldComment,
      vscode.threadId oldComment = vscode.threadId thread)
      oldCommentThreads in
  let thread' :=
    if decide (length matchingCommentThread = 0%nat) then
      if decide (vscode.scheme (vscode.resource thread) = "file")
      then set_collapsibleState vscode.Collapsed thread
      else thread
    else thread in
  let added :=
    if decide (length matchingCommentThread = 0%nat)
    then rec_added acc ++ [thread']
    else rec_added acc in
  let changed :=
    match matchingCommentThread with
    | [] => rec_changed acc
    | first :: _ =>
        fold_left (λ changed match_,
            if decide (length (vscode.comments match_)
                       ≠ length (vscode.comments thread')
                       ∨ commentsEditedInThread (vscode.comments first)
                           (vscode.comments thread') = true)
            then changed ++ [thread']
            else changed)
          matchingCommentThread (rec_changed acc)
    end in
  {| rec_added := added; rec_changed := changed;
     rec_visited := rec_visited acc ++ [thread'] |}.

Definition reconcile (oldCommentThreads newCommentThreads
    : list vscode.CommentThread) : Reconciled :=
  fold_left (visitThread oldCommentThreads) newCommentThreads
    {| rec_added := []; rec_changed := []; rec_visited := [] |}.

(** The value the function returns: [[added, changed]]. *)
Definition getAddedOrUpdatedCommentThreads (oldCommentThreads newCommentThreads
    : list vscode.CommentThread)
  : list vscode.CommentThread * list vscode.CommentThread :=
  let r := reconcile oldCommentThreads newCommentThreads in
  (rec_added r, rec_changed r).

(** The array of new threads once the function has returned. *)
Definition newCommentThreadsAfter (oldCommentThreads newCommentThreads
    : list vscode.CommentThread) : list vscode.CommentThread :=
  rec_visited (reconcile oldCommentThreads newCommentThreads).

(** ** The node *)

Definition newline : string := String "010"%char "".

(** [lines.join('\n')] *)
Definition join_lines (lines : list string) : string :=
  String.concat newline lines.

(** [_fileChanges], the number of the pull request, and the events fired on
    [_onDidChangeCommentThreads] (oldest first; [None] while the emitter
    does not exist). *)
Record PRNode := {
  prNumber : Z;
  _fileChanges : list FileChangeNode;
  _onDidChangeCommentThreads : option (list vscode.CommentThreadChangedEvent)
}.

Definition set_fileChanges (l : list FileChangeNode) (node : PRNode) : PRNode :=
  {| prNumber := prNumber node; _fileChanges := l;
     _onDidChangeCommentThreads := _onDidChangeCommentThreads node |}.

Definition set_events (l : list vscode.CommentThreadChangedEvent)
    (node : PRNode) : PRNode :=
  {| prNumber := prNumber node; _fileChanges := _fileChanges node;
     _onDidChangeCommentThreads := Some l |}.

(** The requests to the remote host, as the pull request manager answers
    them for the pull request of the node. *)
Class PullRequestManager := {
  createComment : string → string → Z → result (option Comment);
  editReviewComment : Comment → string → result Comment;
  deleteReviewComment : string → result unit;
  createCommentReply : string → Comment → result (option Comment);
  inDraftMode : result bool;
  deleteReview : result (Z * list Comment)
}.

(** An operation of the node: it reads and writes the node and returns or
    throws; what it wrote before it threw stays written. *)
Definition Op (A : Type) : Type := PRNode → result A * PRNode.

#[global] Instance Op_ret : MRet Op := λ A a node, (Ok a, node).
#[global] Instance Op_bind : MBind Op := λ A B f m node,
  match m node with
  | (Ok a, node') => f a node'
  | (Throw e, node') => (Throw e, node')
  end.

Definition throw {A} (e : Error) : Op A := λ node, (Throw e, node).
Definition lift {A} (r : result A) : Op A := λ node, (r, node).
Definition get : Op PRNode := λ node, (Ok node, node).
Definition modify (f : PRNode → PRNode) : Op unit := λ node, (Ok tt, f node).

(** [try { m } catch (e) { h e }] *)
Definition try_catch {A} (m : Op A) (h : Error → Op A) : Op A := λ node,
  match m node with
  | (Ok a, node') => (Ok a, node')
  | (Throw e, node') => h e node'
  end.

Fixpoint forEachM {A S} (f : S → A → Op S) (l : list A) (s : S) : Op S :=
  match l with
  | [] => mret s
  | x :: l' => s' ← f s x; forEachM f l' s'
  end.

(** [fileChange.comments = cs] on the node at index [i] of [_fileChanges] *)
Definition assignComments (i : nat) (cs : list Comment) : Op unit :=
  modify (λ node,
    match _fileChanges node !! i with
    | Some (InMem fileChange) =>
        set_fileChanges
          (<[i := InMem (set_file_comments cs fileChange)]> (_fileChanges node))
          node
    | _ => node
    end).

(** [this._onDidChangeCommentThreads.fire(e)] *)
Definition fire (e : vscode.CommentThreadChangedEvent) : Op unit := λ node,
  match _onDidChangeCommentThreads node with
  | Some events => (Ok tt, set_events (events ++ [e]) node)
  | None => (Throw TypeError, node)
  end.

Definition uri_toString (u : vscode.Uri) : string :=
  vscode.scheme u +:+ ":" +:+ vscode.fsPath u +:+ "?" +:+ vscode.query u.

Section Node.
Context `{Collaborators} `{PullRequestManager}.

Definition provideDocumentContent (uri : vscode.Uri) : Op string :=
  match fromPRUri uri with
  | None => mret ""
  | Some params =>
      node ← get;
      let fileChanges :=
        filter (λ contentChange,
          isInMem contentChange
          ∧ node_fileName contentChange = params_fileName params)
          (_fileChanges node) in
      match fileChanges with
      | InMem fileChange :: _ =>
          let readContentFromDiffHunk :=
            bool_decide (isPartial fileChange = true
                         ∨ status fileChange = ADD
                         ∨ status fileChange = DELETE) in
          if readContentFromDiffHunk then
            if params_isBase params then
              let left :=
                fold_left (λ left diffHunk,
                    fold_left (λ left diffLine,
                        if decide (type diffLine = Add) then left
                        else if decide (type diffLine = Delete)
                             then left ++ [text diffLine]
                        else if decide (type diffLine = Control) then left
                        else left ++ [text diffLine])
                      (diffLines diffHunk) left)
                  (diffHunks fileChange) [] in
              mret (join_lines left)
            else
              let right :=
                fold_left (λ right diffHunk,
                    fold_left (λ right diffLine,
                        if decide (type diffLine = Add)
                        then right ++ [text diffLine]
                        else if decide (type diffLine = Delete) then right
                        else if decide (type diffLine = Control) then right
                        else right ++ [text diffLine])
                      (diffLines diffHunk) right)
                  (diffHunks fileChange) [] in
              mret (join_lines right)
          else
            let originalFileName :=
              if decide (status fileChange = RENAME)
              then previousFileName fileChange
              else Some (fileName fileChange) in
            match originalFileName with
            | None => throw TypeError
            | Some originalFileName =>
                let originalFilePath := path_join_root originalFileName in
                originalContent ← lift
                  (repository_show (params_baseCommit params)
                     originalFilePath);
                if params_isBase params then mret originalContent
                else mret (getModifiedContentFromDiffHunk originalContent
                             (patch fileChange))
            end
      | _ => mret ""
      end
  end.

(** The node found, with its index in [_fileChanges]. *)
Definition findMatchingFileNode (uri : vscode.Uri)
  : Op (nat * InMemFileChangeNode) :=
  match fromPRUri uri with
  | None => throw (MkError (uri_toString uri +:+ " is not valid PR document"))
  | Some params =>
      node ← get;
      match list_find (λ change,
              node_fileName change = params_fileName params)
              (_fileChanges node) with
      | None => throw (MkError "No matching file found")
      | Some (_, Remote _) =>
          throw (MkError "Comments not supported on remote file changes")
      | Some (i, InMem fileChange) => mret (i, fileChange)
      end
  end.

(** [fileChange.comments], read through the node. *)
Definition commentsAt (i : nat) : Op (list Comment) :=
  node ← get;
  match _fileChanges node !! i with
  | Some (InMem fileChange) => mret (comments fileChange)
  | _ => mret []
  end.

Definition createNewCommentThread (document : vscode.TextDocument)
    (range : vscode.Range) (text : string)
  : Op (option vscode.CommentThread) :=
  try_catch
    (let uri := vscode.uri document in
     let params := fromPRUri uri in
     node ← get;
     if match params with
        | Some p => bool_decide (params_prNumber p ≠ prNumber node)
        | None => false
        end
     then mret None
     else
       '(i, fileChange) ← findMatchingFileNode uri;
       let isBase :=
         match params with
         | Some p => params_isBase p
         | None => false
         end in
       let position :=
         mapHeadLineToDiffHunkPosition (diffHunks fileChange) ""
           (vscode.line (vscode.start range) + 1) isBase in
       if decide (position < 0)
       then throw (MkError "Comment position cannot be negative")
       else
         params ← match params with
                  | Some p => mret p
                  | None => throw TypeError
                  end;
         rawComment ← lift
           (createComment text (params_fileName params) position);
         rawComment ← match rawComment with
                      | Some c => mret c
                      | None => throw TypeError
                      end;
         let comment := toVsComment rawComment in
         cs ← commentsAt i;
         assignComments i (cs ++ [rawComment]);;
         mret (Some
           {| vscode.threadId := vscode.commentId comment;
              vscode.resource := uri;
              vscode.range := range;
              vscode.comments := [comment];
              vscode.collapsibleState := None |}))
    (λ e, throw (MkError (formatError e))).

Definition editComment (document : vscode.TextDocument)
    (comment : vscode.Comment) (text : string) : Op unit :=
  '(i, fileChange) ← findMatchingFileNode (vscode.uri document);
  match list_find (λ c, toString (id c) = vscode.commentId comment)
          (comments fileChange) with
  | None => throw (MkError "Unable to find comment")
  | Some (_, existingComment) =>
      rawComment ← lift (editReviewComment existingComment text);
      cs ← commentsAt i;
      match list_find (λ c, toString (id c) = vscode.commentId comment) cs
      with
      | Some (index, _) => assignComments i (<[index := rawComment]> cs)
      | None => mret tt
      end
  end.

Definition deleteComment (document : vscode.TextDocument)
    (comment : vscode.Comment) : Op unit :=
  '(i, fileChange) ← findMatchingFileNode (vscode.uri document);
  lift (deleteReviewComment (vscode.commentId comment));;
  cs ← commentsAt i;
  match list_find (λ c, toString (id c) = vscode.commentId comment) cs with
  | Some (index, _) => assignComments i (delete index cs)
  | None => mret tt
  end;;
  inDraftMode ← lift inDraftMode;
  node ← get;
  match _onDidChangeCommentThreads node with
  | Some _ =>
      fire {| vscode.added := []; vscode.changed := [];
              vscode.removed := [];
              vscode.event_inDraftMode := inDraftMode |}
  | None => mret tt
  end.

Definition replyToCommentThread (document : vscode.TextDocument)
    (_range : vscode.Range) (thread : vscode.CommentThread) (text : string)
  : Op vscode.CommentThread :=
  try_catch
    ('(i, fileChange) ← findMatchingFileNode (vscode.uri document);
     match list_find (λ c, toString (id c) = vscode.threadId thread)
             (comments fileChange) with
     | None => throw (MkError "Unable to find thread to respond to.")
     | Some (_, commentFromThread) =>
         rawComment ← lift (createCommentReply text commentFromThread);
         rawComment ← match rawComment with
                      | Some c => mret c
                      | None => throw TypeError
                      end;
         let thread :=
           set_comments (vscode.comments thread ++ [toVsComment rawComment])
             thread in
         cs ← commentsAt i;
         assignComments i (cs ++ [rawComment]);;
         mret thread
     end)
    (λ e, throw (MkError (formatError e))).

(** The arrays [changed] and [removed] after the call. *)
Definition calculateChangedAndRemovedThreads
    (changed removed : list vscode.CommentThread)
    (fileChange : InMemFileChangeNode) (deletedComments : list Comment)
    (isBase : bool)
  : result (list vscode.CommentThread * list vscode.CommentThread) :=
  oldCommentThreads ←
    commentsToCommentThreads fileChange (comments fileChange) isBase;
  mret (fold_left (λ '(changed, removed) thread,
      let thread :=
        set_comments
          (filter (λ comment,
             ¬ Exists (λ deletedComment,
                 toString (id deletedComment) = vscode.commentId comment)
                 deletedComments)
             (vscode.comments thread))
          thread in
      if decide (length (vscode.comments thread) = 0%nat)
      then (changed, removed ++ [thread])
      else (changed ++ [thread], removed))
    oldCommentThreads (changed, removed)).

(** The body of the loop of [deleteDraft] over the paths of the deleted
    comments: [changed] and [removed] after the path [filePath]. *)
Definition deleteDraftFile (deletedReviewId : Z)
    (acc : list vscode.CommentThread * list vscode.CommentThread)
    (entry : string * list Comment)
  : Op (list vscode.CommentThread * list vscode.CommentThread) :=
  let '(changed, removed) := acc in
  let '(filePath, commentsForFile) := entry in
  node ← get;
  match list_find (λ fileChange, node_fileName fileChange = filePath)
          (_fileChanges node) with
  | Some (i, InMem matchingFileChange) =>
      '(changed, removed) ← lift
        (calculateChangedAndRemovedThreads changed removed
           matchingFileChange commentsForFile true);
      '(changed, removed) ← lift
        (calculateChangedAndRemovedThreads changed removed
           matchingFileChange commentsForFile false);
      assignComments i
        (filter (λ comment,
           pullRequestReviewId comment ≠ Some deletedReviewId)
           (comments matchingFileChange));;
      mret (changed, removed)
  | _ => mret (changed, removed)
  end.

Definition deleteDraft : Op unit :=
  '(deletedReviewId, deletedReviewComments) ← lift deleteReview;
  commentsByPath ← lift
    (groupBy deletedReviewComments (λ comment,
       Ok (default "" (path comment))));
  '(changed, removed) ←
    forEachM (deleteDraftFile deletedReviewId) (forIn commentsByPath)
      ([], []);
  fire {| vscode.added := []; vscode.changed := changed;
          vscode.removed := removed;
          vscode.event_inDraftMode := false |}.

End Node.

(** ** Sample collaborators and data

    Concrete collaborators and a small pull request, on which the
    definitions above are run. *)
Module Sample.

(** Modelled from the spec: [getZeroBased] of
    [common/diffPositionMapping] converts a 1-based line number to a
    0-based one; [n <= 0] maps to [0]. *)
Definition zeroBased (n : Z) : Z := if decide (n ≤ 0) then 0 else n - 1.

Definition allLines (hunks : list DiffHunk) : list DiffLine :=
  concat (diffLines <$> hunks).

Definition lineAt (hunks : list DiffHunk) (p : Z) : option DiffLine :=
  head (filter (λ l, positionInHunk l = p) (allLines hunks)).

(** A sample of [getAbsolutePosition]: the old or new number of the diff
    line at the position of the comment, which is negative when the line
    has no number on that side, and a negative value when no hunk has the
    position. *)
Definition absolutePosition (c : Comment) (hunks : list DiffHunk)
    (isBase : bool) : Z :=
  match position c with
  | None => -1
  | Some p =>
      match lineAt hunks p with
      | Some l => if isBase then line_oldLineNumber l
                  else line_newLineNumber l
      | None => -1
      end
  end.

(** A sample of [getPositionInDiff]: the position of the comment, a
    negative value when no hunk has it. *)
Definition positionInDiff (c : Comment) (hunks : list DiffHunk)
    (isBase : bool) : Z :=
  match position c with
  | None => -1
  | Some p =>
      match lineAt hunks p with
      | Some _ => p
      | None => -1
      end
  end.

(** Modelled from the spec: [mapHeadLineToDiffHunkPosition] scans the
    hunks for the line whose old or new number is the target and returns
    its position, a negative value when no hunk has the line. *)
Definition diffPositionFromHeadLine (hunks : list DiffHunk) (_ : string)
    (targetLine : Z) (isBase : bool) : Z :=
  match head (filter (λ l,
                (if isBase then line_oldLineNumber l
                 else line_newLineNumber l) = targetLine)
                (allLines hunks)) with
  | Some l => positionInHunk l
  | None => -1
  end.

(** A sample encoding of the parameters in the uri of a document: scheme
    [pr], the file name as path, and a query made of [b] (base) or [h]
    (head) and the number of the pull request. *)
Definition decodeUri (u : vscode.Uri) : option PRUriParams :=
  if decide (vscode.scheme u = "pr") then
    match vscode.query u with
    | String side number =>
        n ← parse_digits 0 number;
        Some {| params_baseCommit := "base"; params_headCommit := "head";
                params_isBase := bool_decide (side = "b"%char);
                params_fileName := vscode.fsPath u;
                params_prNumber := Z.of_N n |}
    | EmptyString => None
    end
  else None.

#[export] Instance collaborators : Collaborators := {|
  getZeroBased := zeroBased;
  getAbsolutePosition := absolutePosition;
  getPositionInDiff := positionInDiff;
  mapHeadLineToDiffHunkPosition := diffPositionFromHeadLine;
  fromPRUri := decodeUri;
  formatError := λ e, match e with
                      | TypeError => "TypeError"
                      | MkError message => message
                      end;
  getModifiedContentFromDiffHunk := λ original patch, original +:+ patch;
  path_join_root := λ name, "/repo/" +:+ name;
  repository_show := λ _ _, Ok ""
|}.

Definition octocat : User := {| login := "octocat"; avatarUrl := "a.png" |}.

Definition mkComment (i : Z) (p : option Z) (b : string) (file : string)
    (review : option Z) : Comment :=
  {| id := i; position := p; body := b; user := octocat;
     canEdit := true; canDelete := true; isDraft := None;
     commitId := "head"; path := Some file;
     pullRequestReviewId := review; reactions := None |}.

(** A manager whose requests all succeed; [review] is what deleting the
    pending review answers. *)
Definition manager (review : Z * list Comment) : PullRequestManager := {|
  createComment := λ text file p,
    Ok (Some (mkComment 900 (Some p) text file None));
  editReviewComment := λ c text,
    Ok (mkComment (id c) (position c) text (default "" (path c))
          (pullRequestReviewId c));
  deleteReviewComment := λ _, Ok tt;
  createCommentReply := λ text c,
    Ok (Some (mkComment 901 (position c) text (default "" (path c)) None));
  inDraftMode := Ok false;
  deleteReview := Ok review
|}.

Definition mkLine (t : DiffChangeType) (s : string) (o n p : Z) : DiffLine :=
  {| type := t; text := s; line_oldLineNumber := o;
     line_newLineNumber := n; positionInHunk := p |}.

(** The diff [@@ -1,3 +1,4 @@] of the spec's scenario. *)
Definition hunk : DiffHunk :=
  {| oldLineNumber := 1; oldLength := 3; newLineNumber := 1; newLength := 4;
     diffLines := [ mkLine Control "@@ -1,3 +1,4 @@" (-1) (-1) 0;
                    mkLine Context "context" 1 1 1;
                    mkLine Delete "old line" 2 (-1) 2;
                    mkLine Add "new line A" (-1) 2 3;
                    mkLine Add "new line B" (-1) 3 4;
                    mkLine Context "context2" 3 4 5 ] |}.

Definition prUri (file query : string) : vscode.Uri :=
  {| vscode.scheme := "pr"; vscode.fsPath := file; vscode.query := query |}.

Definition fileUri (file : string) : vscode.Uri :=
  {| vscode.scheme := "file"; vscode.fsPath := file; vscode.query := "" |}.

Definition mkFile (name : string) (st : GitChangeType) (partial : bool)
    (cs : list Comment) : InMemFileChangeNode :=
  {| status := st; fileName := name; previousFileName := None;
     blobUrl := "blob"; filePath := prUri name "h1";
     parentFilePath := prUri name "b1"; isPartial := partial;
     patch := ""; diffHunks := [hunk]; comments := cs |}.

(** The comments of the pull request: a conversation on position 5, a
    draft on position 3, one comment of another file and one that is not
    anchored to a line. *)
Definition prComments : list Comment :=
  [ mkComment 100 (Some 5) "top" "a.ts" None;
    mkComment 7 (Some 3) "draft" "a.ts" (Some 55);
    mkComment 101 (Some 5) "reply" "a.ts" None;
    mkComment 8 (Some 1) "other" "b.ts" None;
    mkComment 9 None "general" "a.ts" None ].

Definition fileA : InMemFileChangeNode :=
  mkFile "a.ts" MODIFY false (commentsOfFile prComments "a.ts").

Definition fileNew : InMemFileChangeNode := mkFile "new.ts" ADD false [].

Definition node : PRNode :=
  {| prNumber := 1;
     _fileChanges := [ Remote {| remote_status := MODIFY;
                                 remote_fileName := "big.bin";
                                 remote_blobUrl := "blob" |};
                       InMem fileA; InMem fileNew ];
     _onDidChangeCommentThreads := Some [] |}.

Definition document (file query : string) : vscode.TextDocument :=
  {| vscode.uri := prUri file query; vscode.lineCount := 6 |}.

Definition mkVsComment (i b : string) : vscode.Comment :=
  {| vscode.commentId := i; vscode.body := {| vscode.value := b |};
     vscode.userName := "octocat"; vscode.gravatar := "a.png";
     vscode.canEdit := true; vscode.canDelete := true;
     vscode.isDraft := false; vscode.commentReactions := None |}.

Definition mkThread (i : string) (r : vscode.Uri)
    (cs : list vscode.Comment) : vscode.CommentThread :=
  {| vscode.threadId := i; vscode.resource := r;
     vscode.range := vscode.Range4 0 0 0 0; vscode.comments := cs;
     vscode.collapsibleState := Some vscode.Expanded |}.

(** Two generations of threads: thread 1 is edited, thread 2 is gone and
    thread 3, on a plain file, is new. *)
Definition oldGeneration : list vscode.CommentThread :=
  [ mkThread "1" (prUri "a.ts" "h1") [mkVsComment "1" "a"];
    mkThread "2" (prUri "a.ts" "h1") [mkVsComment "2" "gone"] ].

Definition newGeneration : list vscode.CommentThread :=
  [ mkThread "1" (prUri "a.ts" "h1") [mkVsComment "1" "b"];
    mkThread "3" (fileUri "a.ts") [mkVsComment "3" "new"] ].

(** The pending review 55 with its only comment, the draft on position 3
    of [a.ts]. *)
Definition draftReview : Z * list Comment :=
  (55, [mkComment 7 (Some 3) "draft" "a.ts" (Some 55)]).

(** A selection on a line no hunk has. *)
Definition farRange : vscode.Range := vscode.Range4 99 0 99 0.

(** A selection on the second line, the first added line on the head side. *)
Definition nearRange : vscode.Range := vscode.Range4 1 0 1 0.

End Sample.

(** ** Reference descriptions used in the statements *)

(** The identities of a generation of threads. *)
Definition identities (l : list vscode.CommentThread) : list string :=
  vscode.threadId <$> l.

(** What reconciliation looks at in a member: its identity and its text. *)
Definition memberKey (c : vscode.Comment) : string * string :=
  (vscode.commentId c, vscode.value (vscode.body c)).

(** What reconciliation looks at in a thread of the old generation. *)
Definition threadKey (t : vscode.CommentThread)
  : string * list (string * string) :=
  (vscode.threadId t, memberKey <$> vscode.comments t).

(** A new thread as reconciliation against [old] leaves it. *)
Definition afterVisit (old : list vscode.CommentThread)
    (t : vscode.CommentThread) : vscode.CommentThread :=
  if decide (vscode.threadId t ∈ identities old) then t
  else if decide (vscode.scheme (vscode.resource t) = "file")
       then set_collapsibleState vscode.Collapsed t
       else t.

(** The threads the visit of [t] pushes to [changed]. *)
Definition changedOf (old : list vscode.CommentThread)
    (t : vscode.CommentThread) : list vscode.CommentThread :=
  match filter (λ o, vscode.threadId o = vscode.threadId t) old with
  | [] => []
  | (first :: _) as matching =>
      (λ _, t) <$>
        filter (λ m, length (vscode.comments m) ≠ length (vscode.comments t)
                     ∨ commentsEditedInThread (vscode.comments first)
                         (vscode.comments t) = true) matching
  end.


Section GroupingReference.
Context `{Collaborators}.

(** The comments of a list that are anchored to position [p], in their
    order. *)
Definition partitionAt (p : Z) (cs : list Comment) : list Comment :=
  filter (λ c, position c = Some p) cs.

(** The thread of a partition: none when the partition is empty or the
    anchor line of its first comment is negative. *)
Definition threadOfPartition (fileChange : InMemFileChangeNode)
    (isBase : bool) (resource : vscode.Uri) (conv : Comment → vscode.Comment)
    (partition : list Comment) : option vscode.CommentThread :=
  first ← head partition;
  let anchor := commentAbsolutePosition fileChange first isBase in
  if decide (anchor < 0) then None
  else Some
    {| vscode.threadId := toString (id first);
       vscode.resource := resource;
       vscode.range :=
         vscode.Range4 (getZeroBased anchor) 0 (getZeroBased anchor) 0;
       vscode.comments := conv <$> partition;
       vscode.collapsibleState := Some vscode.Expanded |}.

(** The range of a hunk on the side viewed. *)
Definition rangeOfHunk (isBase : bool) (diffHunk : DiffHunk) : vscode.Range :=
  let startingLine :=
    getZeroBased (if isBase then oldLineNumber diffHunk
                  else newLineNumber diffHunk) in
  let length :=
    getZeroBased (if isBase then oldLength diffHunk
                  else newLength diffHunk) in
  vscode.Range4 startingLine 0 (startingLine + length) 0.

End GroupingReference.

(** A thread in the display state grouping gives it. *)
Definition startsExpanded (t : vscode.CommentThread) : Prop :=
  vscode.collapsibleState t = Some vscode.Expanded.

(** The lines a view keeps: context lines, and the deleted lines on the
    base side, the added lines on the head side. *)
Definition keptOn (isBase : bool) (diffLine : DiffLine) : Prop :=
  type diffLine = Context
  ∨ type diffLine = (if isBase then Delete else Add).

#[global] Instance keptOn_dec isBase diffLine : Decision (keptOn isBase diffLine).
Proof. unfold keptOn. apply _. Defined.

(** The two loops of [provideDocumentContent] over the lines of a hunk, as
    one function of the side. *)
Definition keepLine (isBase : bool) (lines : list string)
    (diffLine : DiffLine) : list string :=
  if isBase then
    if decide (type diffLine = Add) then lines
    else if decide (type diffLine = Delete) then lines ++ [text diffLine]
    else if decide (type diffLine = Control) then lines
    else lines ++ [text diffLine]
  else
    if decide (type diffLine = Add) then lines ++ [text diffLine]
    else if decide (type diffLine = Delete) then lines
    else if decide (type diffLine = Control) then lines
    else lines ++ [text diffLine].

(** The content both loops over the hunks build. *)
Definition contentFromDiffHunks (diffHunks : list DiffHunk) (isBase : bool)
  : string :=
  join_lines
    (fold_left (λ lines diffHunk,
        fold_left (keepLine isBase) (diffLines diffHunk) lines)
      diffHunks []).


Section NodeReference.
Context `{Collaborators}.



(** The line the selection of a new comment maps to, in the file change
    of the node that matches the document. *)
Definition selectedPosition (node : PRNode) (document : vscode.TextDocument)
    (range : vscode.Range) : option Z :=
  match (findMatchingFileNode (vscode.uri document) node).1 with
  | Ok (_, fileChange) =>
      Some (mapHeadLineToDiffHunkPosition (diffHunks fileChange) ""
              (vscode.line (vscode.start range) + 1)
              (match fromPRUri (vscode.uri document) with
               | Some p => params_isBase p
               | None => false
               end))
  | Throw _ => None
  end.

End NodeReference.

(** The members of a thread that are not among the deleted comments. *)
Definition survivors (deletedComments : list Comment)
    (thread : vscode.CommentThread) : list vscode.Comment :=
  filter (λ comment,
    ¬ Exists (λ deletedComment,
        toString (id deletedComment) = vscode.commentId comment)
        deletedComments)
    (vscode.comments thread).

(** The deleted comments of a file, as [deleteDraft] groups them. *)
Definition deletedOfFile (deletedReviewComments : list Comment)
    (filePath : string) : list Comment :=
  filter (λ comment, default "" (path comment) = filePath)
    deletedReviewComments.

(** Every comment list of the node holds anchored comments only. *)
Definition anchored (node : PRNode) : Prop :=
  Forall (λ change,
    match change with
    | Remote _ => True
    | InMem fileChange =>
        Forall (λ c, position c ≠ None) (comments fileChange)
    end) (_fileChanges node).

(** A member one of the deleted comments has the identity of. *)
Definition coveredBy (deletedComments : list Comment)
    (comment : vscode.Comment) : Prop :=
  Exists (λ deletedComment,
    toString (id deletedComment) = vscode.commentId comment) deletedComments.

(** A thread with the deleted comments taken out of its members. *)
Definition stripDeleted (deletedComments : list Comment)
    (thread : vscode.CommentThread) : vscode.CommentThread :=
  set_comments (survivors deletedComments thread) thread.

Section DraftReference.
Context `{Collaborators}.

(** The threads of a file change on one side, none when grouping throws. *)
Definition groupedThreads (fileChange : InMemFileChangeNode) (isBase : bool)
  : list vscode.CommentThread :=
  match commentsToCommentThreads fileChange (comments fileChange) isBase with
  | Ok threads => threads
  | Throw _ => []
  end.

(** The threads the loop of [deleteDraft] reports for a path. *)
Definition reported (fileChanges : list FileChangeNode)
    (entry : string * list Comment) : list vscode.CommentThread :=
  match list_find (λ change, node_fileName change = entry.1) fileChanges with
  | Some (_, InMem fileChange) =>
      stripDeleted entry.2 <$>
        (groupedThreads fileChange true ++ groupedThreads fileChange false)
  | _ => []
  end.

End DraftReference.

(** ** The rest of the node: refreshing and publishing comments *)

(** [c.isDraft = false] on a comment object. *)
Definition clearDraft (c : Comment) : Comment :=
  {| id := id c; position := position c; body := body c; user := user c;
     canEdit := canEdit c; canDelete := canDelete c; isDraft := Some false;
     commitId := commitId c; path := path c;
     pullRequestReviewId := pullRequestReviewId c;
     reactions := reactions c |}.

(** [fileChange.comments.forEach(c => c.isDraft = false)] on the in-memory
    file changes. *)
Definition clearDrafts (change : FileChangeNode) : FileChangeNode :=
  match change with
  | Remote n => Remote n
  | InMem fileChange =>
      InMem (set_file_comments (clearDraft <$> comments fileChange) fileChange)
  end.

(** The three arrays [updateComments] fills. *)
Record Delta := {
  delta_added : list vscode.CommentThread;
  delta_removed : list vscode.CommentThread;
  delta_changed : list vscode.CommentThread
}.

(** The raw changes [parseDiff] gives [getChildren]: the fields the node
    reads of [SlimFileChange] and [InMemFileChange] of [common/file]. *)
Record SlimFileChange := {
  slim_blobUrl : string;
  slim_status : GitChangeType;
  slim_fileName : string
}.

Record InMemFileChange := {
  raw_baseCommit : string;
  raw_status : GitChangeType;
  raw_fileName : string;
  raw_previousFileName : option string;
  raw_patch : string;
  raw_diffHunks : list DiffHunk;
  raw_isPartial : bool;
  raw_blobUrl : string
}.

Inductive RawChange :=
  | Slim (change : SlimFileChange)
  | InMemRaw (change : InMemFileChange).

(** What [getChildren] imports to build the uris of a file change:
    [toPRUri] of [common/uri] and [path.resolve] on the root of the
    repository. *)
Class UriCollaborators := {
  toPRUri : vscode.Uri → string → string → string → bool → GitChangeType
            → vscode.Uri;
  path_resolve_root : string → string
}.

(** [vscode.Uri.file(path)] *)
Definition Uri_file (p : string) : vscode.Uri :=
  {| vscode.scheme := "file"; vscode.fsPath := p; vscode.query := "" |}.

Section NodeRest.
Context `{Collaborators} `{PullRequestManager} `{UriCollaborators}.

(** The callback of [rawChanges.map] in [getChildren]: the node of a raw
    change, [headCommit] being the head of the pull request.  The uri of
    the head side is the seventh argument of the constructor of
    [InMemFileChangeNode], [filePath], the uri of the base side the eighth,
    [parentFilePath]. *)
Definition fileChangeNodeOf (headCommit : string) (comments : list Comment)
    (change : RawChange) : FileChangeNode :=
  match change with
  | Slim change =>
      Remote {| remote_status := slim_status change;
                remote_fileName := slim_fileName change;
                remote_blobUrl := slim_blobUrl change |}
  | InMemRaw change =>
      InMem
        {| status := raw_status change;
           fileName := raw_fileName change;
           previousFileName := raw_previousFileName change;
           blobUrl := raw_blobUrl change;
           filePath :=
             toPRUri (Uri_file (path_resolve_root (raw_fileName change)))
               (raw_baseCommit change) headCommit (raw_fileName change)
               false (raw_status change);
           parentFilePath :=
             toPRUri (Uri_file (path_resolve_root (raw_fileName change)))
               (raw_baseCommit change) headCommit (raw_fileName change)
               true (raw_status change);
           isPartial := raw_isPartial change;
           patch := raw_patch change;
           diffHunks := raw_diffHunks change;
           comments :=
             filter (λ comment,
               path comment = Some (raw_fileName change)
               ∧ position comment ≠ None) comments |}
  end.

(** The body of the loop of [updateComments] over the old file changes:
    the three arrays after [oldFileChange]. *)
Definition updateCommentsFile (fileChanges : list FileChangeNode)
    (acc : Delta) (oldFileChange : FileChangeNode) : result Delta :=
  match oldFileChange with
  | Remote _ => mret acc
  | InMem oldFileChange =>
      let newFileChanges :=
        filter (λ fileChange,
          node_fileName fileChange = fileName oldFileChange)
          (filter isInMem fileChanges) in
      match newFileChanges with
      | InMem newFileChange :: _ =>
          oldLeftSideCommentThreads ←
            commentsToCommentThreads oldFileChange (comments oldFileChange)
              true;
          newLeftSideCommentThreads ←
            commentsToCommentThreads newFileChange (comments newFileChange)
              true;
          let removed :=
            delta_removed acc
            ++ getRemovedCommentThreads oldLeftSideCommentThreads
                 newLeftSideCommentThreads in
          let leftSideAddedOrUpdated :=
            getAddedOrUpdatedCommentThreads oldLeftSideCommentThreads
              newLeftSideCommentThreads in
          let added := delta_added acc ++ leftSideAddedOrUpdated.1 in
          let changed := delta_changed acc ++ leftSideAddedOrUpdated.2 in
          oldRightSideCommentThreads ←
            commentsToCommentThreads oldFileChange (comments oldFileChange)
              false;
          newRightSideCommentThreads ←
            commentsToCommentThreads newFileChange (comments newFileChange)
              false;
          let removed :=
            removed
            ++ getRemovedCommentThreads oldRightSideCommentThreads
                 newRightSideCommentThreads in
          let rightSideAddedOrUpdated :=
            getAddedOrUpdatedCommentThreads oldRightSideCommentThreads
              newRightSideCommentThreads in
          let added := added ++ rightSideAddedOrUpdated.1 in
          let changed := changed ++ rightSideAddedOrUpdated.2 in
          mret {| delta_added := added; delta_removed := removed;
                  delta_changed := changed |}
      | _ => mret acc
      end
  end.

(** The three arrays of [updateComments] after its loop. *)
Definition updateCommentsDelta (oldFileChanges fileChanges
    : list FileChangeNode) : result Delta :=
  fold_left (λ acc oldFileChange,
      acc ← acc; updateCommentsFile fileChanges acc oldFileChange)
    oldFileChanges
    (Ok {| delta_added := []; delta_removed := []; delta_changed := [] |}).

Definition updateComments (comments : list Comment)
    (fileChanges : list FileChangeNode) : Op unit :=
  node ← get;
  match _onDidChangeCommentThreads node with
  | None => mret tt
  | Some _ =>
      delta ← lift (updateCommentsDelta (_fileChanges node) fileChanges);
      if bool_decide (length (delta_added delta) ≠ 0%nat
                      ∨ length (delta_removed delta) ≠ 0%nat
                      ∨ length (delta_changed delta) ≠ 0%nat)
      then
        inDraftMode ← lift inDraftMode;
        fire {| vscode.added := delta_added delta;
                vscode.removed := delta_removed delta;
                vscode.changed := delta_changed delta;
                vscode.event_inDraftMode := inDraftMode |}
      else mret tt
  end.

Definition provideDocumentComments (document : vscode.TextDocument)
  : Op (option vscode.CommentInfo) :=
  if decide (vscode.scheme (vscode.uri document) = "pr") then
    inDraftMode ← lift inDraftMode;
    node ← get;
    lift (providePRDocumentComments document (prNumber node)
            (_fileChanges node) inDraftMode)
  else mret None.

(** The threads [updateCommentPendingState] collects: of every in-memory
    file change, those of the head side, then those of the base side. *)
Definition allCommentThreads (fileChanges : list FileChangeNode)
  : result (list vscode.CommentThread) :=
  fold_left (λ threads change,
      threads ← threads;
      match change with
      | InMem change =>
          head ← commentsToCommentThreads change (comments change) false;
          base ← commentsToCommentThreads change (comments change) true;
          mret ((threads ++ head) ++ base)
      | Remote _ => mret threads
      end)
    fileChanges (Ok []).

Definition updateCommentPendingState : Op unit :=
  modify (λ node,
    set_fileChanges (clearDrafts <$> _fileChanges node) node);;
  node ← get;
  commentThreads ← lift (allCommentThreads (_fileChanges node));
  fire {| vscode.added := []; vscode.changed := commentThreads;
          vscode.removed := []; vscode.event_inDraftMode := false |}.

End NodeRest.

(** ** Reference descriptions for the rest of the node *)

(** The comment lists of a node hold comments of pairwise distinct
    identities. *)
Definition distinctComments (fileChanges : list FileChangeNode) : Prop :=
  Forall (λ change,
    match change with
    | Remote _ => True
    | InMem fileChange => NoDup (id <$> comments fileChange)
    end) fileChanges.

(** The comment lists of file changes hold anchored comments only. *)
Definition anchoredChanges (fileChanges : list FileChangeNode) : Prop :=
  Forall (λ change,
    match change with
    | Remote _ => True
    | InMem fileChange =>
        Forall (λ c, position c ≠ None) (comments fileChange)
    end) fileChanges.

(** A file change as [deleteDraft] leaves it: without the comments of the
    deleted review when it is the first file change of its name and the
    review has comments on that name. *)
Definition withoutReview (deletedReviewId : Z)
    (deletedReviewComments : list Comment) (fileChanges : list FileChangeNode)
    (j : nat) (change : FileChangeNode) : FileChangeNode :=
  match change with
  | Remote n => Remote n
  | InMem fileChange =>
      if decide (deletedOfFile deletedReviewComments (fileName fileChange)
                 ≠ []
                 ∧ fst <$> list_find (λ c,
                             node_fileName c = fileName fileChange)
                             fileChanges = Some j)
      then InMem (set_file_comments
                    (filter (λ comment,
                       pullRequestReviewId comment ≠ Some deletedReviewId)
                       (comments fileChange))
                    fileChange)
      else InMem fileChange
  end.

(** A file change without its comments. *)
Definition skeleton (change : FileChangeNode) : FileChangeNode :=
  match change with
  | Remote n => Remote n
  | InMem fileChange => InMem (set_file_comments [] fileChange)
  end.

(** [node'] differs from [node] in comment lists and in events fired
    since: the pull request, the file changes and all they hold but their
    comments are the same, an emitter is neither created nor dropped, and
    the events fired before are still there, in their order. *)
Definition onlyComments (node node' : PRNode) : Prop :=
  prNumber node' = prNumber node
  ∧ skeleton <$> _fileChanges node' = skeleton <$> _fileChanges node
  ∧ match _onDidChangeCommentThreads node with
    | None => _onDidChangeCommentThreads node' = None
    | Some events =>
        ∃ more, _onDidChangeCommentThreads node' = Some (events ++ more)
    end.

(** An operation that changes comment lists and fires events only. *)
Definition preserving {A} (m : Op A) : Prop :=
  ∀ node, onlyComments node (m node).2.

(** A member as the events carry it: without the reactions the documents
    show. *)
Definition withoutReactions (comment : vscode.Comment) : vscode.Comment :=
  {| vscode.commentId := vscode.commentId comment;
     vscode.body := vscode.body comment;
     vscode.userName := vscode.userName comment;
     vscode.gravatar := vscode.gravatar comment;
     vscode.canEdit := vscode.canEdit comment;
     vscode.canDelete := vscode.canDelete comment;
     vscode.isDraft := vscode.isDraft comment;
     vscode.commentReactions := None |}.

(** The thread of a document as the events of the node carry it: on the
    uri of its side of the file change, its members without reactions. *)
Definition eventThread (fileChange : InMemFileChangeNode) (isBase : bool)
    (thread : vscode.CommentThread) : vscode.CommentThread :=
  {| vscode.threadId := vscode.threadId thread;
     vscode.resource :=
       if isBase then parentFilePath fileChange else filePath fileChange;
     vscode.range := vscode.range thread;
     vscode.comments := withoutReactions <$> vscode.comments thread;
     vscode.collapsibleState := vscode.collapsibleState thread |}.

(** [withoutReview] for the paths of [keys]: the file changes when the
    loop of [deleteDraft] has visited these paths. *)
Definition withoutReviewOn (keys : list string) (deletedReviewId : Z)
    (fileChanges : list FileChangeNode) (j : nat) (change : FileChangeNode)
  : FileChangeNode :=
  match change with
  | Remote n => Remote n
  | InMem fileChange =>
      if decide (fileName fileChange ∈ keys
                 ∧ fst <$> list_find (λ c,
                             node_fileName c = fileName fileChange)
                             fileChanges = Some j)
      then InMem (set_file_comments
                    (filter (λ comment,
                       pullRequestReviewId comment ≠ Some deletedReviewId)
                       (comments fileChange))
                    fileChange)
      else InMem fileChange
  end.

(** ** Sample raw changes

    The raw changes of the sample pull request and sample uris for the
    file changes [getChildren] builds of them. *)
Module SampleChildren.

#[export] Instance uriCollaborators : UriCollaborators := {|
  toPRUri := λ _ _ _ name isBase _,
    Sample.prUri name (if isBase then "b1" else "h1");
  path_resolve_root := λ name, "/repo/" +:+ name
|}.

Definition rawChanges : list RawChange :=
  [ Slim {| slim_blobUrl := "blob"; slim_status := MODIFY;
            slim_fileName := "big.bin" |};
    InMemRaw {| raw_baseCommit := "base"; raw_status := MODIFY;
                raw_fileName := "a.ts"; raw_previousFileName := None;
                raw_patch := ""; raw_diffHunks := [Sample.hunk];
                raw_isPartial := false; raw_blobUrl := "blob" |};
    InMemRaw {| raw_baseCommit := "base"; raw_status := ADD;
                raw_fileName := "new.ts"; raw_previousFileName := None;
                raw_patch := ""; raw_diffHunks := [Sample.hunk];
                raw_isPartial := false; raw_blobUrl := "blob" |} ].

(** The node once [getChildren] has built its file changes. *)
Definition node : PRNode :=
  {| prNumber := 1;
     _fileChanges := fileChangeNodeOf "head" Sample.prComments <$> rawChanges;
     _onDidChangeCommentThreads := Some [] |}.

End SampleChildren.
(** ** Facts on lists and loops *)

Section ListFacts.
Context {A B : Type}.
Implicit Types l : list A.

Lemma fold_left_push (Q : A → Prop) `{!∀ x, Decision (Q x)} (g : A → B)
    l (acc : list B) :
  fold_left (λ acc x, if decide (Q x) then acc ++ [g x] else acc) l acc
  = acc ++ (g <$> filter Q l).
Proof.
  revert acc. induction l as [|x l IH]; intros acc; simpl.
  - by rewrite app_nil_r.
  - rewrite IH, filter_cons. destruct (decide (Q x)); [|done].
    by rewrite fmap_cons, <- app_assoc.
Qed.

Lemma length_filter_zero (P : A → Prop) `{!∀ x, Decision (P x)} l :
  length (filter P l) = 0%nat ↔ Forall (λ x, ¬ P x) l.
Proof.
  induction l as [|x l IH]; simpl.
  - split; [constructor | done].
  - rewrite filter_cons, Forall_cons. destruct (decide (P x)); simpl.
    + split; [done | tauto].
    + rewrite IH. tauto.
Qed.

Lemma filter_key_eq `{!EqDecision B} (f : A → B) l x :
  NoDup (f <$> l) → x ∈ l → filter (λ y, f y = f x) l = [x].
Proof.
  induction l as [|y l IH]; intros Hnd Hin; [by apply elem_of_nil in Hin|].
  rewrite fmap_cons in Hnd. apply NoDup_cons in Hnd as [Hy Hnd].
  rewrite filter_cons. apply elem_of_cons in Hin as [->|Hin].
  - rewrite decide_True by done. f_equal.
    apply length_zero_iff_nil, length_filter_zero, Forall_forall.
    intros z Hz Heq. apply Hy. rewrite <- Heq. by apply list_elem_of_fmap_2.
  - rewrite decide_False; [by apply IH|].
    intros Heq. apply Hy. rewrite Heq. by apply list_elem_of_fmap_2.
Qed.

Lemma filter_fmap_eq {C} (f : A → C) (P Q : A → Prop)
    `{!∀ x, Decision (P x)} `{!∀ x, Decision (Q x)} l l' :
  f <$> l = f <$> l' →
  (∀ x y, f x = f y → P x ↔ Q y) →
  f <$> filter P l = f <$> filter Q l'.
Proof.
  revert l'. induction l as [|x l IH]; intros [|y l'] Heq HPQ;
    try discriminate; [done|].
  rewrite !fmap_cons in Heq. injection Heq as Hxy Heq.
  rewrite !filter_cons. specialize (IH l' Heq HPQ).
  destruct (decide (P x)) as [HP|HP], (decide (Q y)) as [HQ|HQ].
  - rewrite !fmap_cons. by f_equal.
  - exfalso. by apply HQ, (HPQ x y).
  - exfalso. by apply HP, (HPQ x y).
  - done.
Qed.

Lemma filter_fmap (f : A → B) (P : B → Prop) `{!∀ y, Decision (P y)} l :
  filter P (f <$> l) = f <$> filter (λ x, P (f x)) l.
Proof.
  induction l as [|x l IH]; [done|].
  rewrite fmap_cons, !filter_cons, IH. by destruct (decide (P (f x))).
Qed.

End ListFacts.

Lemma no_match_iff (i : string) (l : list vscode.CommentThread) :
  length (filter (λ t, vscode.threadId t = i) l) = 0%nat ↔ i ∉ identities l.
Proof.
  rewrite length_filter_zero, Forall_forall. unfold identities. split.
  - intros Hall (t & -> & Hin)%list_elem_of_fmap. by apply (Hall t).
  - intros Hnot t Hin Heq. apply Hnot. subst i. by apply list_elem_of_fmap_2.
Qed.

(** ** Reconciliation *)

Lemma getRemovedCommentThreads_filter old new :
  getRemovedCommentThreads old new
  = filter (λ t, vscode.threadId t ∉ identities new) old.
Proof.
  unfold getRemovedCommentThreads.
  rewrite (fold_left_push
    (λ thread, length (filter (λ newThread,
       vscode.threadId newThread = vscode.threadId thread) new) = 0%nat)
    Datatypes.id).
  rewrite list_fmap_id. simpl.
  apply list_filter_iff. intros t. apply no_match_iff.
Qed.

Lemma commentsEditedInThread_true oldComments newComments :
  commentsEditedInThread oldComments newComments = true ↔
  ∃ oc, oc ∈ oldComments ∧
    (length (filter (λ nc, vscode.commentId nc = vscode.commentId oc)
               newComments) ≠ 1%nat
     ∨ ∃ nc, nc ∈ newComments ∧ vscode.commentId nc = vscode.commentId oc
             ∧ vscode.value (vscode.body nc) ≠ vscode.value (vscode.body oc)).
Proof.
  unfold commentsEditedInThread. rewrite existsb_exists.
  split; intros (oc & Hin & Hoc); exists oc.
  - split; [by apply list_elem_of_In|].
    destruct (decide (length _ ≠ 1%nat)) as [Hlen|Hlen]; [by left|].
    apply dec_stable in Hlen.
    destruct (filter _ newComments) as [|first rest] eqn:Hf; [done|].
    destruct (decide (_ ≠ _)) as [Hbody|]; [|done].
    right. exists first.
    assert (first ∈ filter (λ nc, vscode.commentId nc = vscode.commentId oc)
              newComments) as Hfirst by (rewrite Hf; left).
    apply list_elem_of_filter in Hfirst as [? ?]. done.
  - split; [by apply list_elem_of_In|].
    destruct (decide (length _ ≠ 1%nat)) as [Hlen|Hlen]; [done|].
    destruct Hoc as [Hne | (nc & Hnc & Hid & Hbody)]; [done|].
    apply dec_stable in Hlen.
    assert (nc ∈ filter (λ nc, vscode.commentId nc = vscode.commentId oc)
              newComments) as Hfirst by (by apply list_elem_of_filter).
    destruct (filter _ newComments) as [|first [|? ?]]; simplify_eq/=.
    apply list_elem_of_singleton in Hfirst as ->.
    by rewrite decide_True.
Qed.

Lemma visitThread_spec old acc t :
  visitThread old acc t
  = {| rec_added :=
         rec_added acc
         ++ (if decide (vscode.threadId t ∈ identities old) then []
             else [afterVisit old t]);
       rec_changed := rec_changed acc ++ changedOf old t;
       rec_visited := rec_visited acc ++ [afterVisit old t] |}.
Proof.
  unfold visitThread, afterVisit, changedOf.
  destruct (decide (length _ = 0%nat)) as [Hlen|Hlen].
  - pose proof Hlen as Hnot%no_match_iff.
    rewrite !(decide_False (P := _ ∈ _)) by done.
    apply length_zero_iff_nil in Hlen. rewrite Hlen.
    by rewrite app_nil_r.
  - assert (vscode.threadId t ∈ identities old) as Hin.
    { destruct (decide (vscode.threadId t ∈ identities old)); [done|].
      by apply no_match_iff in n. }
    rewrite !(decide_True (P := _ ∈ _)) by done. rewrite app_nil_r.
    destruct (filter _ old) as [|first rest] eqn:Hf; [done|].
    f_equal.
    apply (fold_left_push (λ m,
      length (vscode.comments m) ≠ length (vscode.comments t)
      ∨ commentsEditedInThread (vscode.comments first) (vscode.comments t)
        = true) (λ _, t)).
Qed.

Lemma reconcile_spec old new :
  reconcile old new
  = {| rec_added :=
         afterVisit old <$>
           filter (λ t, vscode.threadId t ∉ identities old) new;
       rec_changed := new ≫= changedOf old;
       rec_visited := afterVisit old <$> new |}.
Proof.
  unfold reconcile.
  enough (∀ acc, fold_left (visitThread old) new acc
    = {| rec_added := rec_added acc ++ (afterVisit old <$>
           filter (λ t, vscode.threadId t ∉ identities old) new);
         rec_changed := rec_changed acc ++ (new ≫= changedOf old);
         rec_visited := rec_visited acc ++ (afterVisit old <$> new) |})
    as -> by done.
  induction new as [|t new IH]; intros acc; simpl.
  - rewrite !app_nil_r. by destruct acc.
  - rewrite IH, visitThread_spec; simpl. rewrite filter_cons.
    destruct (decide (vscode.threadId t ∈ identities old)).
    + rewrite decide_False by tauto.
      by rewrite app_nil_r, <- !app_assoc.
    + rewrite decide_True by done.
      by rewrite fmap_cons, <- !app_assoc.
Qed.

Lemma identities_threadKey l :
  identities l = (threadKey <$> l).*1.
Proof. unfold identities. by rewrite <- list_fmap_compose. Qed.

Lemma elem_of_changed old new t :
  t ∈ rec_changed (reconcile old new) ↔
  t ∈ new ∧
  ∃ first rest,
    filter (λ o, vscode.threadId o = vscode.threadId t) old = first :: rest
    ∧ Exists (λ m,
        length (vscode.comments m) ≠ length (vscode.comments t)
        ∨ commentsEditedInThread (vscode.comments first) (vscode.comments t)
          = true) (first :: rest).
Proof.
  rewrite reconcile_spec; simpl. rewrite list_elem_of_bind.
  assert (∀ t', t ∈ changedOf old t' → t' = t) as Hsame.
  { intros t'. unfold changedOf. destruct (filter _ old); [by intros ?%elem_of_nil|].
    by intros (? & -> & _)%list_elem_of_fmap. }
  split.
  - intros (t' & Hin & Hnew). pose proof (Hsame _ Hin) as ->. split; [done|].
    unfold changedOf in Hin.
    destruct (filter _ old) as [|first rest]; [by apply elem_of_nil in Hin|].
    exists first, rest. split; [done|].
    apply list_elem_of_fmap in Hin as (m & _ & Hm).
    apply list_elem_of_filter in Hm as [Hm ?].
    apply Exists_exists. by exists m.
  - intros (Hnew & first & rest & Hf & Hex). exists t. split; [|done].
    unfold changedOf. rewrite Hf.
    apply Exists_exists in Hex as (m & Hm & Hcond).
    apply list_elem_of_fmap. exists m. split; [done|].
    by apply list_elem_of_filter.
Qed.

Lemma changed_subset old new t :
  t ∈ rec_changed (reconcile old new) →
  t ∈ new ∧ vscode.threadId t ∈ identities old.
Proof.
  intros (Hnew & first & rest & Hf & _)%elem_of_changed. split; [done|].
  assert (first ∈ filter (λ o, vscode.threadId o = vscode.threadId t) old)
    as [<- Hin]%list_elem_of_filter by (rewrite Hf; left).
  by apply list_elem_of_fmap_2.
Qed.

Lemma afterVisit_threadId old t :
  vscode.threadId (afterVisit old t) = vscode.threadId t.
Proof. unfold afterVisit. by repeat case_decide. Qed.

Lemma afterVisit_comments old t :
  vscode.comments (afterVisit old t) = vscode.comments t.
Proof. unfold afterVisit. by repeat case_decide. Qed.

Lemma afterVisit_resource old t :
  vscode.resource (afterVisit old t) = vscode.resource t.
Proof. unfold afterVisit. by repeat case_decide. Qed.

Lemma afterVisit_idemp old t :
  afterVisit old (afterVisit old t) = afterVisit old t.
Proof.
  unfold afterVisit at 1. rewrite afterVisit_threadId, afterVisit_resource.
  unfold afterVisit. by repeat case_decide.
Qed.

Lemma identities_afterVisit old new :
  identities (afterVisit old <$> new) = identities new.
Proof.
  unfold identities. rewrite <- list_fmap_compose.
  apply list_fmap_ext. intros _ t _. apply afterVisit_threadId.
Qed.

Lemma changedOf_afterVisit old t :
  changedOf old (afterVisit old t) = changedOf old t.
Proof.
  unfold afterVisit. case_decide as Hin; [done|].
  apply no_match_iff, length_zero_iff_nil in Hin.
  unfold changedOf. rewrite Hin.
  by case_decide; simpl; rewrite ?Hin.
Qed.

Lemma commentsEditedInThread_key a a' n :
  memberKey <$> a = memberKey <$> a' →
  commentsEditedInThread a n = commentsEditedInThread a' n.
Proof.
  unfold commentsEditedInThread. revert a'.
  induction a as [|x a IH]; intros [|y a'] Heq; try discriminate; [done|].
  rewrite !fmap_cons in Heq. injection Heq as Hid Hbody Heq. simpl.
  rewrite (IH a' Heq). f_equal. by rewrite Hid, Hbody.
Qed.

Lemma const_fmap_length {A B} (x : B) (l l' : list A) :
  length l = length l' → (λ _, x) <$> l = (λ _, x) <$> l'.
Proof.
  revert l'. induction l as [|a l IH]; intros [|a' l'] Hlen;
    simplify_eq/=; [done|]. f_equal. by apply IH.
Qed.

Lemma threadKey_eq x y :
  threadKey x = threadKey y →
  vscode.threadId x = vscode.threadId y
  ∧ memberKey <$> vscode.comments x = memberKey <$> vscode.comments y.
Proof. intros Hxy. split; [apply (f_equal fst) in Hxy | apply (f_equal snd) in Hxy]; done. Qed.

Lemma changedOf_key old old' t :
  threadKey <$> old' = threadKey <$> old →
  changedOf old' t = changedOf old t.
Proof.
  intros Hkey. unfold changedOf.
  pose proof (filter_fmap_eq threadKey
    (λ o, vscode.threadId o = vscode.threadId t)
    (λ o, vscode.threadId o = vscode.threadId t) old' old Hkey) as Hf.
  lapply Hf; [clear Hf; intros Hf|].
  2:{ intros x y [Hxy _]%threadKey_eq. by rewrite Hxy. }
  destruct (filter _ old') as [|first' rest'], (filter _ old) as [|first rest];
    try discriminate; [done|].
  apply const_fmap_length.
  rewrite <- (length_fmap threadKey),
    <- (length_fmap threadKey (filter _ (first :: rest))).
  f_equal.
  assert (threadKey first' = threadKey first) as [_ Hfirst]%threadKey_eq.
  { rewrite !fmap_cons in Hf. apply (f_equal head) in Hf. simpl in Hf.
    congruence. }
  apply filter_fmap_eq; [done|].
  intros x y [_ Hxy]%threadKey_eq.
  rewrite (commentsEditedInThread_key _ _ _ Hfirst).
  by rewrite <- (length_fmap memberKey), Hxy, length_fmap.
Qed.

(** C2. When a thread identity is in both generations (once in the old
    one, as grouping produces them), the new thread is reported in
    [changed] exactly when the number of members differs, or the identity
    of some old member does not occur exactly once among the new members,
    or some old member and the new member of that identity differ in their
    text; a thread whose members have the same identities and texts is not
    reported. *)
Theorem changed_iff_members_differ old new t m :
  NoDup (identities old) → t ∈ new → m ∈ old →
  vscode.threadId m = vscode.threadId t →
  (t ∈ (getAddedOrUpdatedCommentThreads old new).2 ↔
     length (vscode.comments m) ≠ length (vscode.comments t)
     ∨ ∃ oc, oc ∈ vscode.comments m ∧
         (length (filter (λ nc, vscode.commentId nc = vscode.commentId oc)
                    (vscode.comments t)) ≠ 1%nat
          ∨ ∃ nc, nc ∈ vscode.comments t
                  ∧ vscode.commentId nc = vscode.commentId oc
                  ∧ vscode.value (vscode.body nc)
                    ≠ vscode.value (vscode.body oc)))
  ∧ (NoDup (vscode.commentId <$> vscode.comments t) →
     memberKey <$> vscode.comments m ≡ₚ memberKey <$> vscode.comments t →
     t ∉ (getAddedOrUpdatedCommentThreads old new).2).
Proof.
  intros Hnd Hnew Hold Hid.
  assert (filter (λ o, vscode.threadId o = vscode.threadId t) old = [m]) as Hf.
  { rewrite <- Hid. by apply filter_key_eq. }
  assert (t ∈ (getAddedOrUpdatedCommentThreads old new).2 ↔
     length (vscode.comments m) ≠ length (vscode.comments t)
     ∨ commentsEditedInThread (vscode.comments m) (vscode.comments t) = true)
    as Hiff.
  { unfold getAddedOrUpdatedCommentThreads; simpl. rewrite elem_of_changed.
    split.
    - intros (_ & first & rest & Hf' & Hex). rewrite Hf in Hf'.
      injection Hf' as <- <-. by apply Exists_cons in Hex as [?|?%Exists_nil].
    - intros Hcond. split; [done|]. exists m, []. split; [done|].
      by apply Exists_cons_hd. }
  split.
  - by rewrite Hiff, commentsEditedInThread_true.
  - intros Hndt Hperm. rewrite Hiff, commentsEditedInThread_true.
    intros [Hlen | (oc & Hoc & Hdiff)].
    + apply Hlen. apply Permutation_length in Hperm.
      by rewrite !length_fmap in Hperm.
    + assert (memberKey oc ∈ memberKey <$> vscode.comments t) as Hk.
      { rewrite <- Hperm. by apply list_elem_of_fmap_2. }
      apply list_elem_of_fmap in Hk as (nc & Hk & Hnc).
      unfold memberKey in Hk. injection Hk as Hcid Hbody.
      pose proof (filter_key_eq vscode.commentId _ nc Hndt Hnc) as Hone.
      rewrite <- Hcid in Hone.
      destruct Hdiff as [Hlen | (nc' & Hnc' & Hcid' & Hbody')].
      * by rewrite Hone in Hlen.
      * assert (nc' ∈ [nc]) as ->%list_elem_of_singleton.
        { rewrite <- Hone. by apply list_elem_of_filter. }
        by rewrite Hbody in Hbody'.
Qed.

Lemma identities_added old new :
  identities (rec_added (reconcile old new))
  = filter (λ i, i ∉ identities old) (identities new).
Proof.
  rewrite reconcile_spec; simpl. unfold identities.
  rewrite <- list_fmap_compose, filter_fmap.
  apply list_fmap_ext. intros _ t _. apply afterVisit_threadId.
Qed.

Lemma identities_removed old new :
  identities (getRemovedCommentThreads old new)
  = filter (λ i, i ∉ identities new) (identities old).
Proof.
  rewrite getRemovedCommentThreads_filter. unfold identities.
  by rewrite filter_fmap.
Qed.

Lemma identities_changed old new i :
  i ∈ identities (rec_changed (reconcile old new)) →
  i ∈ identities old ∧ i ∈ identities new.
Proof.
  intros (t & -> & [Hnew Hold]%changed_subset)%list_elem_of_fmap.
  split; [done|]. by apply list_elem_of_fmap_2.
Qed.

(** C3. [removed] is the old threads whose identity no new thread has,
    [added] is the new threads whose identity no old thread has (as the
    visit leaves them), [changed] only holds new threads whose identity is
    in both generations, and an identity is in one of the generations
    exactly when it is in exactly one of the four classes: added, removed,
    changed, or in both generations and not changed. *)
Theorem reconciliation_partitions_identities old new i :
  let removed := getRemovedCommentThreads old new in
  let added := (getAddedOrUpdatedCommentThreads old new).1 in
  let changed := (getAddedOrUpdatedCommentThreads old new).2 in
  let isAdded := i ∈ identities added in
  let isRemoved := i ∈ identities removed in
  let isChanged := i ∈ identities changed in
  let isUnchanged :=
    i ∈ identities old ∧ i ∈ identities new ∧ i ∉ identities changed in
  removed = filter (λ t, vscode.threadId t ∉ identities new) old
  ∧ added = afterVisit old <$>
              filter (λ t, vscode.threadId t ∉ identities old) new
  ∧ identities added
    = identities (filter (λ t, vscode.threadId t ∉ identities old) new)
  ∧ Forall (λ t, t ∈ new ∧ vscode.threadId t ∈ identities old) changed
  ∧ (i ∈ identities old ∨ i ∈ identities new ↔
       isAdded ∨ isRemoved ∨ isChanged ∨ isUnchanged)
  ∧ ¬ (isAdded ∧ isRemoved) ∧ ¬ (isAdded ∧ isChanged)
  ∧ ¬ (isAdded ∧ isUnchanged) ∧ ¬ (isRemoved ∧ isChanged)
  ∧ ¬ (isRemoved ∧ isUnchanged) ∧ ¬ (isChanged ∧ isUnchanged).
Proof.
  cbv zeta. unfold getAddedOrUpdatedCommentThreads. cbn [fst snd].
  pose proof (identities_changed old new i) as Hchanged.
  rewrite identities_added, identities_removed, !list_elem_of_filter.
  split; [apply getRemovedCommentThreads_filter|].
  split; [by rewrite reconcile_spec|].
  split; [unfold identities; by rewrite filter_fmap|].
  split; [apply Forall_forall; intros t; apply changed_subset|].
  destruct (decide (i ∈ identities old)), (decide (i ∈ identities new)),
    (decide (i ∈ identities (rec_changed (reconcile old new)))); tauto.
Qed.

Lemma three_sets_on_sample :
  let old := [Sample.mkThread "1" (Sample.prUri "a.ts" "h1")
                [Sample.mkVsComment "1" "a"];
              Sample.mkThread "2" (Sample.prUri "a.ts" "h1")
                [Sample.mkVsComment "2" "gone"]] in
  let new := [Sample.mkThread "1" (Sample.prUri "a.ts" "h1")
                [Sample.mkVsComment "1" "b"];
              Sample.mkThread "3" (Sample.fileUri "a.ts")
                [Sample.mkVsComment "3" "new"]] in
  identities (getRemovedCommentThreads old new) = ["2"]
  ∧ identities (getAddedOrUpdatedCommentThreads old new).1 = ["3"]
  ∧ identities (getAddedOrUpdatedCommentThreads old new).2 = ["1"].
Proof. vm_compute. done. Qed.

Lemma reconcile_again old new :
  reconcile old (afterVisit old <$> new) = reconcile old new.
Proof.
  rewrite !reconcile_spec. f_equal.
  - rewrite filter_fmap, <- list_fmap_compose.
    rewrite (list_filter_iff _ (λ t, vscode.threadId t ∉ identities old))
      by (intros t; by rewrite afterVisit_threadId).
    apply list_fmap_ext. intros _ t _. apply afterVisit_idemp.
  - induction new as [|t new IH]; [done|].
    rewrite fmap_cons, !bind_cons, IH. by rewrite changedOf_afterVisit.
  - rewrite <- list_fmap_compose. apply list_fmap_ext.
    intros _ t _. apply afterVisit_idemp.
Qed.

Lemma reconcile_copy old old' new :
  threadKey <$> old' = threadKey <$> old →
  reconcile old' new = reconcile old new.
Proof.
  intros Hold.
  assert (identities old' = identities old) as Hids.
  { by rewrite !identities_threadKey, Hold. }
  assert (∀ t, afterVisit old' t = afterVisit old t) as Hav.
  { intros t. unfold afterVisit. by rewrite Hids. }
  rewrite !reconcile_spec. rewrite Hids. f_equal.
  - apply list_fmap_ext. intros _ t _. apply Hav.
  - induction new as [|t l IH]; [done|].
    by rewrite !bind_cons, IH, (changedOf_key old old').
  - apply list_fmap_ext. intros _ t _. apply Hav.
Qed.

(** C8, first half: reconciling again, over the thread objects as the
    first pass left them, gives the same three arrays and leaves the objects
    as they are; second half: the arrays depend on the other generation only
    through the identities of its threads and the identities and texts of
    their members, so that equal copies of the old or new threads give the
    same arrays. *)
Theorem reconciliation_deterministic old new old' new' :
  threadKey <$> old' = threadKey <$> old →
  identities new' = identities new →
  getAddedOrUpdatedCommentThreads old (newCommentThreadsAfter old new)
  = getAddedOrUpdatedCommentThreads old new
  ∧ getRemovedCommentThreads old (newCommentThreadsAfter old new)
    = getRemovedCommentThreads old new
  ∧ newCommentThreadsAfter old (newCommentThreadsAfter old new)
    = newCommentThreadsAfter old new
  ∧ getAddedOrUpdatedCommentThreads old' new
    = getAddedOrUpdatedCommentThreads old new
  ∧ newCommentThreadsAfter old' new = newCommentThreadsAfter old new
  ∧ getRemovedCommentThreads old new' = getRemovedCommentThreads old new.
Proof.
  intros Hold Hnew.
  assert (newCommentThreadsAfter old new = afterVisit old <$> new) as Hafter.
  { unfold newCommentThreadsAfter. by rewrite reconcile_spec. }
  unfold getAddedOrUpdatedCommentThreads.
  rewrite Hafter. unfold newCommentThreadsAfter.
  rewrite reconcile_again, (reconcile_copy old old' new Hold).
  rewrite !getRemovedCommentThreads_filter, Hnew, identities_afterVisit.
  repeat split; by rewrite reconcile_spec.
Qed.

(** ** Dictionaries and [groupBy] *)

Section Dictionaries.
Context {T : Type}.
Implicit Types d : Dictionary (list T).

Lemma dict_push_keys key element d :
  (dict_push key element d).*1
  = if decide (key ∈ d.*1) then d.*1 else d.*1 ++ [key].
Proof.
  induction d as [|[k target] d IH].
  - simpl. destruct (decide (key ∈ [])) as [Hin|_]; [|done].
    by apply elem_of_nil in Hin.
  - cbn [dict_push fmap list_fmap fst].
    destruct (decide (k = key)) as [->|Hne].
    + rewrite decide_True; [done | left].
    + cbn [fmap list_fmap fst]. rewrite IH.
      destruct (decide (key ∈ d.*1)) as [Hin|Hin].
      * rewrite decide_True; [done | by right].
      * rewrite decide_False; [done|].
        by intros [?|?]%elem_of_cons.
Qed.

Lemma dict_push_entry key element d k g :
  NoDup d.*1 → (k, g) ∈ dict_push key element d →
  (k ≠ key ∧ (k, g) ∈ d)
  ∨ (k = key ∧ ∃ g0, g = g0 ++ [element]
                     ∧ ((key, g0) ∈ d ∨ (g0 = [] ∧ key ∉ d.*1))).
Proof.
  induction d as [|[k' target] d IH]; simpl; intros Hnd Hin.
  - apply list_elem_of_singleton in Hin. injection Hin as -> ->.
    right. split; [done|]. exists []. split; [done|]. right.
    split; [done | by intros ?%elem_of_nil].
  - apply NoDup_cons in Hnd as [Hk' Hnd].
    destruct (decide (k' = key)) as [->|Hne].
    + apply elem_of_cons in Hin as [Hin|Hin].
      * injection Hin as -> ->. right. split; [done|].
        exists target. split; [done|]. left. left.
      * left. split; [|by right]. intros ->. apply Hk'.
        by apply (list_elem_of_fmap_2 fst) in Hin.
    + apply elem_of_cons in Hin as [Hin|Hin].
      * injection Hin as -> ->. left. split; [done | left].
      * destruct (IH Hnd Hin) as [[? ?] | (-> & g0 & -> & Hg0)].
        -- left. split; [done | by right].
        -- right. split; [done|]. exists g0. split; [done|].
           destruct Hg0 as [?|[-> Hnot]]; [left; by right|].
           right. split; [done|]. by intros [?|?]%elem_of_cons.
Qed.

(** What a dictionary built from [data] by the key [key] satisfies: one
    entry per key, each the elements of that key in their order, and every
    element has its entry. *)
Definition grouped (key : T → string) (data : list T) d : Prop :=
  NoDup d.*1
  ∧ (∀ k g, (k, g) ∈ d → g ≠ [] ∧ g = filter (λ x, key x = k) data)
  ∧ (∀ x, x ∈ data → key x ∈ d.*1).

Lemma grouped_push key data d x :
  grouped key data d →
  grouped key (data ++ [x]) (dict_push (key x) x d).
Proof.
  intros (Hnd & Hent & Hcov). split; [|split].
  - rewrite dict_push_keys. case_decide as Hin; [done|].
    apply NoDup_app. split; [done|]. split; [|apply NoDup_singleton].
    by intros k Hk ->%list_elem_of_singleton.
  - intros k g Hin. rewrite filter_app, filter_cons, filter_nil.
    destruct (dict_push_entry _ _ _ _ _ Hnd Hin)
      as [[Hne Hd] | (-> & g0 & -> & Hg0)].
    + rewrite decide_False by done. rewrite app_nil_r. by apply Hent.
    + rewrite decide_True by done.
      split; [by destruct g0|]. f_equal.
      destruct Hg0 as [Hd | [-> Hnot]]; [by apply Hent|].
      symmetry. apply length_zero_iff_nil, length_filter_zero, Forall_forall.
      intros y Hy Hkey. apply Hnot. rewrite <- Hkey. by apply Hcov.
  - intros y Hy. rewrite dict_push_keys.
    apply elem_of_app in Hy as [Hy | ->%list_elem_of_singleton].
    + case_decide; [|apply elem_of_app; left]; by apply Hcov.
    + case_decide; [done|]. apply elem_of_app. right. left.
Qed.

Lemma groupBy_snoc data x (groupFn : T → result string) :
  groupBy (data ++ [x]) groupFn
  = (d ← groupBy data groupFn;
     key ← groupFn x;
     mret (dict_push key x d)).
Proof. unfold groupBy. by rewrite fold_left_app. Qed.

Lemma groupBy_grouped (key : T → string) data :
  ∃ d, groupBy data (λ x, Ok (key x)) = Ok d ∧ grouped key data d.
Proof.
  induction data as [|x data (d & Hd & Hinv)] using rev_ind.
  - exists []. split; [done|]. split; [constructor|].
    split; [by intros ? ? ?%elem_of_nil | by intros ? ?%elem_of_nil].
  - exists (dict_push (key x) x d). rewrite groupBy_snoc, Hd.
    split; [done | by apply grouped_push].
Qed.

Lemma groupBy_ext data (f g : T → result string) :
  (∀ x, x ∈ data → f x = g x) → groupBy data f = groupBy data g.
Proof.
  induction data as [|x data IH] using rev_ind; intros Hfg; [done|].
  rewrite !groupBy_snoc, IH, Hfg; [done | |].
  - apply elem_of_app. right. left.
  - intros y Hy. apply Hfg, elem_of_app. by left.
Qed.

Lemma groupBy_throws data (f : T → result string) x :
  x ∈ data → is_Throw (f x) → is_Throw (groupBy data f).
Proof.
  induction data as [|y data IH] using rev_ind; intros Hin Hx;
    [by apply elem_of_nil in Hin|].
  rewrite groupBy_snoc.
  apply elem_of_app in Hin as [Hin | ->%list_elem_of_singleton].
  - specialize (IH Hin Hx). by destruct (groupBy data f).
  - destruct (groupBy data f); [|done]. simpl. by destruct (f y).
Qed.

End Dictionaries.

Lemma forIn_Permutation {T} (d : Dictionary T) : forIn d ≡ₚ d.
Proof.
  unfold forIn. rewrite merge_sort_Permutation.
  induction d as [|[k v] d IH]; [done|].
  rewrite filter_cons. cbn [omap list_omap fst].
  destruct (arrayIndex k) as [n|] eqn:Hk.
  - rewrite decide_False by done. cbn [mbind option_bind fmap list_fmap snd].
    rewrite <- app_comm_cons. by rewrite IH.
  - rewrite decide_True by done. cbn [mbind option_bind].
    rewrite <- Permutation_middle. by rewrite IH.
Qed.

Lemma grouped_forIn {T} (key : T → string) data (d : Dictionary (list T)) :
  grouped key data d → grouped key data (forIn d).
Proof.
  intros (Hnd & Hent & Hcov). pose proof (forIn_Permutation d) as Hperm.
  split; [by rewrite Hperm|].
  split; [intros k g; rewrite Hperm; apply Hent|].
  intros x Hx. rewrite Hperm. by apply Hcov.
Qed.

(** ** Grouping *)

Lemma fold_left_snoc {A B} (g : A → B) (l : list A) (acc : list B) :
  fold_left (λ acc x, acc ++ [g x]) l acc = acc ++ (g <$> l).
Proof.
  revert acc. induction l as [|x l IH]; intros acc; simpl.
  - by rewrite app_nil_r.
  - by rewrite IH, <- app_assoc.
Qed.

Lemma filter_ext_in {A} (P Q : A → Prop) `{!∀ x, Decision (P x)}
    `{!∀ x, Decision (Q x)} (l : list A) :
  (∀ x, x ∈ l → P x ↔ Q x) → filter P l = filter Q l.
Proof.
  induction l as [|x l IH]; intros HPQ; [done|].
  rewrite !filter_cons, IH by (intros y Hy; apply HPQ; by right).
  pose proof (HPQ x) as Hx. lapply Hx; [clear Hx; intros Hx | left].
  destruct (decide (P x)), (decide (Q x)); tauto.
Qed.

Section GroupingFacts.
Context `{Collaborators}.

Lemma fold_pushThread fileChange isBase resource conv
    (sections : list (string * list Comment)) acc :
  Forall (λ kv, kv.2 ≠ []) sections →
  fold_left (pushThread fileChange isBase resource conv) sections (Ok acc)
  = Ok (acc ++ omap (λ kv,
      threadOfPartition fileChange isBase resource conv kv.2) sections).
Proof.
  intros Hall. revert acc.
  induction Hall as [|[k g] l Hg _ IH]; intros acc; simpl.
  - by rewrite app_nil_r.
  - destruct g as [|first g]; [done|].
    unfold threadOfPartition at 1. simpl.
    destruct (decide (commentAbsolutePosition fileChange first isBase < 0)).
    + apply IH.
    + unfold mret, result_ret. rewrite IH. by rewrite <- app_assoc.
Qed.

Lemma computeCommentingRanges_spec document fileChange isBase :
  computeCommentingRanges document fileChange isBase
  = if isPartial fileChange
    then [vscode.Range4 0 0 (vscode.lineCount document) 0]
    else rangeOfHunk isBase <$> diffHunks fileChange.
Proof.
  unfold computeCommentingRanges. destruct (isPartial fileChange); [done|].
  destruct isBase;
    [exact (fold_left_snoc (rangeOfHunk true) _ [])
    |exact (fold_left_snoc (rangeOfHunk false) _ [])].
Qed.

(** The positions of the sections, in the order the loop visits them. *)
Lemma sections_positions (cs : list Comment) :
  Forall (λ c, position c ≠ None) cs →
  ∃ sections positions,
    groupBy cs (λ c, Ok (String_position (position c))) = Ok sections
    ∧ NoDup positions
    ∧ (∀ p, p ∈ positions ↔ ∃ c, c ∈ cs ∧ position c = Some p)
    ∧ Forall2 (λ kv p, kv.2 ≠ [] ∧ kv.2 = partitionAt p cs)
        (forIn sections) positions.
Proof.
  intros Hpos. rewrite Forall_forall in Hpos.
  destruct (groupBy_grouped (λ c, String_position (position c)) cs)
    as (d & Hd & Hgrouped).
  apply grouped_forIn in Hgrouped as (Hnd & Hent & Hcov).
  exists d. rewrite Hd.
  assert (∀ k g, (k, g) ∈ forIn d →
    ∃ p, k = toString p ∧ g ≠ [] ∧ g = partitionAt p cs
         ∧ ∃ c, c ∈ cs ∧ position c = Some p) as Hsec.
  { intros k g [Hne Hg]%Hent.
    destruct g as [|c0 g]; [done|].
    assert (c0 ∈ filter (λ x, String_position (position x) = k) cs)
      as [Hk Hc0]%list_elem_of_filter by (rewrite <- Hg; left).
    destruct (position c0) as [p|] eqn:Hp; [|by apply Hpos in Hc0].
    exists p. split; [done|]. split; [done|]. split; [|by exists c0].
    rewrite Hg. unfold partitionAt. apply filter_ext_in.
    intros c Hc. rewrite <- Hk.
    destruct (position c) as [q|] eqn:Hq; [|by apply Hpos in Hc].
    simpl. unfold toString. split; [by intros ->%(inj pretty) | congruence]. }
  assert (∃ positions, toString <$> positions = (forIn d).*1
    ∧ Forall2 (λ kv p, kv.2 ≠ [] ∧ kv.2 = partitionAt p cs)
        (forIn d) positions
    ∧ ∀ p, p ∈ positions → ∃ c, c ∈ cs ∧ position c = Some p)
    as (positions & Hkeys & Hall & Hin).
  { clear Hnd Hcov Hent. induction (forIn d) as [|[k g] l IH].
    - exists []. split; [done|]. split; [constructor|].
      by intros ? ?%elem_of_nil.
    - destruct IH as (ps & Hks & Hall & Hin).
      { intros k' g' ?. apply Hsec. by right. }
      destruct (Hsec k g) as (p & -> & Hne & Hg & Hc); [left|].
      exists (p :: ps). split; [by rewrite !fmap_cons, Hks|].
      split; [by constructor|].
      intros q [->|?]%elem_of_cons; [done | by apply Hin]. }
  exists positions. split; [done|]. split; [|split; [|done]].
  - rewrite <- Hkeys in Hnd. by apply NoDup_fmap_1 in Hnd.
  - intros p. split; [apply Hin|]. intros (c & Hc & Hp).
    pose proof (Hcov c Hc) as Hk. rewrite Hp, <- Hkeys in Hk. simpl in Hk.
    by apply (list_elem_of_fmap_inj toString) in Hk.
Qed.

Lemma omap_sections fileChange isBase resource conv cs
    (sections : list (string * list Comment)) positions :
  Forall2 (λ kv p, kv.2 ≠ [] ∧ kv.2 = partitionAt p cs) sections positions →
  omap (λ kv, threadOfPartition fileChange isBase resource conv kv.2)
    sections
  = omap (λ p, threadOfPartition fileChange isBase resource conv
                 (partitionAt p cs)) positions.
Proof.
  induction 1 as [|[k g] p l ps [_ Hg] _ IH]; [done|].
  simpl in Hg. subst g. cbn [omap list_omap snd]. by rewrite IH.
Qed.

Lemma sections_nonempty cs (sections : list (string * list Comment))
    (positions : list Z) :
  Forall2 (λ kv p, kv.2 ≠ [] ∧ kv.2 = partitionAt p cs) sections positions →
  Forall (λ kv, kv.2 ≠ []) sections.
Proof. induction 1 as [|? ? ? ? [? _]]; by constructor. Qed.

Lemma commentsToCommentThreads_spec fileChange cs isBase :
  Forall (λ c, position c ≠ None) cs →
  ∃ sections positions,
    groupBy cs (λ c, Ok (String_position (position c))) = Ok sections
    ∧ NoDup positions
    ∧ (∀ p, p ∈ positions ↔ ∃ c, c ∈ cs ∧ position c = Some p)
    ∧ Forall2 (λ kv p, kv.2 ≠ [] ∧ kv.2 = partitionAt p cs)
        (forIn sections) positions
    ∧ commentsToCommentThreads fileChange cs isBase
      = Ok (omap (λ p,
          threadOfPartition fileChange isBase
            (if isBase then parentFilePath fileChange
             else filePath fileChange)
            toVsComment (partitionAt p cs)) positions).
Proof.
  intros Hpos.
  destruct (sections_positions cs Hpos)
    as (sections & positions & Hd & Hnd & Hin & Hall).
  exists sections, positions. repeat (split; [done|]).
  unfold commentsToCommentThreads.
  rewrite (groupBy_ext cs _ (λ c, Ok (String_position (position c)))).
  - rewrite Hd. simpl.
    rewrite fold_pushThread by (by eapply sections_nonempty).
    simpl. f_equal. by eapply omap_sections.
  - intros c Hc. rewrite Forall_forall in Hpos.
    destruct (position c) eqn:Hp; [done | by apply Hpos in Hc].
Qed.

(** Without a position the grouping of the node throws: the list a file
    change is given has to be filtered first. *)
Lemma commentsToCommentThreads_throws fileChange cs isBase c :
  c ∈ cs → position c = None →
  is_Throw (commentsToCommentThreads fileChange cs isBase).
Proof.
  intros Hc Hp. unfold commentsToCommentThreads.
  pose proof (groupBy_throws cs (λ comment,
    match position comment with
    | Some p => Ok (toString p)
    | None => Throw TypeError
    end) c Hc) as Hthrow.
  simpl in Hthrow. rewrite Hp in Hthrow. specialize (Hthrow I).
  by destruct (groupBy cs _).
Qed.

Lemma providePRDocumentComments_found document prNumber fileChanges
    inDraftMode params i fileChange :
  fromPRUri (vscode.uri document) = Some params →
  params_prNumber params = prNumber →
  list_find (λ change, node_fileName change = params_fileName params)
    fileChanges = Some (i, InMem fileChange) →
  ∃ threads,
    providePRDocumentComments document prNumber fileChanges inDraftMode
    = Ok (Some {| vscode.threads := threads;
                  vscode.commentingRanges :=
                    computeCommentingRanges document fileChange
                      (params_isBase params);
                  vscode.inDraftMode := inDraftMode |})
    ∧ ∃ sections,
        groupBy (comments fileChange)
          (λ c, Ok (String_position (position c))) = Ok sections
        ∧ threads = omap (λ kv,
            threadOfPartition fileChange (params_isBase params)
              (vscode.uri document) toVsCommentWithReactions kv.2)
            (forIn sections).
Proof.
  intros Hparams Hnumber Hfind. unfold providePRDocumentComments.
  rewrite Hparams, decide_False by (by intros ?). rewrite Hfind.
  destruct (groupBy_grouped (λ c, String_position (position c))
    (comments fileChange)) as (d & Hd & Hgrouped).
  destruct (decide (length (comments fileChange) = 0%nat)) as [Hlen|Hlen].
  - exists []. split; [done|]. exists d. split; [done|].
    apply length_zero_iff_nil in Hlen. rewrite Hlen in Hd.
    by injection Hd as <-.
  - rewrite Hd. simpl.
    apply grouped_forIn in Hgrouped as (_ & Hent & _).
    rewrite fold_pushThread.
    + simpl. eexists. split; [done|]. by exists d.
    + apply Forall_forall. intros [k g] Hkg. by apply Hent in Hkg as [? _].
Qed.

End GroupingFacts.

Section GroupingClaims.
Context `{Collaborators}.



Lemma fold_pushThread_throw fileChange isBase resource conv
    (sections : list (string * list Comment)) e :
  fold_left (pushThread fileChange isBase resource conv) sections (Throw e)
  = Throw e.
Proof. by induction sections. Qed.

Lemma fold_pushThread_expanded fileChange isBase resource conv
    (sections : list (string * list Comment)) acc threads :
  Forall startsExpanded acc →
  fold_left (pushThread fileChange isBase resource conv) sections (Ok acc)
  = Ok threads →
  Forall startsExpanded threads.
Proof.
  revert acc. induction sections as [|[k g] l IH]; intros acc Hacc; simpl.
  - by intros [= <-].
  - destruct g as [|first g]; simpl.
    + by rewrite fold_pushThread_throw.
    + destruct (decide (commentAbsolutePosition fileChange first isBase < 0)).
      * by apply IH.
      * apply IH. apply Forall_app. split; [done|]. by repeat constructor.
Qed.

Lemma commentsToCommentThreads_expanded fileChange cs isBase threads :
  commentsToCommentThreads fileChange cs isBase = Ok threads →
  Forall startsExpanded threads.
Proof.
  unfold commentsToCommentThreads. destruct (groupBy cs _); [|done]. simpl.
  by apply fold_pushThread_expanded.
Qed.

Lemma providePRDocumentComments_expanded document prNumber fileChanges
    inDraftMode info :
  providePRDocumentComments document prNumber fileChanges inDraftMode
  = Ok (Some info) →
  Forall startsExpanded (vscode.threads info).
Proof.
  unfold providePRDocumentComments.
  destruct (fromPRUri _) as [params|]; [|done].
  case_decide; [done|].
  destruct (list_find _ fileChanges) as [[i [r|fileChange]]|]; try done.
  case_decide; [by intros [= <-]; constructor|].
  destruct (groupBy _ _); [|done]. simpl.
  destruct (fold_left _ _ _) as [threads|] eqn:Hfold; [|done]. simpl.
  intros [= <-]. simpl. by eapply fold_pushThread_expanded.
Qed.

(** C4. Grouping gives every thread the expanded state; of such threads,
    one that reconciliation adds is collapsed exactly when its resource
    has the scheme [file], and stays expanded otherwise. *)
Theorem added_threads_collapse_on_files old new t :
  Forall startsExpanded new →
  t ∈ (getAddedOrUpdatedCommentThreads old new).1 →
  (vscode.collapsibleState t = Some vscode.Collapsed
     ↔ vscode.scheme (vscode.resource t) = "file")
  ∧ (vscode.scheme (vscode.resource t) ≠ "file" →
     vscode.collapsibleState t = Some vscode.Expanded)
  ∧ (∀ fileChange cs isBase threads,
       commentsToCommentThreads fileChange cs isBase = Ok threads →
       Forall startsExpanded threads)
  ∧ (∀ document prNumber fileChanges inDraftMode info,
       providePRDocumentComments document prNumber fileChanges inDraftMode
       = Ok (Some info) →
       Forall startsExpanded (vscode.threads info)).
Proof.
  intros Hnew Hadded.
  unfold getAddedOrUpdatedCommentThreads in Hadded. simpl in Hadded.
  rewrite reconcile_spec in Hadded. simpl in Hadded.
  apply list_elem_of_fmap in Hadded as (t0 & -> & Hin).
  apply list_elem_of_filter in Hin as [Hnot Hin].
  rewrite Forall_forall in Hnew. specialize (Hnew t0 Hin).
  unfold startsExpanded in Hnew. unfold afterVisit.
  rewrite decide_False by done.
  split; [|split; [|split]].
  - case_decide; simpl; [done|]. rewrite Hnew. split; [done|]. tauto.
  - case_decide; simpl; [tauto | done].
  - apply commentsToCommentThreads_expanded.
  - apply providePRDocumentComments_expanded.
Qed.

(** C5. The commenting ranges of a document of the pull request: the
    whole document when the file change is partial; otherwise one range
    for each hunk, from the 0-based start of the hunk on the side viewed
    (old on the base side, new on the head side) over its 0-based
    length. *)
Theorem commenting_ranges_of_file_change document prNumber fileChanges
    inDraftMode params i fileChange :
  fromPRUri (vscode.uri document) = Some params →
  params_prNumber params = prNumber →
  list_find (λ change, node_fileName change = params_fileName params)
    fileChanges = Some (i, InMem fileChange) →
  ∃ info,
    providePRDocumentComments document prNumber fileChanges inDraftMode
    = Ok (Some info)
    ∧ vscode.commentingRanges info
      = if isPartial fileChange
        then [vscode.Range4 0 0 (vscode.lineCount document) 0]
        else
          (λ diffHunk,
             let start :=
               getZeroBased (if params_isBase params
                             then oldLineNumber diffHunk
                             else newLineNumber diffHunk) in
             let count :=
               getZeroBased (if params_isBase params
                             then oldLength diffHunk
                             else newLength diffHunk) in
             vscode.Range4 start 0 (start + count) 0)
          <$> diffHunks fileChange.
Proof.
  intros Hp Hn Hf.
  destruct (providePRDocumentComments_found document prNumber fileChanges
    inDraftMode params i fileChange Hp Hn Hf) as (threads & -> & _).
  eexists. split; [done|]. simpl. apply computeCommentingRanges_spec.
Qed.

End GroupingClaims.

(** ** Document content *)

Section ContentClaims.
Context `{Collaborators} `{PullRequestManager}.

Lemma fold_keepLine isBase (lines : list DiffLine) (acc : list string) :
  fold_left (keepLine isBase) lines acc
  = acc ++ (text <$> filter (keptOn isBase) lines).
Proof.
  revert acc. induction lines as [|l lines IH]; intros acc; simpl.
  - by rewrite app_nil_r.
  - rewrite IH, filter_cons.
    destruct (decide (keptOn isBase l)) as [Hk|Hk]; unfold keptOn in Hk;
      unfold keepLine; destruct isBase; repeat case_decide;
      rewrite ?fmap_cons, <- ?app_assoc; try done;
      exfalso; destruct (type l); intuition congruence.
Qed.

Lemma contentFromDiffHunks_spec (hunks : list DiffHunk) isBase :
  contentFromDiffHunks hunks isBase
  = join_lines (text <$> filter (keptOn isBase) (concat (diffLines <$> hunks))).
Proof.
  unfold contentFromDiffHunks. f_equal.
  enough (∀ acc,
    fold_left (λ lines diffHunk,
      fold_left (keepLine isBase) (diffLines diffHunk) lines) hunks acc
    = acc ++ (text <$> filter (keptOn isBase) (concat (diffLines <$> hunks))))
    as -> by done.
  induction hunks as [|h hunks IH]; intros acc; simpl.
  - by rewrite app_nil_r.
  - rewrite IH, fold_keepLine, filter_app, fmap_app. by rewrite app_assoc.
Qed.

(** C6. For a file change that is partial, added or deleted, the content
    of a document is the texts of the diff lines, hunk after hunk, joined
    by newlines: on the base side those of the context and deleted lines,
    on the head side those of the context and added lines; control lines
    are on neither side. *)
Theorem content_from_diff_hunks node uri params fileChange rest :
  fromPRUri uri = Some params →
  filter (λ change,
    isInMem change ∧ node_fileName change = params_fileName params)
    (_fileChanges node) = InMem fileChange :: rest →
  isPartial fileChange = true ∨ status fileChange = ADD
    ∨ status fileChange = DELETE →
  provideDocumentContent uri node
  = (Ok (String.concat newline
           (text <$>
              filter (λ diffLine,
                type diffLine = Context
                ∨ type diffLine
                  = (if params_isBase params then Delete else Add))
                (concat (diffLines <$> diffHunks fileChange)))),
     node)
  ∧ Forall (λ diffLine, type diffLine ≠ Control)
      (filter (keptOn (params_isBase params))
         (concat (diffLines <$> diffHunks fileChange))).
Proof.
  intros Hp Hf Hread. split.
  - unfold provideDocumentContent. rewrite Hp.
    unfold mbind, Op_bind, get. rewrite Hf.
    rewrite bool_decide_eq_true_2 by done.
    pose proof (contentFromDiffHunks_spec (diffHunks fileChange)
      (params_isBase params)) as Hspec.
    destruct (params_isBase params);
      exact (f_equal (λ content, (Ok content, node)) Hspec).
  - apply Forall_forall. intros l [Hkept _]%list_elem_of_filter.
    unfold keptOn in Hkept. destruct (params_isBase params), Hkept; congruence.
Qed.

End ContentClaims.

(** ** Operations of the node *)

Section NodeFacts.
Context `{Collaborators} `{PullRequestManager}.

Lemma findMatchingFileNode_node uri node :
  (findMatchingFileNode uri node).2 = node.
Proof.
  unfold findMatchingFileNode. destruct (fromPRUri uri); [|done].
  unfold mbind, Op_bind, get.
  by destruct (list_find _ _) as [[i [r|n]]|].
Qed.

Lemma findMatchingFileNode_Ok uri node i fileChange node' :
  findMatchingFileNode uri node = (Ok (i, fileChange), node') →
  node' = node ∧ _fileChanges node !! i = Some (InMem fileChange).
Proof.
  intros Hf. pose proof (findMatchingFileNode_node uri node) as Hn.
  rewrite Hf in Hn. simpl in Hn. split; [done|].
  unfold findMatchingFileNode in Hf. destruct (fromPRUri uri); [|done].
  unfold mbind, Op_bind, get in Hf.
  destruct (list_find _ _) as [[j [r|n]]|] eqn:Hfind; try done.
  injection Hf as -> -> _. by apply list_find_Some in Hfind as [? _].
Qed.

Lemma commentsAt_found node i fileChange :
  _fileChanges node !! i = Some (InMem fileChange) →
  commentsAt i node = (Ok (comments fileChange), node).
Proof.
  intros Hi. unfold commentsAt, mbind, Op_bind, get. by rewrite Hi.
Qed.

Lemma assignComments_found node i fileChange cs :
  _fileChanges node !! i = Some (InMem fileChange) →
  assignComments i cs node
  = (Ok tt, set_fileChanges
      (<[i := InMem (set_file_comments cs fileChange)]> (_fileChanges node))
      node).
Proof. intros Hi. unfold assignComments, modify. by rewrite Hi. Qed.






Lemma createNewCommentThread_other node document range text params :
  fromPRUri (vscode.uri document) = Some params →
  params_prNumber params ≠ prNumber node →
  createNewCommentThread document range text node = (Ok None, node).
Proof.
  intros Hp Hn. unfold createNewCommentThread, try_catch, mbind, Op_bind, get.
  rewrite Hp. by rewrite bool_decide_eq_true_2.
Qed.

(** C10, as the code has it.  A request for a document of another pull
    request returns nothing and leaves the node as it was.  A request for
    a document of the pull request of the node throws and leaves the node
    as it was when the selected line maps to a negative position; when
    the position is not negative and the remote host answers with the
    created comment, that comment is appended to the comment list of the
    file change, and the thread returned has the identity of the comment
    and the comment as its only member. *)
Theorem new_thread_needs_position node document range text params i
    fileChange :
  fromPRUri (vscode.uri document) = Some params →
  findMatchingFileNode (vscode.uri document) node
  = (Ok (i, fileChange), node) →
  let position :=
    mapHeadLineToDiffHunkPosition (diffHunks fileChange) ""
      (vscode.line (vscode.start range) + 1) (params_isBase params) in
  (params_prNumber params ≠ prNumber node →
     createNewCommentThread document range text node = (Ok None, node))
  ∧ (params_prNumber params = prNumber node → position < 0 →
     ∃ e, createNewCommentThread document range text node
          = (Throw e, node))
  ∧ (params_prNumber params = prNumber node → 0 ≤ position →
     ∀ rawComment,
       createComment text (params_fileName params) position
       = Ok (Some rawComment) →
       createNewCommentThread document range text node
       = (Ok (Some
                {| vscode.threadId := toString (id rawComment);
                   vscode.resource := vscode.uri document;
                   vscode.range := range;
                   vscode.comments := [toVsComment rawComment];
                   vscode.collapsibleState := None |}),
          set_fileChanges
            (<[i := InMem (set_file_comments
                             (comments fileChange ++ [rawComment])
                             fileChange)]> (_fileChanges node))
            node)).
Proof.
  intros Hp Hf position.
  pose proof (findMatchingFileNode_Ok _ _ _ _ _ Hf) as [_ Hi].
  split; [by apply createNewCommentThread_other|].
  split.
  - intros Hn Hneg.
    unfold createNewCommentThread, try_catch, mbind, Op_bind, get.
    rewrite Hp, bool_decide_eq_false_2 by (by intros ?). rewrite Hf.
    fold position. rewrite decide_True by done. by eexists.
  - intros Hn Hpos rawComment Hraw.
    unfold createNewCommentThread, try_catch, mbind, Op_bind, get.
    rewrite Hp, bool_decide_eq_false_2 by (by intros ?). rewrite Hf.
    fold position. rewrite decide_False by lia.
    unfold mret, Op_ret, lift. rewrite Hraw.
    rewrite (commentsAt_found _ _ _ Hi).
    by rewrite (assignComments_found _ _ _ _ Hi).
Qed.

End NodeFacts.

(** ** Deleting a draft review *)

Lemma list_find_names (l l' : list FileChangeNode) (k : string) :
  node_fileName <$> l' = node_fileName <$> l →
  (∀ j x, l !! j = Some x → node_fileName x = k → l' !! j = Some x) →
  list_find (λ change, node_fileName change = k) l'
  = list_find (λ change, node_fileName change = k) l.
Proof.
  revert l'. induction l as [|x l IH]; intros [|y l'] Hnames Hagree;
    try discriminate; [done|].
  rewrite !fmap_cons in Hnames. injection Hnames as Hxy Hnames.
  cbn [list_find].
  destruct (decide (node_fileName x = k)) as [Hx|Hx].
  - specialize (Hagree 0%nat x eq_refl Hx). injection Hagree as ->.
    by rewrite decide_True.
  - rewrite decide_False by congruence.
    rewrite (IH l' Hnames); [done|].
    intros j z Hj Hz. by apply (Hagree (S j)).
Qed.

Section DraftFacts.
Context `{Collaborators} `{PullRequestManager}.

Lemma calculateChangedAndRemovedThreads_spec changed removed fileChange
    deletedComments isBase threads :
  commentsToCommentThreads fileChange (comments fileChange) isBase
  = Ok threads →
  calculateChangedAndRemovedThreads changed removed fileChange
    deletedComments isBase
  = Ok (changed ++ filter (λ t, vscode.comments t ≠ [])
                     (stripDeleted deletedComments <$> threads),
        removed ++ filter (λ t, vscode.comments t = [])
                     (stripDeleted deletedComments <$> threads)).
Proof.
  intros Hthreads. unfold calculateChangedAndRemovedThreads.
  rewrite Hthreads. cbn [mbind result_bind mret result_ret]. f_equal.
  clear Hthreads.
  match goal with |- fold_left ?f _ _ = _ => set (F := f) end.
  revert changed removed.
  induction threads as [|t threads IH]; intros changed removed.
  - simpl. by rewrite !app_nil_r.
  - cbn [fold_left]. rewrite fmap_cons, !filter_cons.
    replace (F (changed, removed) t)
      with (if decide (length (vscode.comments
              (stripDeleted deletedComments t)) = 0%nat)
            then (changed, removed ++ [stripDeleted deletedComments t])
            else (changed ++ [stripDeleted deletedComments t], removed))
      by reflexivity.
    destruct (decide (length (vscode.comments
      (stripDeleted deletedComments t)) = 0%nat)) as [Hlen|Hlen].
    + pose proof Hlen as Hnil%length_zero_iff_nil.
      rewrite IH, (decide_True (P := _ = [])) by done.
      rewrite (decide_False (P := _ ≠ [])) by (by intros ?).
      by rewrite <- app_assoc.
    + assert (vscode.comments (stripDeleted deletedComments t) ≠ [])
        as Hnil by (by intros Hnil; rewrite Hnil in Hlen).
      rewrite IH, (decide_False (P := _ = [])) by done.
      rewrite (decide_True (P := _ ≠ [])) by done.
      by rewrite <- app_assoc.
Qed.

Lemma anchored_grouped node i fileChange isBase :
  anchored node →
  _fileChanges node !! i = Some (InMem fileChange) →
  commentsToCommentThreads fileChange (comments fileChange) isBase
  = Ok (groupedThreads fileChange isBase).
Proof.
  intros Hwf Hi. unfold anchored in Hwf. rewrite Forall_lookup in Hwf.
  specialize (Hwf i _ Hi). simpl in Hwf.
  destruct (commentsToCommentThreads_spec fileChange (comments fileChange)
    isBase Hwf) as (? & ? & _ & _ & _ & _ & Heq).
  unfold groupedThreads. by rewrite Heq.
Qed.

Lemma deleteDraft_loop rid init (entries : list (string * list Comment))
    changed removed cur :
  anchored init →
  NoDup entries.*1 →
  node_fileName <$> _fileChanges cur = node_fileName <$> _fileChanges init →
  (∀ j x, _fileChanges init !! j = Some x →
          node_fileName x ∈ entries.*1 → _fileChanges cur !! j = Some x) →
  ∃ cur',
    forEachM (deleteDraftFile rid) entries (changed, removed) cur
    = (Ok (changed ++ filter (λ t, vscode.comments t ≠ [])
                        (entries ≫= reported (_fileChanges init)),
           removed ++ filter (λ t, vscode.comments t = [])
                        (entries ≫= reported (_fileChanges init))),
       cur')
    ∧ _onDidChangeCommentThreads cur' = _onDidChangeCommentThreads cur.
Proof.
  intros Hwf. revert changed removed cur.
  induction entries as [|[k cff] entries IH];
    intros changed removed cur Hnd Hnames Hagree.
  - exists cur. simpl. by rewrite !app_nil_r.
  - rewrite fmap_cons in Hnd. apply NoDup_cons in Hnd as [Hk Hnd].
    cbn [forEachM]. unfold mbind at 1, Op_bind at 1.
    unfold deleteDraftFile at 1. unfold mbind at 1, Op_bind at 1, get at 1.
    rewrite (list_find_names (_fileChanges init) (_fileChanges cur) k Hnames)
      by (intros j x Hj Hx; apply Hagree; [done | rewrite Hx; left]).
    rewrite bind_cons, !filter_app. unfold reported at 1 3. cbn [fst snd].
    destruct (list_find _ (_fileChanges init)) as [[i [r|fc]]|] eqn:Hfind.
    + unfold mret at 1, Op_ret at 1.
      destruct (IH changed removed cur Hnd Hnames) as (cur' & -> & Hev).
      { intros j x Hj Hx. apply Hagree; [done | by right]. }
      by exists cur'.
    + apply list_find_Some in Hfind as (Hi & Hname & _). simpl in Hname.
      assert (_fileChanges cur !! i = Some (InMem fc)) as Hcur.
      { apply Hagree; [done | simpl; rewrite Hname; left]. }
      unfold mbind at 1, Op_bind at 1, lift at 1.
      rewrite (calculateChangedAndRemovedThreads_spec _ _ _ _ _ _
        (anchored_grouped init i fc true Hwf Hi)).
      unfold mbind at 1, Op_bind at 1, lift at 1.
      rewrite (calculateChangedAndRemovedThreads_spec _ _ _ _ _ _
        (anchored_grouped init i fc false Hwf Hi)).
      unfold mbind at 1, Op_bind at 1.
      rewrite (assignComments_found _ _ _ _ Hcur).
      unfold mret at 1, Op_ret at 1.
      edestruct (IH) as (cur' & -> & Hev); [done| | |].
      * simpl. rewrite list_fmap_insert, <- Hnames.
        apply list_insert_id. rewrite list_lookup_fmap, Hcur. simpl.
        by rewrite Hname, <- Hname.
      * intros j x Hj Hx. simpl.
        assert (j ≠ i) as Hne.
        { intros ->. rewrite Hi in Hj. injection Hj as <-.
          simpl in Hx. by rewrite Hname in Hx. }
        rewrite list_lookup_insert_ne by done.
        apply Hagree; [done | by right].
      * exists cur'. split; [|done].
        by rewrite fmap_app, !filter_app, <- !app_assoc.
    + unfold mret at 1, Op_ret at 1.
      destruct (IH changed removed cur Hnd Hnames) as (cur' & -> & Hev).
      { intros j x Hj Hx. apply Hagree; [done | by right]. }
      by exists cur'.
Qed.

Lemma survivors_nil deletedComments t :
  survivors deletedComments t = [] ↔
  Forall (coveredBy deletedComments) (vscode.comments t).
Proof.
  unfold survivors. rewrite <- length_zero_iff_nil, length_filter_zero.
  apply Forall_proper; [|done]. intros m. unfold coveredBy.
  split; [apply dec_stable | tauto].
Qed.

(** C7. On a node whose emitter exists and whose comment lists hold
    anchored comments, [deleteDraft] fires one event.  For every file that
    has comments of the deleted review, each thread grouping gives on a side
    is reported with the deleted comments taken out of its members: in
    [removed], with no member left, when the deleted comments of the file
    cover all its members, and not in [changed]; in [changed], with the
    members that are left, when a member is left, and not in [removed].
    No thread of [removed] has a member and every thread of [changed] has
    one. *)
Theorem deleted_draft_threads node deletedReviewId deletedReviewComments
    events :
  deleteReview = Ok (deletedReviewId, deletedReviewComments) →
  _onDidChangeCommentThreads node = Some events →
  anchored node →
  ∃ node' event,
    deleteDraft node = (Ok tt, node')
    ∧ _onDidChangeCommentThreads node' = Some (events ++ [event])
    ∧ vscode.added event = []
    ∧ Forall (λ t, vscode.comments t = []) (vscode.removed event)
    ∧ Forall (λ t, vscode.comments t ≠ []) (vscode.changed event)
    ∧ ∀ filePath i fileChange isBase threads t,
        deletedOfFile deletedReviewComments filePath ≠ [] →
        list_find (λ change, node_fileName change = filePath)
          (_fileChanges node) = Some (i, InMem fileChange) →
        commentsToCommentThreads fileChange (comments fileChange) isBase
        = Ok threads →
        t ∈ threads →
        let deleted := deletedOfFile deletedReviewComments filePath in
        (Forall (coveredBy deleted) (vscode.comments t) →
           set_comments [] t ∈ vscode.removed event
           ∧ set_comments [] t ∉ vscode.changed event)
        ∧ (¬ Forall (coveredBy deleted) (vscode.comments t) →
           set_comments (survivors deleted t) t ∈ vscode.changed event
           ∧ set_comments (survivors deleted t) t ∉ vscode.removed event).
Proof.
  intros Hreview Hevents Hwf.
  destruct (groupBy_grouped (λ c : Comment, default "" (path c))
    deletedReviewComments) as (d & Hd & Hgrouped).
  apply grouped_forIn in Hgrouped as (Hnd & Hent & Hcov).
  destruct (deleteDraft_loop deletedReviewId node (forIn d) [] [] node
    Hwf Hnd eq_refl) as (cur' & Hloop & Hev); [done|].
  rewrite Hevents in Hev.
  eexists _, _. split; [|split; [|split; [|split; [|split]]]].
  - unfold deleteDraft, mbind, Op_bind, lift. rewrite Hreview, Hd, Hloop.
    unfold fire. by rewrite Hev.
  - done.
  - done.
  - simpl. apply Forall_forall. by intros t [? _]%list_elem_of_filter.
  - simpl. apply Forall_forall. by intros t [? _]%list_elem_of_filter.
  - intros filePath i fileChange isBase threads t Hdel Hfind Hthreads Ht.
    simpl.
    assert ((filePath, deletedOfFile deletedReviewComments filePath)
            ∈ forIn d) as Hentry.
    { assert (∃ c0, c0 ∈ deletedOfFile deletedReviewComments filePath)
        as (c0 & [Hkey Hc0]%list_elem_of_filter).
      { destruct (deletedOfFile deletedReviewComments filePath)
          as [|c0 ?]; [done|]. exists c0. left. }
      apply Hcov in Hc0. rewrite Hkey in Hc0.
      apply list_elem_of_fmap in Hc0 as ([k g] & Hk & Hkg).
      simpl in Hk. subst k.
      destruct (Hent _ _ Hkg) as [_ Hg]. by rewrite Hg in Hkg. }
    assert (stripDeleted (deletedOfFile deletedReviewComments filePath) t
            ∈ forIn d ≫= reported (_fileChanges node)) as Hin.
    { apply list_elem_of_bind. eexists. split; [|exact Hentry].
      unfold reported. simpl. rewrite Hfind.
      apply list_elem_of_fmap_2, elem_of_app.
      unfold groupedThreads.
      destruct isBase; [left | right]; by rewrite Hthreads. }
    unfold stripDeleted in Hin. rewrite !list_elem_of_filter.
    split.
    + intros Hall%survivors_nil. rewrite Hall in Hin. simpl.
      split; [done|]. by intros [? _].
    + intros Hsome. rewrite <- survivors_nil in Hsome.
      simpl. split; [done|]. by intros [? _].
Qed.

End DraftFacts.

(** ** Identities of a generation *)

Section GenerationFacts.
Context `{Collaborators}.

Lemma commentsToCommentThreads_anchored fileChange cs isBase threads :
  commentsToCommentThreads fileChange cs isBase = Ok threads →
  Forall (λ c, position c ≠ None) cs.
Proof.
  intros Hok. apply Forall_forall. intros c Hc Hp.
  pose proof (commentsToCommentThreads_throws fileChange cs isBase c Hc Hp)
    as Hthrow.
  by rewrite Hok in Hthrow.
Qed.

(** The threads of one grouping have pairwise distinct identities when
    the comments have. *)
Lemma generation_identities_distinct fileChange cs isBase threads :
  NoDup (id <$> cs) →
  commentsToCommentThreads fileChange cs isBase = Ok threads →
  NoDup (identities threads).
Proof.
  intros Hids Hok.
  pose proof (commentsToCommentThreads_anchored _ _ _ _ Hok) as Hpos.
  destruct (commentsToCommentThreads_spec fileChange cs isBase Hpos)
    as (_ & positions & _ & Hnd & _ & _ & Heq).
  rewrite Hok in Heq. injection Heq as ->. clear Hok.
  set (resource := if isBase then parentFilePath fileChange
                   else filePath fileChange).
  assert (∀ p t, threadOfPartition fileChange isBase resource toVsComment
                   (partitionAt p cs) = Some t →
            ∃ c, c ∈ cs ∧ position c = Some p
                 ∧ vscode.threadId t = toString (id c)) as Hthread.
  { intros p t. unfold threadOfPartition.
    destruct (partitionAt p cs) as [|c0 rest] eqn:Hpart; [done|]. simpl.
    case_decide; [done|]. intros [= <-]. exists c0.
    assert (c0 ∈ partitionAt p cs) as [? ?]%list_elem_of_filter
      by (rewrite Hpart; left). done. }
  induction Hnd as [|p ps Hp Hnd IH]; [constructor|].
  cbn [omap list_omap].
  destruct (threadOfPartition _ _ _ _ (partitionAt p cs)) as [t|] eqn:Ht;
    [|done].
  unfold identities. rewrite fmap_cons. apply NoDup_cons. split; [|done].
  intros (t' & Hid & Hin)%list_elem_of_fmap.
  apply list_elem_of_omap in Hin as (q & Hq & Ht').
  destruct (Hthread _ _ Ht) as (c & Hc & Hcp & Hct).
  destruct (Hthread _ _ Ht') as (c' & Hc' & Hcp' & Hct').
  rewrite Hct, Hct' in Hid. apply (inj pretty) in Hid.
  assert (c = c') as <-.
  { apply list_elem_of_lookup in Hc as [j Hj].
    apply list_elem_of_lookup in Hc' as [j' Hj'].
    assert (j = j') as <-; [|congruence].
    eapply NoDup_lookup; [exact Hids | |];
      rewrite list_lookup_fmap; [by rewrite Hj | by rewrite Hj', Hid]. }
  rewrite Hcp in Hcp'. injection Hcp' as <-. done.
Qed.

End GenerationFacts.


(** ** More on grouping *)

Lemma submseteq_NoDup_l {A} (l k : list A) : l ⊆+ k → NoDup k → NoDup l.
Proof.
  intros (k' & Hk)%submseteq_Permutation Hnd. rewrite Hk in Hnd.
  by apply NoDup_app in Hnd as [? _].
Qed.

Section GroupingMore.
Context `{Collaborators}.

(** X1. Grouping throws exactly when one of the comments has no position. *)
Theorem grouping_throws_iff_unanchored fileChange cs isBase :
  is_Throw (commentsToCommentThreads fileChange cs isBase)
  ↔ Exists (λ c, position c = None) cs.
Proof.
  split.
  - intros Hthrow.
    destruct (decide (Exists (λ c, position c = None) cs)) as [|Hnot];
      [done|].
    apply not_Exists_Forall in Hnot; [|intros c; apply _].
    destruct (commentsToCommentThreads_spec fileChange cs isBase)
      as (? & ? & _ & _ & _ & _ & Heq).
    + eapply Forall_impl; [exact Hnot|]. by intros c Hc.
    + by rewrite Heq in Hthrow.
  - intros (c & Hc & Hp)%Exists_exists.
    by eapply commentsToCommentThreads_throws.
Qed.

Lemma threads_of_partitions fileChange cs isBase threads :
  commentsToCommentThreads fileChange cs isBase = Ok threads →
  ∃ positions,
    NoDup positions
    ∧ (∀ p, p ∈ positions ↔ ∃ c, c ∈ cs ∧ position c = Some p)
    ∧ Forall (λ c, position c ≠ None) cs
    ∧ threads
      = omap (λ p,
          threadOfPartition fileChange isBase
            (if isBase then parentFilePath fileChange
             else filePath fileChange)
            toVsComment (partitionAt p cs)) positions.
Proof.
  intros Hok.
  pose proof (commentsToCommentThreads_anchored _ _ _ _ Hok) as Hpos.
  destruct (commentsToCommentThreads_spec fileChange cs isBase Hpos)
    as (? & positions & _ & Hnd & Hin & _ & Heq).
  rewrite Hok in Heq. injection Heq as ->. by exists positions.
Qed.

Lemma threadOfPartition_members fileChange isBase resource conv part t :
  threadOfPartition fileChange isBase resource conv part = Some t →
  vscode.comments t = conv <$> part
  ∧ ∃ first rest, part = first :: rest
      ∧ vscode.threadId t = toString (id first)
      ∧ 0 ≤ commentAbsolutePosition fileChange first isBase.
Proof.
  unfold threadOfPartition. destruct part as [|first rest]; [done|]. simpl.
  case_decide as Hneg; [done|]. intros [= <-]. split; [done|].
  exists first, rest. repeat split. lia.
Qed.

Lemma partitions_cover (cs : list Comment) (positions : list Z) :
  NoDup positions →
  (∀ c, c ∈ cs → ∃ p, p ∈ positions ∧ position c = Some p) →
  concat ((λ p, partitionAt p cs) <$> positions) ≡ₚ cs.
Proof.
  intros Hnd. revert cs.
  induction Hnd as [|p ps Hp Hnd IH]; intros cs Hcov.
  - destruct cs as [|c cs]; [done|].
    destruct (Hcov c) as (p & Hin & _); [left|]. by apply elem_of_nil in Hin.
  - rewrite fmap_cons. cbn [concat].
    etransitivity;
      [|apply (filter_app_complement (λ c, position c = Some p) cs)].
    unfold partitionAt at 1. f_equiv.
    rewrite <- (IH (filter (λ c, ¬ position c = Some p) cs)).
    + apply reflexive_eq. f_equal. apply list_fmap_ext.
      intros j q Hq. apply list_elem_of_lookup_2 in Hq.
      unfold partitionAt. rewrite list_filter_filter.
      apply list_filter_iff. intros c. split; [|tauto].
      intros Hc. split; [done|]. rewrite Hc. intros [= ->]. by apply Hp.
    + intros c [Hc Hin]%list_elem_of_filter.
      destruct (Hcov c Hin) as (q & [->|Hq]%elem_of_cons & Hpos); [done|].
      by exists q.
Qed.

Lemma members_of_partitions fileChange isBase resource (cs : list Comment)
    (positions : list Z) :
  concat (vscode.comments <$>
    omap (λ p, threadOfPartition fileChange isBase resource toVsComment
                 (partitionAt p cs)) positions)
  ⊆+ toVsComment <$> concat ((λ p, partitionAt p cs) <$> positions).
Proof.
  induction positions as [|p ps IH]; [done|].
  rewrite fmap_cons. cbn [omap list_omap concat]. rewrite fmap_app.
  destruct (threadOfPartition _ _ _ _ (partitionAt p cs)) as [t|] eqn:Ht.
  - apply threadOfPartition_members in Ht as [Hm _].
    rewrite fmap_cons. cbn [concat]. rewrite Hm. by apply submseteq_app.
  - by apply submseteq_inserts_l.
Qed.

Lemma members_of_resolved_partitions fileChange isBase resource
    (cs : list Comment) (positions : list Z) :
  (∀ c, c ∈ cs → 0 ≤ commentAbsolutePosition fileChange c isBase) →
  concat (vscode.comments <$>
    omap (λ p, threadOfPartition fileChange isBase resource toVsComment
                 (partitionAt p cs)) positions)
  = toVsComment <$> concat ((λ p, partitionAt p cs) <$> positions).
Proof.
  intros Hres. induction positions as [|p ps IH]; [done|].
  rewrite fmap_cons. cbn [omap list_omap concat]. rewrite fmap_app.
  destruct (partitionAt p cs) as [|first rest] eqn:Hpart.
  - simpl. exact IH.
  - unfold threadOfPartition at 1. simpl.
    rewrite decide_False.
    + rewrite fmap_cons. cbn [concat]. simpl. by rewrite IH.
    + assert (first ∈ partitionAt p cs) as [_ Hin]%list_elem_of_filter
        by (rewrite Hpart; left).
      specialize (Hres first Hin). lia.
Qed.

Lemma partitions_of_anchored (cs : list Comment) (positions : list Z) :
  NoDup positions →
  (∀ p, p ∈ positions ↔ ∃ c, c ∈ cs ∧ position c = Some p) →
  Forall (λ c, position c ≠ None) cs →
  concat ((λ p, partitionAt p cs) <$> positions) ≡ₚ cs.
Proof.
  intros Hnd Hin Hpos. apply partitions_cover; [done|]. intros c Hc.
  rewrite Forall_forall in Hpos.
  destruct (position c) as [p|] eqn:Hp; [|by apply Hpos in Hc].
  exists p. split; [|done]. apply Hin. by exists c.
Qed.

Lemma grouping_members fileChange cs isBase threads :
  commentsToCommentThreads fileChange cs isBase = Ok threads →
  concat (vscode.comments <$> threads) ⊆+ toVsComment <$> cs.
Proof.
  intros Hok.
  destruct (threads_of_partitions _ _ _ _ Hok)
    as (positions & Hnd & Hin & Hpos & ->).
  etransitivity; [apply members_of_partitions|].
  by rewrite (partitions_of_anchored cs positions).
Qed.

(** X2. The members of the threads of one grouping are comments of the
    list, none of them twice; when the anchor line of every comment
    resolves (is not negative), they are all the comments of the list. *)
Theorem grouping_keeps_comments fileChange cs isBase threads :
  commentsToCommentThreads fileChange cs isBase = Ok threads →
  concat (vscode.comments <$> threads) ⊆+ toVsComment <$> cs
  ∧ ((∀ c, c ∈ cs → 0 ≤ commentAbsolutePosition fileChange c isBase) →
     concat (vscode.comments <$> threads) ≡ₚ toVsComment <$> cs).
Proof.
  intros Hok. split; [by eapply grouping_members|].
  destruct (threads_of_partitions _ _ _ _ Hok)
    as (positions & Hnd & Hin & Hpos & ->).
  intros Hres. rewrite members_of_resolved_partitions by done.
  by rewrite (partitions_of_anchored cs positions).
Qed.

Lemma grouping_member_identities fileChange cs isBase threads :
  NoDup (id <$> cs) →
  commentsToCommentThreads fileChange cs isBase = Ok threads →
  NoDup (vscode.commentId <$> concat (vscode.comments <$> threads)).
Proof.
  intros Hids Hok.
  pose proof (grouping_members _ _ _ _ Hok) as Hsub.
  eapply submseteq_NoDup_l; [by apply fmap_submseteq|].
  rewrite <- list_fmap_compose.
  assert (vscode.commentId ∘ toVsComment = toString ∘ id) as -> by done.
  rewrite list_fmap_compose. apply NoDup_fmap_2; [|done].
  unfold toString. apply _.
Qed.

Lemma grouping_thread_members_distinct fileChange cs isBase threads :
  NoDup (id <$> cs) →
  commentsToCommentThreads fileChange cs isBase = Ok threads →
  Forall (λ t, NoDup (vscode.commentId <$> vscode.comments t)) threads.
Proof.
  intros Hids Hok.
  pose proof (grouping_member_identities _ _ _ _ Hids Hok) as Hnd.
  clear Hok. induction threads as [|t threads IH]; [constructor|].
  rewrite fmap_cons in Hnd. simpl in Hnd. rewrite fmap_app in Hnd.
  apply NoDup_app in Hnd as (Ht & _ & Hrest).
  constructor; [done | by apply IH].
Qed.

(** X3. When the comments have pairwise distinct identities, so have the
    threads of one grouping, each thread has the identity of its first
    member, and no identity occurs twice among the members of all the
    threads. *)
Theorem grouping_identities fileChange cs isBase threads :
  NoDup (id <$> cs) →
  commentsToCommentThreads fileChange cs isBase = Ok threads →
  NoDup (identities threads)
  ∧ NoDup (vscode.commentId <$> concat (vscode.comments <$> threads))
  ∧ Forall (λ t,
      vscode.commentId <$> head (vscode.comments t)
      = Some (vscode.threadId t)) threads.
Proof.
  intros Hids Hok. split; [by eapply generation_identities_distinct|].
  split.
  - by eapply grouping_member_identities.
  - destruct (threads_of_partitions _ _ _ _ Hok)
      as (positions & _ & _ & _ & ->).
    apply Forall_forall. intros t (p & _ & Ht)%list_elem_of_omap.
    apply threadOfPartition_members
      in Ht as (-> & first & rest & -> & -> & _).
    done.
Qed.

End GroupingMore.

(** ** More on reconciliation *)

Lemma count_one_NoDup {A B} `{!EqDecision B} (f : A → B) (l : list A) :
  (∀ x, x ∈ l → length (filter (λ y, f y = f x) l) = 1%nat) →
  NoDup (f <$> l).
Proof.
  induction l as [|x l IH]; intros Hone; [constructor|].
  rewrite fmap_cons. apply NoDup_cons. split.
  - intros (y & Hxy & Hy)%list_elem_of_fmap.
    specialize (Hone x (list_elem_of_here _ _)).
    rewrite filter_cons, decide_True in Hone by done. simpl in Hone.
    assert (length (filter (λ z, f z = f x) l) = 0%nat) as Hzero by lia.
    apply length_filter_zero in Hzero. rewrite Forall_forall in Hzero.
    by apply (Hzero y).
  - apply IH. intros y Hy.
    specialize (Hone y (list_elem_of_further _ _ _ Hy)).
    rewrite filter_cons in Hone.
    assert (y ∈ filter (λ z, f z = f y) l) as Hin
      by (by apply list_elem_of_filter).
    destruct (filter (λ z, f z = f y) l) as [|z [|? ?]];
      [by apply elem_of_nil in Hin | done |].
    case_decide; simpl in Hone; lia.
Qed.

(** Members compared with themselves count as edited exactly when two of
    them share an identity. *)
Lemma commentsEditedInThread_self (l : list vscode.Comment) :
  commentsEditedInThread l l = true ↔ ¬ NoDup (vscode.commentId <$> l).
Proof.
  rewrite commentsEditedInThread_true. split.
  - intros (oc & Hoc & Hdiff) Hnd.
    pose proof (filter_key_eq vscode.commentId l oc Hnd Hoc) as Hone.
    destruct Hdiff as [Hlen | (nc & Hnc & Hid & Hbody)].
    + by rewrite Hone in Hlen.
    + assert (nc ∈ [oc]) as ->%list_elem_of_singleton; [|done].
      rewrite <- Hone. by apply list_elem_of_filter.
  - intros Hdup.
    destruct (decide (Exists (λ oc,
      length (filter (λ nc, vscode.commentId nc = vscode.commentId oc) l)
      ≠ 1%nat) l)) as [Hex|Hnone].
    + apply Exists_exists in Hex as (oc & Hoc & Hlen). exists oc. tauto.
    + exfalso. apply Hdup, count_one_NoDup. intros x Hx.
      apply not_Exists_Forall in Hnone; [|intros ?; apply _].
      rewrite Forall_forall in Hnone. specialize (Hnone x Hx). simpl in Hnone.
      by apply dec_stable in Hnone.
Qed.

Lemma bind_filter {A} (P : A → Prop) `{!∀ x, Decision (P x)}
    (f : A → list A) (l : list A) :
  (∀ x, x ∈ l → f x = if decide (P x) then [x] else []) →
  l ≫= f = filter P l.
Proof.
  induction l as [|x l IH]; intros Hf; [done|].
  rewrite bind_cons, filter_cons, Hf, IH; [|by intros; apply Hf; right|left].
  by destruct (decide (P x)).
Qed.

Lemma getRemovedCommentThreads_self generation :
  getRemovedCommentThreads generation generation = [].
Proof.
  rewrite getRemovedCommentThreads_filter.
  apply length_zero_iff_nil, length_filter_zero, Forall_forall.
  intros t Ht Hnot. by apply Hnot, list_elem_of_fmap_2.
Qed.

Lemma added_self generation :
  (getAddedOrUpdatedCommentThreads generation generation).1 = [].
Proof.
  unfold getAddedOrUpdatedCommentThreads. rewrite reconcile_spec. simpl.
  replace (filter _ generation) with (@nil vscode.CommentThread); [done|].
  symmetry. apply length_zero_iff_nil, length_filter_zero, Forall_forall.
  intros t Ht Hnot. by apply Hnot, list_elem_of_fmap_2.
Qed.

Lemma changed_self generation :
  NoDup (identities generation) →
  (getAddedOrUpdatedCommentThreads generation generation).2
  = filter (λ t, ¬ NoDup (vscode.commentId <$> vscode.comments t))
      generation.
Proof.
  intros Hnd.
  unfold getAddedOrUpdatedCommentThreads. rewrite reconcile_spec. simpl.
  apply bind_filter. intros t Ht. unfold changedOf.
  rewrite (filter_key_eq vscode.threadId generation t Hnd Ht).
  rewrite filter_cons, filter_nil.
  destruct (decide (¬ NoDup (vscode.commentId <$> vscode.comments t)))
    as [Hdup|Hdup].
  - rewrite decide_True; [done|]. right.
    by apply commentsEditedInThread_self.
  - rewrite decide_False; [done|]. intros [?|Hed]; [done|].
    by apply commentsEditedInThread_self in Hed.
Qed.

Lemma changed_self_nil generation :
  NoDup (identities generation) →
  Forall (λ t, NoDup (vscode.commentId <$> vscode.comments t)) generation →
  (getAddedOrUpdatedCommentThreads generation generation).2 = [].
Proof.
  intros Hnd Hall. rewrite changed_self by done.
  apply length_zero_iff_nil, length_filter_zero, Forall_forall.
  rewrite Forall_forall in Hall. intros t Ht Hdup. by apply Hdup, Hall.
Qed.

(** X4. Reconciling a generation with itself (its identities pairwise
    distinct) removes and adds nothing, and reports as changed exactly the
    threads two members of which share an identity: none when the
    identities of the members of each thread are pairwise distinct. *)
Theorem reconciliation_with_itself generation :
  NoDup (identities generation) →
  getRemovedCommentThreads generation generation = []
  ∧ (getAddedOrUpdatedCommentThreads generation generation).1 = []
  ∧ (getAddedOrUpdatedCommentThreads generation generation).2
    = filter (λ t, ¬ NoDup (vscode.commentId <$> vscode.comments t))
        generation
  ∧ (Forall (λ t, NoDup (vscode.commentId <$> vscode.comments t)) generation
     → (getAddedOrUpdatedCommentThreads generation generation).2 = []).
Proof.
  intros Hnd. split_and!.
  - apply getRemovedCommentThreads_self.
  - apply added_self.
  - by apply changed_self.
  - by apply changed_self_nil.
Qed.

(** X5. What reconciliation adds in one direction it removes in the other:
    the threads added from [old] to [new] are the threads removed from
    [new] to [old], as the visit leaves their display state, and the two
    have the same identities. *)
Theorem added_is_removed_backwards old new :
  (getAddedOrUpdatedCommentThreads old new).1
  = afterVisit old <$> getRemovedCommentThreads new old
  ∧ identities (getAddedOrUpdatedCommentThreads old new).1
    = identities (getRemovedCommentThreads new old)
  ∧ identities (getRemovedCommentThreads old new)
    = identities (getAddedOrUpdatedCommentThreads new old).1.
Proof.
  unfold getAddedOrUpdatedCommentThreads.
  rewrite !reconcile_spec, !getRemovedCommentThreads_filter. simpl.
  split; [done|]. by rewrite !identities_afterVisit.
Qed.

(** ** What no operation of the node touches *)

Lemma onlyComments_refl node : onlyComments node node.
Proof.
  split; [done|]. split; [done|].
  destruct (_onDidChangeCommentThreads node) as [events|] eqn:Hev; [|done].
  exists []. by rewrite app_nil_r.
Qed.

Lemma onlyComments_trans node1 node2 node3 :
  onlyComments node1 node2 → onlyComments node2 node3 →
  onlyComments node1 node3.
Proof.
  intros (Hn & Hs & Hev) (Hn' & Hs' & Hev').
  split; [congruence|]. split; [congruence|].
  destruct (_onDidChangeCommentThreads node1) as [events|].
  - destruct Hev as [more Hev]. rewrite Hev in Hev'.
    destruct Hev' as [more' ->]. exists (more ++ more').
    by rewrite app_assoc.
  - by rewrite Hev in Hev'.
Qed.

Lemma preserving_ret {A} (a : A) : preserving (mret a).
Proof. intros node. apply onlyComments_refl. Qed.

Lemma preserving_throw {A} (e : Error) : preserving (@throw A e).
Proof. intros node. apply onlyComments_refl. Qed.

Lemma preserving_lift {A} (r : result A) : preserving (lift r).
Proof. intros node. apply onlyComments_refl. Qed.

Lemma preserving_get : preserving get.
Proof. intros node. apply onlyComments_refl. Qed.

Lemma preserving_bind {A B} (m : Op A) (f : A → Op B) :
  preserving m → (∀ a, preserving (f a)) → preserving (m ≫= f).
Proof.
  intros Hm Hf node. unfold mbind, Op_bind.
  specialize (Hm node). destruct (m node) as [[a|e] node']; simpl in *.
  - eapply onlyComments_trans; [exact Hm | apply Hf].
  - done.
Qed.

Lemma preserving_try_catch {A} (m : Op A) (h : Error → Op A) :
  preserving m → (∀ e, preserving (h e)) → preserving (try_catch m h).
Proof.
  intros Hm Hh node. unfold try_catch.
  specialize (Hm node). destruct (m node) as [[a|e] node']; simpl in *.
  - done.
  - eapply onlyComments_trans; [exact Hm | apply Hh].
Qed.

Lemma preserving_forEachM {A S} (f : S → A → Op S) (l : list A) (s : S) :
  (∀ s x, preserving (f s x)) → preserving (forEachM f l s).
Proof.
  intros Hf. revert s. induction l as [|x l IH]; intros s; simpl.
  - apply preserving_ret.
  - apply preserving_bind; [apply Hf | intros s'; apply IH].
Qed.

Lemma skeleton_insert (l : list FileChangeNode) i fileChange cs :
  l !! i = Some (InMem fileChange) →
  skeleton <$> <[i := InMem (set_file_comments cs fileChange)]> l
  = skeleton <$> l.
Proof.
  intros Hi. rewrite list_fmap_insert. apply list_insert_id.
  by rewrite list_lookup_fmap, Hi.
Qed.

Lemma preserving_assignComments i cs : preserving (assignComments i cs).
Proof.
  intros node. unfold assignComments, modify. simpl.
  destruct (_fileChanges node !! i) as [[r|fileChange]|] eqn:Hi;
    try apply onlyComments_refl.
  split; [done|]. split; [by apply skeleton_insert|]. simpl.
  destruct (_onDidChangeCommentThreads node) as [events|]; [|done].
  exists []. by rewrite app_nil_r.
Qed.

Lemma preserving_fire e : preserving (fire e).
Proof.
  intros node. unfold fire.
  destruct (_onDidChangeCommentThreads node) as [events|] eqn:Hev; simpl.
  - split; [done|]. split; [done|]. rewrite Hev. by exists [e].
  - apply onlyComments_refl.
Qed.

Section Preserving.
Context `{Collaborators} `{PullRequestManager} `{UriCollaborators}.

Lemma preserving_commentsAt i : preserving (commentsAt i).
Proof.
  intros node. unfold commentsAt, mbind, Op_bind, get.
  destruct (_fileChanges node !! i) as [[r|fileChange]|];
    apply onlyComments_refl.
Qed.

Lemma preserving_findMatchingFileNode uri :
  preserving (findMatchingFileNode uri).
Proof.
  intros node. rewrite findMatchingFileNode_node. apply onlyComments_refl.
Qed.

Ltac preserving_step :=
  first
    [ apply preserving_ret | apply preserving_throw | apply preserving_lift
    | apply preserving_get | apply preserving_fire
    | apply preserving_assignComments | apply preserving_commentsAt
    | apply preserving_findMatchingFileNode
    | apply preserving_bind; [|intros ?]
    | apply preserving_try_catch; [|intros ?]
    | apply preserving_forEachM; intros ? ?
    | progress case_match ].

Lemma preserving_deleteDraftFile rid acc entry :
  preserving (deleteDraftFile rid acc entry).
Proof.
  unfold deleteDraftFile. destruct acc, entry. repeat preserving_step.
Qed.

Lemma preserving_updateCommentPendingState :
  preserving updateCommentPendingState.
Proof.
  unfold updateCommentPendingState.
  apply preserving_bind; [|intros ?; repeat preserving_step].
  intros node. unfold modify. simpl.
  split; [done|]. split.
  - cbn [_fileChanges set_fileChanges].
    rewrite <- list_fmap_compose. apply list_fmap_ext.
    intros j [r|fileChange] _; done.
  - cbn [_onDidChangeCommentThreads set_fileChanges].
    destruct (_onDidChangeCommentThreads node) as [events|]; [|done].
    exists []. by rewrite app_nil_r.
Qed.

(** X6. Whatever they are given and whether they return or throw, the
    operations of the node change nothing but comment lists and the events
    fired: the pull request, the file changes in their order, their names,
    hunks and uris stay, an emitter is neither created nor dropped, and the
    events fired before stay in their order. *)
Theorem operations_touch_comments_only node document uri range text comment
    thread comments fileChanges :
  onlyComments node (createNewCommentThread document range text node).2
  ∧ onlyComments node (editComment document comment text node).2
  ∧ onlyComments node (deleteComment document comment node).2
  ∧ onlyComments node
      (replyToCommentThread document range thread text node).2
  ∧ onlyComments node (deleteDraft node).2
  ∧ onlyComments node (updateComments comments fileChanges node).2
  ∧ onlyComments node (updateCommentPendingState node).2
  ∧ onlyComments node (provideDocumentContent uri node).2
  ∧ onlyComments node (provideDocumentComments document node).2.
Proof.
  split_and!.
  - revert node. change (preserving
      (createNewCommentThread document range text)).
    unfold createNewCommentThread. repeat preserving_step.
  - revert node. change (preserving (editComment document comment text)).
    unfold editComment. repeat preserving_step.
  - revert node. change (preserving (deleteComment document comment)).
    unfold deleteComment. repeat preserving_step.
  - revert node. change (preserving
      (replyToCommentThread document range thread text)).
    unfold replyToCommentThread. repeat preserving_step.
  - revert node. change (preserving deleteDraft).
    unfold deleteDraft. repeat preserving_step.
    apply preserving_deleteDraftFile.
  - revert node. change (preserving (updateComments comments fileChanges)).
    unfold updateComments. repeat preserving_step.
  - apply preserving_updateCommentPendingState.
  - revert node. change (preserving (provideDocumentContent uri)).
    unfold provideDocumentContent. repeat preserving_step.
  - revert node. change (preserving (provideDocumentComments document)).
    unfold provideDocumentComments. repeat preserving_step.
Qed.

End Preserving.

(** ** Failures and successes of the comment operations *)

Section OperationsMore.
Context `{Collaborators} `{PullRequestManager}.

Ltac run_operation :=
  repeat first
    [ progress unfold try_catch, mbind, Op_bind, commentsAt, assignComments,
        modify, fire, get, lift, throw, mret, Op_ret in *
    | progress (case_match; simplify_eq/=) ];
  try done.

Lemma editComment_failure node document comment text :
  is_Throw (editComment document comment text node).1 →
  (editComment document comment text node).2 = node.
Proof.
  unfold editComment.
  pose proof (findMatchingFileNode_node (vscode.uri document) node) as Hn.
  run_operation.
Qed.

Lemma createNewCommentThread_failure node document range text :
  is_Throw (createNewCommentThread document range text node).1 →
  (createNewCommentThread document range text node).2 = node.
Proof.
  unfold createNewCommentThread.
  pose proof (findMatchingFileNode_node (vscode.uri document) node) as Hn.
  run_operation.
Qed.

Lemma replyToCommentThread_failure node document range thread text :
  is_Throw (replyToCommentThread document range thread text node).1 →
  (replyToCommentThread document range thread text node).2 = node.
Proof.
  unfold replyToCommentThread.
  pose proof (findMatchingFileNode_node (vscode.uri document) node) as Hn.
  run_operation.
Qed.

Lemma createNewCommentThread_error node document range text e :
  (createNewCommentThread document range text node).1 = Throw e →
  ∃ cause, e = MkError (formatError cause).
Proof.
  unfold createNewCommentThread. intros He.
  run_operation; by eexists.
Qed.

Lemma replyToCommentThread_error node document range thread text e :
  (replyToCommentThread document range thread text node).1 = Throw e →
  ∃ cause, e = MkError (formatError cause).
Proof.
  unfold replyToCommentThread. intros He.
  run_operation; by eexists.
Qed.

(** X7. Creating a thread, editing a comment and replying to a thread
    fail without a trace: whenever one of them throws -- for a document
    that is no document of a pull request, a file change that is missing or
    remote, a negative position, a comment that is missing, a request the
    host refuses or answers with nothing -- the node is as it was.  What
    creating and replying throw is always an [Error] with the formatted
    message of the cause. *)
Theorem failed_operations_change_nothing node document range text comment
    thread :
  (is_Throw (createNewCommentThread document range text node).1 →
     (createNewCommentThread document range text node).2 = node)
  ∧ (is_Throw (editComment document comment text node).1 →
     (editComment document comment text node).2 = node)
  ∧ (is_Throw (replyToCommentThread document range thread text node).1 →
     (replyToCommentThread document range thread text node).2 = node)
  ∧ (∀ e, (createNewCommentThread document range text node).1 = Throw e →
       ∃ cause, e = MkError (formatError cause))
  ∧ (∀ e, (replyToCommentThread document range thread text node).1
          = Throw e →
       ∃ cause, e = MkError (formatError cause)).
Proof.
  split_and!.
  - apply createNewCommentThread_failure.
  - apply editComment_failure.
  - apply replyToCommentThread_failure.
  - apply createNewCommentThread_error.
  - apply replyToCommentThread_error.
Qed.


Lemma set_file_comments_same fileChange :
  set_file_comments (comments fileChange) fileChange = fileChange.
Proof. by destruct fileChange. Qed.

Lemma set_file_comments_twice cs cs' fileChange :
  set_file_comments cs (set_file_comments cs' fileChange)
  = set_file_comments cs fileChange.
Proof. done. Qed.

Lemma list_find_replace {A} (P : A → Prop) `{!∀ x, Decision (P x)}
    (l : list A) i x y :
  list_find P l = Some (i, x) → P y →
  list_find P (<[i := y]> l) = Some (i, y).
Proof.
  intros (Hi & Hx & Hbefore)%list_find_Some Hy. apply list_find_Some.
  split; [|split; [done|]].
  - apply list_lookup_insert_eq. by eapply lookup_lt_Some.
  - intros j z Hj Hlt. rewrite list_lookup_insert_ne in Hj by lia.
    by eapply Hbefore.
Qed.

Lemma findMatchingFileNode_after_assign node uri i fileChange cs :
  findMatchingFileNode uri node = (Ok (i, fileChange), node) →
  let node' :=
    set_fileChanges
      (<[i := InMem (set_file_comments cs fileChange)]> (_fileChanges node))
      node in
  findMatchingFileNode uri node'
  = (Ok (i, set_file_comments cs fileChange), node').
Proof.
  unfold findMatchingFileNode. destruct (fromPRUri uri) as [params|]; [|done].
  unfold mbind, Op_bind, get. simpl.
  destruct (list_find _ (_fileChanges node)) as [[j [r|n]]|] eqn:Hfind;
    try done.
  intros [= -> ->].
  erewrite list_find_replace; [done | exact Hfind |].
  by apply list_find_Some in Hfind as (_ & ? & _).
Qed.

Lemma createNewCommentThread_success node document range text params i
    fileChange rawComment :
  fromPRUri (vscode.uri document) = Some params →
  params_prNumber params = prNumber node →
  findMatchingFileNode (vscode.uri document) node
  = (Ok (i, fileChange), node) →
  let position :=
    mapHeadLineToDiffHunkPosition (diffHunks fileChange) ""
      (vscode.line (vscode.start range) + 1) (params_isBase params) in
  0 ≤ position →
  createComment text (params_fileName params) position
  = Ok (Some rawComment) →
  createNewCommentThread document range text node
  = (Ok (Some
           {| vscode.threadId := toString (id rawComment);
              vscode.resource := vscode.uri document;
              vscode.range := range;
              vscode.comments := [toVsComment rawComment];
              vscode.collapsibleState := None |}),
     set_fileChanges
       (<[i := InMem (set_file_comments
                        (comments fileChange ++ [rawComment])
                        fileChange)]> (_fileChanges node))
       node).
Proof.
  intros Hp Hn Hf position Hpos Hraw.
  pose proof (findMatchingFileNode_Ok _ _ _ _ _ Hf) as [_ Hi].
  unfold createNewCommentThread, try_catch, mbind, Op_bind, get.
  rewrite Hp, bool_decide_eq_false_2 by (by intros ?). rewrite Hf.
  fold position. rewrite decide_False by lia.
  unfold mret, Op_ret, lift. rewrite Hraw.
  rewrite (commentsAt_found _ _ _ Hi).
  by rewrite (assignComments_found _ _ _ _ Hi).
Qed.

Lemma deleteComment_spliced node document comment i fileChange index
    existing :
  findMatchingFileNode (vscode.uri document) node
  = (Ok (i, fileChange), node) →
  list_find (λ c, toString (id c) = vscode.commentId comment)
    (comments fileChange) = Some (index, existing) →
  deleteReviewComment (vscode.commentId comment) = Ok tt →
  deleteComment document comment node
  = (inDraftMode ← lift inDraftMode;
     node ← get;
     match _onDidChangeCommentThreads node with
     | Some _ =>
         fire {| vscode.added := []; vscode.changed := [];
                 vscode.removed := [];
                 vscode.event_inDraftMode := inDraftMode |}
     | None => mret tt
     end)
      (set_fileChanges
         (<[i := InMem (set_file_comments (delete index (comments fileChange))
                          fileChange)]> (_fileChanges node)) node).
Proof.
  intros Hf Hfind Hdel.
  pose proof (findMatchingFileNode_Ok _ _ _ _ _ Hf) as [_ Hi].
  unfold deleteComment. unfold mbind at 1, Op_bind at 1.
  rewrite Hf. unfold mbind at 1, Op_bind at 1, lift at 1. rewrite Hdel.
  unfold mbind at 1, Op_bind at 1.
  rewrite (commentsAt_found _ _ _ Hi), Hfind.
  unfold mbind at 1, Op_bind at 1.
  by rewrite (assignComments_found _ _ _ _ Hi).
Qed.

Lemma deleteComment_success node document comment i fileChange index
    existing draft :
  findMatchingFileNode (vscode.uri document) node
  = (Ok (i, fileChange), node) →
  list_find (λ c, toString (id c) = vscode.commentId comment)
    (comments fileChange) = Some (index, existing) →
  deleteReviewComment (vscode.commentId comment) = Ok tt →
  inDraftMode = Ok draft →
  let node' :=
    set_fileChanges
      (<[i := InMem (set_file_comments (delete index (comments fileChange))
                       fileChange)]> (_fileChanges node)) node in
  deleteComment document comment node
  = (Ok tt,
     match _onDidChangeCommentThreads node with
     | Some events =>
         set_events
           (events ++ [ {| vscode.added := []; vscode.changed := [];
                           vscode.removed := [];
                           vscode.event_inDraftMode := draft |} ]) node'
     | None => node'
     end).
Proof.
  intros Hf Hfind Hdel Hdraft node'.
  rewrite (deleteComment_spliced _ _ _ _ _ _ _ Hf Hfind Hdel).
  unfold mbind, Op_bind, lift, get, fire, mret, Op_ret. rewrite Hdraft.
  subst node'. cbn [_onDidChangeCommentThreads set_fileChanges].
  by destruct (_onDidChangeCommentThreads node) eqn:He; simpl; rewrite ?He.
Qed.

(** X8. When the comment is in the list of the file change and the host
    grants the edit, [editComment] puts what the host answers in the place
    of the first comment of that identity: the list keeps its length and
    its other comments, the other file changes stay, and no event is
    fired. *)
Theorem edit_replaces_in_place node document comment text i fileChange
    index existing rawComment :
  findMatchingFileNode (vscode.uri document) node
  = (Ok (i, fileChange), node) →
  list_find (λ c, toString (id c) = vscode.commentId comment)
    (comments fileChange) = Some (index, existing) →
  editReviewComment existing text = Ok rawComment →
  editComment document comment text node
  = (Ok tt,
     set_fileChanges
       (<[i := InMem (set_file_comments
                        (<[index := rawComment]> (comments fileChange))
                        fileChange)]> (_fileChanges node))
       node)
  ∧ length (<[index := rawComment]> (comments fileChange))
    = length (comments fileChange)
  ∧ <[index := rawComment]> (comments fileChange) !! index = Some rawComment
  ∧ (∀ k, k ≠ index →
       <[index := rawComment]> (comments fileChange) !! k
       = comments fileChange !! k)
  ∧ _onDidChangeCommentThreads (editComment document comment text node).2
    = _onDidChangeCommentThreads node.
Proof.
  intros Hf Hfind Hedit.
  pose proof (findMatchingFileNode_Ok _ _ _ _ _ Hf) as [_ Hi].
  assert (editComment document comment text node
    = (Ok tt,
       set_fileChanges
         (<[i := InMem (set_file_comments
                          (<[index := rawComment]> (comments fileChange))
                          fileChange)]> (_fileChanges node))
         node)) as Hrun.
  { unfold editComment, mbind, Op_bind. rewrite Hf, Hfind.
    unfold lift at 1. rewrite Hedit.
    rewrite (commentsAt_found _ _ _ Hi), Hfind.
    by rewrite (assignComments_found _ _ _ _ Hi). }
  apply list_find_Some in Hfind as (Hindex & _).
  rewrite Hrun. split_and!; try done.
  - apply length_insert.
  - apply list_lookup_insert_eq. by eapply lookup_lt_Some.
  - intros k Hk. by apply list_lookup_insert_ne.
Qed.

(** X9. When the comment is in the list and the host grants the deletion,
    [deleteComment] takes the first comment of that identity out of the
    list.  It then asks for the draft mode: when the host answers, one
    empty event with the answer is fired if the node has an emitter; when
    the host refuses, the operation throws although the comment is already
    out of the list.  With pairwise distinct identities, no comment of the
    identity is left. *)
Theorem delete_takes_first_out node document comment i fileChange index
    existing :
  findMatchingFileNode (vscode.uri document) node
  = (Ok (i, fileChange), node) →
  list_find (λ c, toString (id c) = vscode.commentId comment)
    (comments fileChange) = Some (index, existing) →
  deleteReviewComment (vscode.commentId comment) = Ok tt →
  let remaining := delete index (comments fileChange) in
  let node' :=
    set_fileChanges
      (<[i := InMem (set_file_comments remaining fileChange)]>
         (_fileChanges node)) node in
  (∀ draft, inDraftMode = Ok draft →
     deleteComment document comment node
     = (Ok tt,
        match _onDidChangeCommentThreads node with
        | Some events =>
            set_events
              (events ++ [ {| vscode.added := []; vscode.removed := [];
                              vscode.changed := [];
                              vscode.event_inDraftMode := draft |} ]) node'
        | None => node'
        end))
  ∧ (∀ e, inDraftMode = Throw e →
       deleteComment document comment node = (Throw e, node'))
  ∧ length remaining = pred (length (comments fileChange))
  ∧ (NoDup (id <$> comments fileChange) →
     list_find (λ c, toString (id c) = vscode.commentId comment) remaining
     = None).
Proof.
  intros Hf Hfind Hdel remaining node'.
  split_and!.
  - intros draft Hdraft.
    exact (deleteComment_success _ _ _ _ _ _ _ _ Hf Hfind Hdel Hdraft).
  - intros e Hdraft.
    rewrite (deleteComment_spliced _ _ _ _ _ _ _ Hf Hfind Hdel).
    unfold mbind, Op_bind, lift. by rewrite Hdraft.
  - apply list_find_Some in Hfind as (Hindex & _).
    subst remaining. rewrite length_delete by (by eexists). lia.
  - intros Hnd. apply list_find_None, Forall_forall.
    intros c Hc Hid.
    apply list_find_Some in Hfind as (Hindex & Hex & _).
    subst remaining. apply list_elem_of_lookup in Hc as [k Hk].
    assert (id c = id existing) as Hsame.
    { apply (inj pretty). unfold toString in *. congruence. }
    destruct (decide (k < index)%nat) as [Hlt|Hge].
    + rewrite list_lookup_delete_lt in Hk by done.
      assert (k = index); [|lia].
      eapply NoDup_lookup; [exact Hnd| |]; rewrite list_lookup_fmap.
      * by rewrite Hk.
      * by rewrite Hindex, Hsame.
    + rewrite list_lookup_delete_ge in Hk by lia.
      assert (S k = index); [|lia].
      eapply NoDup_lookup; [exact Hnd| |]; rewrite list_lookup_fmap.
      * by rewrite Hk.
      * by rewrite Hindex, Hsame.
Qed.

(** X10. When the comment of the identity of the thread is in the list
    and the host answers the reply with a comment, [replyToCommentThread]
    returns the thread it was given with that comment after its members --
    the same identity, resource, range and display state -- and puts the
    comment at the end of the list of the file change; no event is
    fired. *)
Theorem reply_extends_thread node document range thread text i fileChange
    k parent rawComment :
  findMatchingFileNode (vscode.uri document) node
  = (Ok (i, fileChange), node) →
  list_find (λ c, toString (id c) = vscode.threadId thread)
    (comments fileChange) = Some (k, parent) →
  createCommentReply text parent = Ok (Some rawComment) →
  replyToCommentThread document range thread text node
  = (Ok (set_comments (vscode.comments thread ++ [toVsComment rawComment])
           thread),
     set_fileChanges
       (<[i := InMem (set_file_comments
                        (comments fileChange ++ [rawComment]) fileChange)]>
          (_fileChanges node)) node).
Proof.
  intros Hf Hfind Hreply.
  pose proof (findMatchingFileNode_Ok _ _ _ _ _ Hf) as [_ Hi].
  unfold replyToCommentThread, try_catch, mbind, Op_bind. rewrite Hf, Hfind.
  unfold lift at 1. rewrite Hreply. unfold mret at 1, Op_ret at 1.
  rewrite (commentsAt_found _ _ _ Hi).
  by rewrite (assignComments_found _ _ _ _ Hi).
Qed.

(** X11. Deleting the comment of a thread just created takes the file
    changes back to what they were, when the identity of the new comment
    was not in the list before. *)
Theorem create_then_delete_restores node document range text params i
    fileChange rawComment draft :
  fromPRUri (vscode.uri document) = Some params →
  params_prNumber params = prNumber node →
  findMatchingFileNode (vscode.uri document) node
  = (Ok (i, fileChange), node) →
  let position :=
    mapHeadLineToDiffHunkPosition (diffHunks fileChange) ""
      (vscode.line (vscode.start range) + 1) (params_isBase params) in
  0 ≤ position →
  createComment text (params_fileName params) position
  = Ok (Some rawComment) →
  id rawComment ∉ id <$> comments fileChange →
  deleteReviewComment (toString (id rawComment)) = Ok tt →
  inDraftMode = Ok draft →
  ∃ thread node1 node2,
    createNewCommentThread document range text node = (Ok (Some thread), node1)
    ∧ vscode.comments thread = [toVsComment rawComment]
    ∧ deleteComment document (toVsComment rawComment) node1 = (Ok tt, node2)
    ∧ _fileChanges node2 = _fileChanges node.
Proof.
  intros Hp Hn Hf position Hpos Hraw Hfresh Hdel Hdraft.
  pose proof (findMatchingFileNode_Ok _ _ _ _ _ Hf) as [_ Hi].
  pose proof (createNewCommentThread_success node document range text params
    i fileChange rawComment Hp Hn Hf Hpos Hraw) as Hcreate.
  eexists _, _, _. split; [exact Hcreate|]. split; [done|].
  set (node1 := set_fileChanges _ node).
  pose proof (findMatchingFileNode_after_assign node (vscode.uri document) i
    fileChange (comments fileChange ++ [rawComment]) Hf) as Hf1.
  simpl in Hf1. fold node1 in Hf1.
  assert (list_find (λ c, toString (id c) = toString (id rawComment))
    (comments fileChange ++ [rawComment])
    = Some (length (comments fileChange), rawComment)) as Hfind.
  { apply list_find_Some. split; [|split; [done|]].
    - by rewrite lookup_app_r, Nat.sub_diag.
    - intros j c Hj Hlt Hid. rewrite lookup_app_l in Hj by done.
      apply Hfresh. apply (inj pretty) in Hid. rewrite <- Hid.
      apply list_elem_of_fmap_2. by eapply list_elem_of_lookup_2. }
  pose proof (deleteComment_success node1 document
    (toVsComment rawComment) i
    (set_file_comments (comments fileChange ++ [rawComment]) fileChange)
    (length (comments fileChange)) rawComment draft Hf1 Hfind Hdel Hdraft)
    as Hrun.
  split; [exact Hrun|].
  assert (∀ n : PRNode,
    _fileChanges (match _onDidChangeCommentThreads node1 with
                  | Some events => set_events (events ++ [ {|
                      vscode.added := []; vscode.changed := [];
                      vscode.removed := [];
                      vscode.event_inDraftMode := draft |} ]) n
                  | None => n
                  end) = _fileChanges n) as ->
    by (intros n; by destruct (_onDidChangeCommentThreads node1)).
  subst node1. simpl.
  rewrite list_insert_insert_eq, set_file_comments_twice.
  replace (delete (length (comments fileChange))
             (comments fileChange ++ [rawComment]))
    with (comments fileChange).
  - rewrite set_file_comments_same. by apply list_insert_id.
  - by rewrite delete_middle, app_nil_r.
Qed.

End OperationsMore.

(** ** Refreshing the comments *)

Section RefreshFacts.
Context `{Collaborators} `{PullRequestManager}.

Lemma fold_updateCommentsFile_throw fileChanges l e :
  fold_left (λ acc oldFileChange,
      acc ← acc; updateCommentsFile fileChanges acc oldFileChange)
    l (Throw e) = Throw e.
Proof. by induction l. Qed.

Lemma updateCommentsFile_same fileChanges acc fileChange :
  NoDup (node_fileName <$> filter isInMem fileChanges) →
  InMem fileChange ∈ fileChanges →
  Forall (λ c, position c ≠ None) (comments fileChange) →
  NoDup (id <$> comments fileChange) →
  updateCommentsFile fileChanges acc (InMem fileChange) = Ok acc.
Proof.
  intros Hnames Hin Hpos Hids. unfold updateCommentsFile.
  assert (InMem fileChange ∈ filter isInMem fileChanges) as Hin'
    by (by apply list_elem_of_filter).
  pose proof (filter_key_eq node_fileName _ _ Hnames Hin') as Hone.
  simpl in Hone. rewrite Hone.
  destruct (commentsToCommentThreads_spec fileChange (comments fileChange)
    true Hpos) as (? & ? & _ & _ & _ & _ & Hleft).
  destruct (commentsToCommentThreads_spec fileChange (comments fileChange)
    false Hpos) as (? & ? & _ & _ & _ & _ & Hright).
  pose proof (generation_identities_distinct _ _ _ _ Hids Hleft) as Hl.
  pose proof (generation_identities_distinct _ _ _ _ Hids Hright) as Hr.
  pose proof (grouping_thread_members_distinct _ _ _ _ Hids Hleft) as Hlm.
  pose proof (grouping_thread_members_distinct _ _ _ _ Hids Hright) as Hrm.
  rewrite Hleft, Hright. cbn [mbind result_bind mret result_ret].
  rewrite !getRemovedCommentThreads_self, !added_self.
  rewrite !changed_self_nil by done.
  rewrite !app_nil_r. by destruct acc.
Qed.

Lemma updateCommentsDelta_same fileChanges :
  NoDup (node_fileName <$> filter isInMem fileChanges) →
  anchoredChanges fileChanges →
  distinctComments fileChanges →
  updateCommentsDelta fileChanges fileChanges
  = Ok {| delta_added := []; delta_removed := []; delta_changed := [] |}.
Proof.
  intros Hnames Hanch Hdist. unfold updateCommentsDelta.
  generalize {| delta_added := []; delta_removed := [];
                delta_changed := [] |}.
  assert (∀ x, x ∈ fileChanges → x ∈ fileChanges) as Hsub by done.
  revert Hsub. generalize fileChanges at 1 4 as l.
  induction l as [|x l IH]; intros Hsub acc; [done|].
  cbn [fold_left mbind result_bind].
  assert (updateCommentsFile fileChanges acc x = Ok acc) as ->.
  { destruct x as [r|fc]; [done|].
    assert (InMem fc ∈ fileChanges) as Hin by (apply Hsub; left).
    unfold anchoredChanges, distinctComments in *.
    rewrite Forall_forall in Hanch, Hdist.
    apply updateCommentsFile_same; [done | done | |].
    - exact (Hanch _ Hin).
    - exact (Hdist _ Hin). }
  apply IH. intros y Hy. apply Hsub. by right.
Qed.

(** X12. Refreshing a node with the file changes it already has fires no
    event and leaves the node as it is, when its in-memory file changes
    have pairwise distinct names and their comments are anchored and have
    pairwise distinct identities. *)
Theorem refresh_without_news node comments :
  NoDup (node_fileName <$> filter isInMem (_fileChanges node)) →
  anchoredChanges (_fileChanges node) →
  distinctComments (_fileChanges node) →
  updateComments comments (_fileChanges node) node = (Ok tt, node).
Proof.
  intros Hnames Hanch Hdist. unfold updateComments, mbind, Op_bind, get.
  destruct (_onDidChangeCommentThreads node); [|done].
  unfold lift. by rewrite updateCommentsDelta_same.
Qed.

(** X13. [updateComments] never touches the file changes of the node, and
    what it fires is at most one event, which is never empty: one of its
    three arrays has a thread.  Without an emitter it returns at once. *)
Theorem refresh_fires_no_empty_event node comments fileChanges :
  let node' := (updateComments comments fileChanges node).2 in
  _fileChanges node' = _fileChanges node
  ∧ prNumber node' = prNumber node
  ∧ (node' = node
     ∨ ∃ events event,
         _onDidChangeCommentThreads node = Some events
         ∧ node' = set_events (events ++ [event]) node
         ∧ (updateComments comments fileChanges node).1 = Ok tt
         ∧ (vscode.added event ≠ [] ∨ vscode.removed event ≠ []
            ∨ vscode.changed event ≠ []))
  ∧ (_onDidChangeCommentThreads node = None →
     updateComments comments fileChanges node = (Ok tt, node)).
Proof.
  unfold updateComments, mbind, Op_bind, get, lift.
  destruct (_onDidChangeCommentThreads node) as [events|] eqn:Hev;
    [|by split_and!; try left].
  destruct (updateCommentsDelta _ _) as [delta|e];
    [|by split_and!; try left].
  case_bool_decide as Hany; [|by split_and!; try left].
  destruct inDraftMode as [draft|e]; [|by split_and!; try left].
  unfold fire. rewrite Hev. cbn [snd fst].
  split_and!; try done. right. eexists _, _. split; [done|].
  split; [done|]. split; [done|]. simpl.
  destruct Hany as [Hl|[Hl|Hl]]; [left | right; left | right; right];
    intros Hnil; by rewrite Hnil in Hl.
Qed.

End RefreshFacts.

(** ** Documents and events *)

Section DocumentFacts.
Context `{Collaborators} `{PullRequestManager}.

Lemma omap_fmap_option {A B C} (f : A → option B) (g : A → option C)
    (h : B → C) (l : list A) :
  (∀ x, g x = h <$> f x) → omap g l = h <$> omap f l.
Proof.
  intros Hg. induction l as [|x l IH]; [done|].
  cbn [omap list_omap]. rewrite Hg. fold (omap g l) (omap f l).
  rewrite IH. by destruct (f x).
Qed.

Lemma eventThread_of_partition fileChange isBase uri partition :
  threadOfPartition fileChange isBase
    (if isBase then parentFilePath fileChange else filePath fileChange)
    toVsComment partition
  = eventThread fileChange isBase <$>
      threadOfPartition fileChange isBase uri toVsCommentWithReactions
        partition.
Proof.
  unfold threadOfPartition. destruct partition as [|first rest]; [done|].
  cbn [head mbind option_bind].
  destruct (decide (_ < 0)); [done|].
  cbn [fmap option_fmap option_map]. unfold eventThread.
  cbn [vscode.threadId vscode.range vscode.comments vscode.collapsibleState].
  by rewrite <- list_fmap_compose.
Qed.

Lemma providePRDocumentComments_total document prNumber fileChanges
    inDraftMode :
  ¬ is_Throw (providePRDocumentComments document prNumber fileChanges
                inDraftMode).
Proof.
  destruct (fromPRUri (vscode.uri document)) as [params|] eqn:Hp;
    [|unfold providePRDocumentComments; rewrite Hp; by intros []].
  destruct (decide (params_prNumber params = prNumber)) as [Hn|Hn];
    [|unfold providePRDocumentComments;
      rewrite Hp, decide_True by done; by intros []].
  destruct (list_find (λ change,
    node_fileName change = params_fileName params) fileChanges)
    as [[i [r|fileChange]]|] eqn:Hfind.
  - unfold providePRDocumentComments.
    rewrite Hp, decide_False, Hfind by (by intros ?). by intros [].
  - destruct (providePRDocumentComments_found document prNumber fileChanges
      inDraftMode params i fileChange Hp Hn Hfind) as (? & -> & _).
    by intros [].
  - unfold providePRDocumentComments.
    rewrite Hp, decide_False, Hfind by (by intros ?). by intros [].
Qed.

(** X14. The threads a document shows are the threads the events of the
    node carry for its file change and side: for a file change of anchored
    comments, grouping for the events gives, thread by thread and in the
    same order, the threads of the document on the uri of the side and
    with members that have no reactions -- the same identities, ranges,
    display states and members. *)
Theorem document_threads_are_event_threads document prNumber fileChanges
    inDraftMode params i fileChange :
  fromPRUri (vscode.uri document) = Some params →
  params_prNumber params = prNumber →
  list_find (λ change, node_fileName change = params_fileName params)
    fileChanges = Some (i, InMem fileChange) →
  Forall (λ c, position c ≠ None) (comments fileChange) →
  ∃ info,
    providePRDocumentComments document prNumber fileChanges inDraftMode
    = Ok (Some info)
    ∧ commentsToCommentThreads fileChange (comments fileChange)
        (params_isBase params)
      = Ok (eventThread fileChange (params_isBase params)
              <$> vscode.threads info)
    ∧ vscode.inDraftMode info = inDraftMode.
Proof.
  intros Hp Hn Hfind Hpos.
  destruct (providePRDocumentComments_found document prNumber fileChanges
    inDraftMode params i fileChange Hp Hn Hfind)
    as (threads & Hinfo & sections & Hsections & ->).
  destruct (commentsToCommentThreads_spec fileChange (comments fileChange)
    (params_isBase params) Hpos)
    as (sections' & positions & Hsections' & _ & _ & Hall & Hthreads).
  rewrite Hsections in Hsections'. injection Hsections' as <-.
  eexists. split; [exact Hinfo|]. split; [|done].
  rewrite Hthreads. cbn [vscode.threads]. f_equal.
  rewrite (omap_sections _ _ _ _ _ _ _ Hall).
  apply omap_fmap_option. intros p. apply eventThread_of_partition.
Qed.

(** X15. Providing the comments of a document fails only with the host:
    [provideDocumentComments] throws exactly when the document is one of
    the scheme [pr] and the request for the draft mode fails.  It never
    changes the node, and for a document of another scheme it returns
    nothing. *)
Theorem document_comments_fail_only_with_host document node :
  (provideDocumentComments document node).2 = node
  ∧ (is_Throw (provideDocumentComments document node).1
     ↔ vscode.scheme (vscode.uri document) = "pr" ∧ is_Throw inDraftMode)
  ∧ (vscode.scheme (vscode.uri document) ≠ "pr" →
     (provideDocumentComments document node).1 = Ok None).
Proof.
  unfold provideDocumentComments.
  destruct (decide (vscode.scheme (vscode.uri document) = "pr")) as [Hs|Hs].
  - unfold mbind, Op_bind, lift, get.
    destruct inDraftMode as [draft|e]; simpl; [|by split_and!].
    pose proof (providePRDocumentComments_total document (prNumber node)
      (_fileChanges node) draft) as Htotal.
    split_and!; [done | | done]. split; [done | by intros [_ ?]].
  - split_and!; [done | | done]. split; [done | by intros [? _]].
Qed.

End DocumentFacts.

(** ** Publishing the pending comments *)

Section PendingFacts.
Context `{Collaborators} `{PullRequestManager}.

Lemma allCommentThreads_throw l e :
  fold_left (λ threads change,
      threads ← threads;
      match change with
      | InMem change =>
          head ← commentsToCommentThreads change (comments change) false;
          base ← commentsToCommentThreads change (comments change) true;
          mret ((threads ++ head) ++ base)
      | Remote _ => mret threads
      end) l (Throw e) = Throw e.
Proof. by induction l. Qed.






End PendingFacts.

(** ** The file changes of the children *)

Section ChildrenFacts.
Context `{Collaborators} `{PullRequestManager} `{UriCollaborators}.

Lemma fileChangeNodeOf_anchored headCommit comments rawChanges :
  anchoredChanges (fileChangeNodeOf headCommit comments <$> rawChanges).
Proof.
  unfold anchoredChanges. rewrite Forall_fmap. apply Forall_true.
  intros [slim|raw]; [done|]. simpl. apply Forall_forall.
  by intros c [[_ ?] _]%list_elem_of_filter.
Qed.

Lemma fileChangeNodeOf_distinct headCommit comments rawChanges :
  NoDup (id <$> comments) →
  distinctComments (fileChangeNodeOf headCommit comments <$> rawChanges).
Proof.
  intros Hnd. unfold distinctComments. rewrite Forall_fmap.
  apply Forall_true. intros [slim|raw]; [done|]. simpl.
  eapply sublist_NoDup; [exact Hnd|].
  apply fmap_sublist, sublist_filter.
Qed.

(** X17. The file changes [getChildren] builds hold, each under the name
    of its raw change, exactly the comments of that path that have a
    position, in the order of the comments of the pull request.  So their
    comments are anchored, grouping them never throws, and their
    identities are pairwise distinct when those of the comments of the
    pull request are. *)
Theorem children_hold_anchored_comments headCommit allComments rawChanges :
  let fileChanges := fileChangeNodeOf headCommit allComments <$> rawChanges in
  anchoredChanges fileChanges
  ∧ (NoDup (id <$> allComments) → distinctComments fileChanges)
  ∧ (∀ fileChange, InMem fileChange ∈ fileChanges →
       comments fileChange = commentsOfFile allComments (fileName fileChange)
       ∧ comments fileChange `sublist_of` allComments
       ∧ ∀ isBase,
           ¬ is_Throw (commentsToCommentThreads fileChange
                         (comments fileChange) isBase)).
Proof.
  intros fileChanges. split; [apply fileChangeNodeOf_anchored|].
  split; [apply fileChangeNodeOf_distinct|].
  intros fileChange Hin.
  pose proof (fileChangeNodeOf_anchored headCommit allComments rawChanges)
    as Hanch.
  unfold anchoredChanges in Hanch. rewrite Forall_forall in Hanch.
  specialize (Hanch _ Hin). simpl in Hanch.
  split_and!.
  - apply list_elem_of_fmap in Hin as ([slim|raw] & Heq & _); [done|].
    by injection Heq as ->.
  - apply list_elem_of_fmap in Hin as ([slim|raw] & Heq & _); [done|].
    injection Heq as ->. apply sublist_filter.
  - intros isBase.
    destruct (commentsToCommentThreads_spec fileChange (comments fileChange)
      isBase Hanch) as (? & ? & _ & _ & _ & _ & Hok).
    rewrite Hok. by intros [].
Qed.

(** X18. Fetching the children again when nothing has changed fires no
    event: on a node that holds the file changes built from the comments
    and the raw changes, [updateComments] with the file changes built from
    the same comments and raw changes leaves the node as it is, when the
    comments have pairwise distinct identities and the in-memory file
    changes pairwise distinct names. *)
Theorem unchanged_children_fire_nothing headCommit allComments rawChanges
    node :
  let fileChanges := fileChangeNodeOf headCommit allComments <$> rawChanges in
  _fileChanges node = fileChanges →
  NoDup (id <$> allComments) →
  NoDup (node_fileName <$> filter isInMem fileChanges) →
  updateComments allComments fileChanges node = (Ok tt, node).
Proof.
  intros fileChanges Hnode Hids Hnames.
  unfold updateComments, mbind, Op_bind, get.
  destruct (_onDidChangeCommentThreads node); [|done].
  unfold lift. rewrite Hnode, updateCommentsDelta_same; [done | done | |].
  - apply fileChangeNodeOf_anchored.
  - by apply fileChangeNodeOf_distinct.
Qed.

End ChildrenFacts.

(** ** The comment lists after deleting a draft review *)

Section DraftFiles.
Context `{Collaborators} `{PullRequestManager}.

Lemma withoutReviewOn_name keys rid fileChanges j change :
  node_fileName (withoutReviewOn keys rid fileChanges j change)
  = node_fileName change.
Proof. destruct change; simpl; [done|]. by case_decide. Qed.

Lemma withoutReviewOn_other keys rid fileChanges j change :
  node_fileName change ∉ keys →
  withoutReviewOn keys rid fileChanges j change = change.
Proof.
  intros Hk. destruct change as [r|fc]; simpl; [done|].
  rewrite decide_False; [done|]. by intros [? _].
Qed.

Lemma withoutReviewOn_visit keys k rid (fileChanges : list FileChangeNode) :
  imap (withoutReviewOn (keys ++ [k]) rid fileChanges) fileChanges
  = match list_find (λ c, node_fileName c = k) fileChanges with
    | Some (i, InMem fileChange) =>
        if decide (k ∈ keys)
        then imap (withoutReviewOn keys rid fileChanges) fileChanges
        else
          <[i := InMem (set_file_comments
                          (filter (λ comment,
                             pullRequestReviewId comment ≠ Some rid)
                             (comments fileChange))
                          fileChange)]>
            (imap (withoutReviewOn keys rid fileChanges) fileChanges)
    | _ => imap (withoutReviewOn keys rid fileChanges) fileChanges
    end.
Proof.
  assert (∀ j fc, fileChanges !! j = Some (InMem fc) → fileName fc ≠ k →
    withoutReviewOn (keys ++ [k]) rid fileChanges j (InMem fc)
    = withoutReviewOn keys rid fileChanges j (InMem fc)) as Hother.
  { intros j fc Hj Hne. simpl.
    destruct (decide (fileName fc ∈ keys ∧ _)) as [[Hin Hf]|Hno].
    - rewrite decide_True; [done|]. split; [|done].
      apply elem_of_app. by left.
    - rewrite decide_False; [done|]. intros [Hin Hf]. apply Hno.
      split; [|done].
      apply elem_of_app in Hin as [?|?%list_elem_of_singleton]; done. }
  destruct (list_find (λ c, node_fileName c = k) fileChanges)
    as [[i x]|] eqn:Hfind.
  - pose proof Hfind as (Hi & Hname & Hfirst)%list_find_Some.
    assert (∀ j fc, fileChanges !! j = Some (InMem fc) → j ≠ i →
      withoutReviewOn (keys ++ [k]) rid fileChanges j (InMem fc)
      = withoutReviewOn keys rid fileChanges j (InMem fc)) as Hnot.
    { intros j fc Hj Hne.
      destruct (decide (fileName fc = k)) as [Hk|Hk]; [|by apply Hother].
      simpl. rewrite Hk, Hfind. simpl.
      rewrite !decide_False; [done | |]; intros [_ [=]]; done. }
    destruct x as [r|fc].
    + apply imap_ext. intros j [r'|fc'] Hj; [done|].
      apply Hnot; [done|]. intros ->. by rewrite Hi in Hj.
    + simpl in Hname. destruct (decide (k ∈ keys)) as [Hin|Hin].
      * apply imap_ext. intros j [r'|fc'] Hj; [done|].
        destruct (decide (j = i)) as [->|Hne]; [|by apply Hnot].
        rewrite Hi in Hj. injection Hj as <-. simpl.
        rewrite Hname, Hfind. simpl.
        rewrite !decide_True; [done | done |]. split; [|done].
        apply elem_of_app. by left.
      * apply list_eq. intros j. rewrite list_lookup_imap.
        destruct (decide (j = i)) as [->|Hne].
        -- rewrite list_lookup_insert_eq
             by (rewrite length_imap; by eapply lookup_lt_Some).
           rewrite Hi. simpl. rewrite Hname, Hfind. simpl.
           rewrite decide_True; [done|]. split; [|done].
           apply elem_of_app. right. by apply list_elem_of_singleton.
        -- rewrite list_lookup_insert_ne by done.
           rewrite list_lookup_imap.
           destruct (fileChanges !! j) as [[r'|fc']|] eqn:Hj; [done| |done].
           simpl. f_equal. by apply Hnot.
  - apply imap_ext. intros j [r'|fc'] Hj; [done|].
    apply Hother; [done|]. intros Hk.
    rewrite list_find_None, Forall_forall in Hfind.
    apply (Hfind (InMem fc')); [by eapply list_elem_of_lookup_2 | done].
Qed.

Lemma deleteDraft_files rid init (entries : list (string * list Comment)) :
  anchored init →
  ∀ keys acc cur,
    NoDup (keys ++ entries.*1) →
    _fileChanges cur
    = imap (withoutReviewOn keys rid (_fileChanges init)) (_fileChanges init)
    →
    ∃ acc' cur',
      forEachM (deleteDraftFile rid) entries acc cur = (Ok acc', cur')
      ∧ _fileChanges cur'
        = imap (withoutReviewOn (keys ++ entries.*1) rid (_fileChanges init))
            (_fileChanges init)
      ∧ _onDidChangeCommentThreads cur' = _onDidChangeCommentThreads cur.
Proof.
  intros Hwf.
  induction entries as [|[k cff] entries IH]; intros keys acc cur Hnd Hcur.
  - exists acc, cur. simpl. by rewrite app_nil_r.
  - rewrite fmap_cons in Hnd. cbn [fst] in Hnd.
    assert (k ∉ keys) as Hk.
    { apply NoDup_app in Hnd as (_ & Hdisj & _). intros Hin.
      apply (Hdisj k Hin). left. }
    rewrite fmap_cons. cbn [fst].
    replace (keys ++ k :: entries.*1) with ((keys ++ [k]) ++ entries.*1)
      in Hnd |- * by (by rewrite <- app_assoc).
    cbn [forEachM]. unfold mbind at 1, Op_bind at 1.
    unfold deleteDraftFile at 1. destruct acc as [changed removed].
    unfold mbind at 1, Op_bind at 1, get at 1.
    assert (list_find (λ c, node_fileName c = k) (_fileChanges cur)
      = list_find (λ c, node_fileName c = k) (_fileChanges init)) as ->.
    { apply list_find_names.
      - rewrite Hcur, fmap_imap. unfold compose.
        rewrite <- (imap_const node_fileName). apply imap_ext.
        intros. apply withoutReviewOn_name.
      - intros j x Hj Hx. rewrite Hcur, list_lookup_imap, Hj. simpl.
        rewrite withoutReviewOn_other; [done|]. by rewrite Hx. }
    pose proof (withoutReviewOn_visit keys k rid (_fileChanges init))
      as Hvisit.
    destruct (list_find _ (_fileChanges init)) as [[i [r|fc]]|] eqn:Hfind.
    + unfold mret at 1, Op_ret at 1.
      apply IH; [done | by rewrite Hvisit].
    + rewrite decide_False in Hvisit by done.
      apply list_find_Some in Hfind as (Hi & Hname & _). simpl in Hname.
      assert (_fileChanges cur !! i = Some (InMem fc)) as Hcuri.
      { rewrite Hcur, list_lookup_imap, Hi. simpl.
        rewrite decide_False; [done|]. intros [Hin _]. by rewrite Hname in Hin. }
      unfold mbind at 1, Op_bind at 1, lift at 1.
      rewrite (calculateChangedAndRemovedThreads_spec _ _ _ _ _ _
        (anchored_grouped init i fc true Hwf Hi)).
      unfold mbind at 1, Op_bind at 1, lift at 1.
      rewrite (calculateChangedAndRemovedThreads_spec _ _ _ _ _ _
        (anchored_grouped init i fc false Hwf Hi)).
      unfold mbind at 1, Op_bind at 1.
      rewrite (assignComments_found _ _ _ _ Hcuri).
      unfold mret at 1, Op_ret at 1.
      edestruct (IH (keys ++ [k])) as (acc' & cur' & -> & Hfiles & Hev);
        [exact Hnd | | by eexists _, _].
      simpl. by rewrite Hvisit, Hcur.
    + unfold mret at 1, Op_ret at 1.
      apply IH; [done | by rewrite Hvisit].
Qed.

Lemma withoutReview_keys rid deletedReviewComments
    (d : list (string * list Comment)) fileChanges :
  grouped (λ c : Comment, default "" (path c)) deletedReviewComments d →
  imap (withoutReviewOn d.*1 rid fileChanges) fileChanges
  = imap (withoutReview rid deletedReviewComments fileChanges) fileChanges.
Proof.
  intros (_ & Hent & Hcov). apply imap_ext. intros j [r|fc] _; [done|].
  simpl.
  assert (fileName fc ∈ d.*1
    ↔ deletedOfFile deletedReviewComments (fileName fc) ≠ []) as Hiff.
  { split.
    - intros ([k g] & -> & Hkg)%list_elem_of_fmap.
      destruct (Hent _ _ Hkg) as [Hne Hg]. simpl. unfold deletedOfFile.
      by rewrite <- Hg.
    - intros Hne. unfold deletedOfFile in Hne.
      destruct (filter _ deletedReviewComments) as [|c0 ?] eqn:Hf; [done|].
      assert (c0 ∈ filter (λ comment,
        default "" (path comment) = fileName fc) deletedReviewComments)
        as [Hkey Hc0]%list_elem_of_filter by (rewrite Hf; left).
      rewrite <- Hkey. by apply Hcov. }
  destruct (decide (fileName fc ∈ d.*1 ∧ _)) as [[Hin Hf]|Hno].
  - rewrite decide_True; [done|]. split; [by apply Hiff | done].
  - rewrite decide_False; [done|]. intros [Hin Hf]. apply Hno.
    split; [by apply Hiff | done].
Qed.

(** X19. On a node of anchored comments, deleting the draft review takes
    the comments of the deleted review out of the comment list of a file
    change exactly when the review has comments on the name of the file
    change and the file change is the first of that name; the lists keep
    their other comments in their order, every other file change stays as
    it is, and the comments are still anchored. *)
Theorem draft_deletion_drops_review_comments node deletedReviewId
    deletedReviewComments :
  deleteReview = Ok (deletedReviewId, deletedReviewComments) →
  anchored node →
  _fileChanges (deleteDraft node).2
  = imap (withoutReview deletedReviewId deletedReviewComments
            (_fileChanges node)) (_fileChanges node)
  ∧ anchored (deleteDraft node).2.
Proof.
  intros Hreview Hwf.
  destruct (groupBy_grouped (λ c : Comment, default "" (path c))
    deletedReviewComments) as (d & Hd & Hgrouped).
  apply grouped_forIn in Hgrouped.
  pose proof Hgrouped as (Hnd & _).
  destruct (deleteDraft_files deletedReviewId node (forIn d) Hwf [] ([], [])
    node Hnd) as ([changed removed] & cur' & Hloop & Hfiles & Hev).
  { apply list_eq. intros j. rewrite list_lookup_imap.
    destruct (_fileChanges node !! j) as [x|]; [|done]. simpl.
    rewrite withoutReviewOn_other; [done|]. apply not_elem_of_nil. }
  rewrite app_nil_l in Hfiles.
  rewrite (withoutReview_keys _ _ _ _ Hgrouped) in Hfiles.
  assert (_fileChanges (deleteDraft node).2 = _fileChanges cur') as Hsame.
  { unfold deleteDraft, mbind, Op_bind, lift. rewrite Hreview, Hd, Hloop.
    unfold fire. by destruct (_onDidChangeCommentThreads cur'). }
  split; [by rewrite Hsame|].
  unfold anchored. rewrite Hsame, Hfiles.
  unfold anchored in Hwf. rewrite Forall_lookup in Hwf.
  apply Forall_lookup. intros j x. rewrite list_lookup_imap.
  destruct (_fileChanges node !! j) as [[r|fc]|] eqn:Hj; [| |done].
  - by intros [= <-].
  - specialize (Hwf j _ Hj). simpl in Hwf. intros [= <-]. simpl.
    case_decide; [|done]. simpl.
    rewrite Forall_forall in Hwf. apply Forall_forall.
    intros c [_ Hc]%list_elem_of_filter. by apply Hwf.
Qed.

End DraftFiles.

(** ** The content of a document *)

Section ContentMore.
Context `{Collaborators} `{PullRequestManager}.

Lemma filter_of_list_find {A} (P Q : A → Prop) `{!∀ x, Decision (P x)}
    `{!∀ x, Decision (Q x)} (l : list A) i x :
  (∀ y, Q y → P y) →
  list_find P l = Some (i, x) → Q x →
  ∃ rest, filter Q l = x :: rest.
Proof.
  intros HQP. revert i. induction l as [|y l IH]; intros i Hfind Hx; [done|].
  cbn [list_find] in Hfind. rewrite filter_cons.
  destruct (decide (P y)) as [Hy|Hy].
  - injection Hfind as <- ->. rewrite decide_True by done. by eexists.
  - rewrite decide_False by (intros ?; by apply Hy, HQP).
    destruct (list_find P l) as [[j z]|] eqn:Hl; [|done].
    injection Hfind as <- ->. by eapply IH.
Qed.

Lemma provideDocumentContent_node uri node :
  (provideDocumentContent uri node).2 = node.
Proof.
  unfold provideDocumentContent.
  repeat first
    [ progress unfold mbind, Op_bind, get, lift, throw, mret, Op_ret
    | progress (case_match; simplify_eq/=) ];
  done.
Qed.

(** X20. The content of a document is read off the file change its
    comments are attached to: when [findMatchingFileNode] finds a file
    change for the uri, [provideDocumentContent] returns what it returns
    on a node that has this file change only.  It never changes the node,
    and its content is empty when the uri is none of a pull request or no
    file change has the name. *)
Theorem content_of_matching_file_change uri node :
  (provideDocumentContent uri node).2 = node
  ∧ (∀ i fileChange,
       findMatchingFileNode uri node = (Ok (i, fileChange), node) →
       (provideDocumentContent uri node).1
       = (provideDocumentContent uri
            (set_fileChanges [InMem fileChange] node)).1)
  ∧ (fromPRUri uri = None → provideDocumentContent uri node = (Ok "", node))
  ∧ (∀ params,
       fromPRUri uri = Some params →
       list_find (λ change, node_fileName change = params_fileName params)
         (_fileChanges node) = None →
       provideDocumentContent uri node = (Ok "", node)).
Proof.
  split_and!.
  - apply provideDocumentContent_node.
  - intros i fileChange Hf.
    unfold findMatchingFileNode in Hf. unfold provideDocumentContent.
    destruct (fromPRUri uri) as [params|]; [|done].
    unfold mbind at 1, Op_bind at 1, get at 1 in Hf.
    destruct (list_find _ (_fileChanges node)) as [[j [r|fc]]|] eqn:Hfind;
      try done.
    unfold mret, Op_ret in Hf. simplify_eq.
    pose proof Hfind as (_ & Hname & _)%list_find_Some. simpl in Hname.
    edestruct (filter_of_list_find
      (λ change, node_fileName change = params_fileName params)
      (λ change, isInMem change
                 ∧ node_fileName change = params_fileName params))
      as (rest & Hrest); [by intros ? [_ ?] | exact Hfind | done |].
    unfold mbind, Op_bind, get.
    cbn [fst snd _fileChanges set_fileChanges].
    rewrite Hrest, filter_cons, (decide_True (P := _ ∧ _))
      by (by split).
    repeat first
      [ progress unfold mbind, Op_bind, get, lift, throw, mret, Op_ret
      | progress (case_match; simplify_eq/=) ];
    try done.
  - intros Hp. unfold provideDocumentContent. by rewrite Hp.
  - intros params Hp Hfind. unfold provideDocumentContent. rewrite Hp.
    unfold mbind, Op_bind, get.
    replace (filter _ (_fileChanges node)) with (@nil FileChangeNode);
      [done|].
    symmetry. apply length_zero_iff_nil, length_filter_zero.
    rewrite list_find_None in Hfind.
    eapply Forall_impl; [exact Hfind|]. by intros x Hx [_ ?].
Qed.


End ContentMore.

(** ** Splitting the threads of a file change *)

Section SplitFacts.
Context `{Collaborators} `{PullRequestManager}.

(** X22. [calculateChangedAndRemovedThreads] keeps what the two arrays
    hold and appends to them the threads of the file change on the side,
    each with the deleted comments taken out of its members and each in
    one of the two arrays: in [removed] when no member is left, in
    [changed] otherwise. *)
Theorem changed_and_removed_split changed removed fileChange deletedComments
    isBase threads :
  commentsToCommentThreads fileChange (comments fileChange) isBase
  = Ok threads →
  ∃ changed' removed',
    calculateChangedAndRemovedThreads changed removed fileChange
      deletedComments isBase
    = Ok (changed ++ changed', removed ++ removed')
    ∧ removed' ++ changed' ≡ₚ stripDeleted deletedComments <$> threads
    ∧ Forall (λ t, vscode.comments t ≠ []) changed'
    ∧ Forall (λ t, vscode.comments t = []) removed'.
Proof.
  intros Hok. eexists _, _.
  split; [by apply calculateChangedAndRemovedThreads_spec|].
  split; [apply filter_app_complement|].
  split; apply Forall_forall; by intros t [? _]%list_elem_of_filter.
Qed.

End SplitFacts.
(** ** The statements on the sample pull request *)

Import Sample.

(** The conversation on position 5 of the sample is one thread, of the
    identity of its first comment, with both comments in their order; the
    draft on position 3 is a thread of its own. *)
Example conversation_on_sample :
  (λ t, (vscode.threadId t, vscode.commentId <$> vscode.comments t))
    <$> groupedThreads Sample.fileA false
  = [("7", ["7"]); ("100", ["100"; "101"])].
Proof. vm_compute. reflexivity. Qed.

(** The order of the keys in a loop over a dictionary. *)
Example forIn_on_sample :
  (forIn [("10", 1); ("x", 2); ("9", 3); ("-1", 4); ("007", 5); ("0", 6)]).*1
  = ["0"; "9"; "10"; "x"; "-1"; "007"].
Proof. vm_compute. reflexivity. Qed.

(** Deleting the draft review of the sample removes the thread of the
    draft and reports the conversation, which keeps its members, as
    changed on both sides. *)
Example draft_on_sample :
  (λ e, (identities (vscode.removed e), identities (vscode.changed e)))
    <$> default []
          (_onDidChangeCommentThreads
             (deleteDraft (H0 := Sample.manager Sample.draftReview)
                Sample.node).2)
  = [(["7"], ["100"; "100"])].
Proof. vm_compute. reflexivity. Qed.

Ltac by_evaluation :=
  lazymatch goal with
  | |- ?P => refine (@bool_decide_unpack P _ _); vm_compute; exact I
  end.


Lemma edited_thread_on_sample :
  Sample.mkThread "1" (Sample.prUri "a.ts" "h1") [Sample.mkVsComment "1" "b"]
  ∈ (getAddedOrUpdatedCommentThreads Sample.oldGeneration
       Sample.newGeneration).2.
Proof.
  apply (changed_iff_members_differ Sample.oldGeneration Sample.newGeneration
    (Sample.mkThread "1" (Sample.prUri "a.ts" "h1")
       [Sample.mkVsComment "1" "b"])
    (Sample.mkThread "1" (Sample.prUri "a.ts" "h1")
       [Sample.mkVsComment "1" "a"])).
  - by_evaluation.
  - by_evaluation.
  - by_evaluation.
  - reflexivity.
  - right. exists (Sample.mkVsComment "1" "a"). split; [by_evaluation|].
    right. exists (Sample.mkVsComment "1" "b").
    split; [by_evaluation|]. split; [reflexivity | discriminate].
Defined.

Lemma added_thread_on_sample :
  vscode.collapsibleState
    (set_collapsibleState vscode.Collapsed
       (Sample.mkThread "3" (Sample.fileUri "a.ts")
          [Sample.mkVsComment "3" "new"]))
  = Some vscode.Collapsed
  ↔ vscode.scheme
      (vscode.resource
         (set_collapsibleState vscode.Collapsed
            (Sample.mkThread "3" (Sample.fileUri "a.ts")
               [Sample.mkVsComment "3" "new"]))) = "file".
Proof.
  apply (added_threads_collapse_on_files Sample.oldGeneration
    Sample.newGeneration).
  - repeat constructor.
  - by_evaluation.
Defined.

Lemma ranges_on_sample :
  ∃ info,
    providePRDocumentComments (Sample.document "a.ts" "h1") 1
      (_fileChanges Sample.node) false = Ok (Some info)
    ∧ vscode.commentingRanges info = [vscode.Range4 0 0 3 0].
Proof.
  destruct (commenting_ranges_of_file_change (Sample.document "a.ts" "h1") 1
    (_fileChanges Sample.node) false
    {| params_baseCommit := "base"; params_headCommit := "head";
       params_isBase := false; params_fileName := "a.ts";
       params_prNumber := 1 |} 1%nat Sample.fileA)
    as (info & Hinfo & Hranges).
  - reflexivity.
  - reflexivity.
  - vm_compute. reflexivity.
  - exists info. split; [exact Hinfo | exact Hranges].
Defined.

Lemma content_on_sample :
  provideDocumentContent (Sample.prUri "new.ts" "b1") Sample.node
  = (Ok (String.concat newline ["context"; "old line"; "context2"]),
     Sample.node).
Proof.
  apply (content_from_diff_hunks Sample.node (Sample.prUri "new.ts" "b1")
    {| params_baseCommit := "base"; params_headCommit := "head";
       params_isBase := true; params_fileName := "new.ts";
       params_prNumber := 1 |} Sample.fileNew []).
  - reflexivity.
  - vm_compute. reflexivity.
  - right. left. reflexivity.
Defined.

Lemma deleted_draft_on_sample :
  ∃ node' event,
    deleteDraft (H0 := Sample.manager Sample.draftReview) Sample.node
    = (Ok tt, node')
    ∧ _onDidChangeCommentThreads node' = Some ([] ++ [event])
    ∧ Forall (λ t, vscode.comments t = []) (vscode.removed event)
    ∧ Forall (λ t, vscode.comments t ≠ []) (vscode.changed event).
Proof.
  destruct (deleted_draft_threads (H0 := Sample.manager Sample.draftReview)
    Sample.node 55 Sample.draftReview.2 [])
    as (node' & event & Hrun & Hfired & _ & Hremoved & Hchanged & _).
  - reflexivity.
  - reflexivity.
  - unfold anchored. vm_compute. repeat (constructor; try discriminate).
  - exists node', event. repeat split; assumption.
Defined.

Lemma reconciliation_twice_on_sample :
  getAddedOrUpdatedCommentThreads Sample.oldGeneration
    (newCommentThreadsAfter Sample.oldGeneration Sample.newGeneration)
  = getAddedOrUpdatedCommentThreads Sample.oldGeneration Sample.newGeneration
  ∧ getAddedOrUpdatedCommentThreads
      (set_collapsibleState vscode.Collapsed <$> Sample.oldGeneration)
      Sample.newGeneration
    = getAddedOrUpdatedCommentThreads Sample.oldGeneration
        Sample.newGeneration.
Proof.
  destruct (reconciliation_deterministic Sample.oldGeneration
    Sample.newGeneration
    (set_collapsibleState vscode.Collapsed <$> Sample.oldGeneration)
    (afterVisit Sample.oldGeneration <$> Sample.newGeneration))
    as (Hagain & _ & _ & Hcopy & _).
  - reflexivity.
  - reflexivity.
  - split; [exact Hagain | exact Hcopy].
Defined.



Lemma new_thread_on_sample :
  (∃ e, createNewCommentThread (H0 := Sample.manager Sample.draftReview)
          (Sample.document "a.ts" "h1") Sample.farRange "text" Sample.node
        = (Throw e, Sample.node))
  ∧ createNewCommentThread (H0 := Sample.manager Sample.draftReview)
      (Sample.document "a.ts" "h2") Sample.farRange "text" Sample.node
    = (Ok None, Sample.node)
  ∧ ∃ node',
      createNewCommentThread (H0 := Sample.manager Sample.draftReview)
        (Sample.document "a.ts" "h1") Sample.nearRange "text" Sample.node
      = (Ok (Some
               {| vscode.threadId := "900";
                  vscode.resource := Sample.prUri "a.ts" "h1";
                  vscode.range := Sample.nearRange;
                  vscode.comments := [Sample.mkVsComment "900" "text"];
                  vscode.collapsibleState := None |}), node')
      ∧ _fileChanges node' !! 1%nat
        = Some (InMem (set_file_comments
            (comments Sample.fileA
             ++ [Sample.mkComment 900 (Some 3) "text" "a.ts" None])
            Sample.fileA)).
Proof.
  split; [|split].
  - apply (new_thread_needs_position
      (H0 := Sample.manager Sample.draftReview) Sample.node
      (Sample.document "a.ts" "h1") Sample.farRange "text"
      {| params_baseCommit := "base"; params_headCommit := "head";
         params_isBase := false; params_fileName := "a.ts";
         params_prNumber := 1 |} 1%nat Sample.fileA).
    + reflexivity.
    + vm_compute. reflexivity.
    + reflexivity.
    + vm_compute. reflexivity.
  - apply (new_thread_needs_position
      (H0 := Sample.manager Sample.draftReview) Sample.node
      (Sample.document "a.ts" "h2") Sample.farRange "text"
      {| params_baseCommit := "base"; params_headCommit := "head";
         params_isBase := false; params_fileName := "a.ts";
         params_prNumber := 2 |} 1%nat Sample.fileA).
    + reflexivity.
    + vm_compute. reflexivity.
    + discriminate.
  - destruct (new_thread_needs_position
      (H0 := Sample.manager Sample.draftReview) Sample.node
      (Sample.document "a.ts" "h1") Sample.nearRange "text"
      {| params_baseCommit := "base"; params_headCommit := "head";
         params_isBase := false; params_fileName := "a.ts";
         params_prNumber := 1 |} 1%nat Sample.fileA) as (_ & _ & Hok).
    + reflexivity.
    + vm_compute. reflexivity.
    + eexists. split.
      * apply (Hok eq_refl ltac:(vm_compute; discriminate)
          (Sample.mkComment 900 (Some 3) "text" "a.ts" None) eq_refl).
      * reflexivity.
Defined.

(** On the sample, the selected line of a request for a document of
    another pull request maps to a negative position, and the request
    returns nothing, without an error. *)
Lemma new_thread_of_other_pull_request_returns :
  selectedPosition Sample.node (Sample.document "a.ts" "h2") Sample.farRange
  = Some (-1)
  ∧ ¬ is_Throw
        (createNewCommentThread (H0 := Sample.manager Sample.draftReview)
           (Sample.document "a.ts" "h2") Sample.farRange "text"
           Sample.node).1.
Proof.
  split; [vm_compute; reflexivity | vm_compute; intros []].
Qed.

(** ** The further statements on the sample pull request *)

Import SampleChildren.

Lemma members_on_sample :
  concat (vscode.comments <$> groupedThreads Sample.fileA false)
  ≡ₚ toVsComment <$> comments Sample.fileA.
Proof.
  apply (grouping_keeps_comments Sample.fileA (comments Sample.fileA) false
    (groupedThreads Sample.fileA false)).
  - vm_compute. reflexivity.
  - apply Forall_forall. by_evaluation.
Defined.

Lemma identities_on_sample :
  NoDup (identities (groupedThreads Sample.fileA true))
  ∧ NoDup (vscode.commentId <$>
             concat (vscode.comments <$> groupedThreads Sample.fileA true)).
Proof.
  destruct (grouping_identities Sample.fileA (comments Sample.fileA) true
    (groupedThreads Sample.fileA true)) as (Hthreads & Hmembers & _).
  - by_evaluation.
  - vm_compute. reflexivity.
  - split; [exact Hthreads | exact Hmembers].
Defined.

Lemma self_reconciliation_on_sample :
  getRemovedCommentThreads Sample.oldGeneration Sample.oldGeneration = []
  ∧ getAddedOrUpdatedCommentThreads Sample.oldGeneration Sample.oldGeneration
    = ([], []).
Proof.
  destruct (reconciliation_with_itself Sample.oldGeneration)
    as (Hremoved & Hadded & _ & Hchanged).
  - by_evaluation.
  - split; [exact Hremoved|].
    rewrite (surjective_pairing (getAddedOrUpdatedCommentThreads _ _)).
    rewrite Hadded, Hchanged; [reflexivity|].
    by_evaluation.
Defined.

Lemma edit_on_sample :
  ∃ node',
    editComment (H0 := Sample.manager Sample.draftReview)
      (Sample.document "a.ts" "h1") (Sample.mkVsComment "101" "reply")
      "edited" Sample.node = (Ok tt, node')
    ∧ _fileChanges node' !! 1%nat
      = Some (InMem (set_file_comments
          [ Sample.mkComment 100 (Some 5) "top" "a.ts" None;
            Sample.mkComment 7 (Some 3) "draft" "a.ts" (Some 55);
            Sample.mkComment 101 (Some 5) "edited" "a.ts" None ]
          Sample.fileA)).
Proof.
  destruct (edit_replaces_in_place (H0 := Sample.manager Sample.draftReview)
    Sample.node (Sample.document "a.ts" "h1")
    (Sample.mkVsComment "101" "reply") "edited" 1%nat Sample.fileA 2%nat
    (Sample.mkComment 101 (Some 5) "reply" "a.ts" None)
    (Sample.mkComment 101 (Some 5) "edited" "a.ts" None))
    as (Hrun & _).
  - vm_compute. reflexivity.
  - vm_compute. reflexivity.
  - reflexivity.
  - eexists. split; [exact Hrun | reflexivity].
Defined.

Lemma delete_on_sample :
  deleteComment (H0 := Sample.manager Sample.draftReview)
    (Sample.document "a.ts" "h1") (Sample.mkVsComment "7" "draft")
    Sample.node
  = (Ok tt,
     set_events
       [ {| vscode.added := []; vscode.removed := []; vscode.changed := [];
            vscode.event_inDraftMode := false |} ]
       (set_fileChanges
          (<[1%nat := InMem (set_file_comments
               [ Sample.mkComment 100 (Some 5) "top" "a.ts" None;
                 Sample.mkComment 101 (Some 5) "reply" "a.ts" None ]
               Sample.fileA)]> (_fileChanges Sample.node))
          Sample.node)).
Proof.
  destruct (delete_takes_first_out (H0 := Sample.manager Sample.draftReview)
    Sample.node (Sample.document "a.ts" "h1")
    (Sample.mkVsComment "7" "draft") 1%nat Sample.fileA 1%nat
    (Sample.mkComment 7 (Some 3) "draft" "a.ts" (Some 55)))
    as (Hrun & _).
  - vm_compute. reflexivity.
  - vm_compute. reflexivity.
  - reflexivity.
  - exact (Hrun false eq_refl).
Defined.

Lemma reply_on_sample :
  ∃ node',
    replyToCommentThread (H0 := Sample.manager Sample.draftReview)
      (Sample.document "a.ts" "h1") Sample.nearRange
      (Sample.mkThread "100" (Sample.prUri "a.ts" "h1")
         [Sample.mkVsComment "100" "top"; Sample.mkVsComment "101" "reply"])
      "more" Sample.node
    = (Ok (Sample.mkThread "100" (Sample.prUri "a.ts" "h1")
             [ Sample.mkVsComment "100" "top";
               Sample.mkVsComment "101" "reply";
               Sample.mkVsComment "901" "more" ]), node').
Proof.
  eexists.
  apply (reply_extends_thread (H0 := Sample.manager Sample.draftReview)
    Sample.node (Sample.document "a.ts" "h1") Sample.nearRange
    (Sample.mkThread "100" (Sample.prUri "a.ts" "h1")
       [Sample.mkVsComment "100" "top"; Sample.mkVsComment "101" "reply"])
    "more" 1%nat Sample.fileA 0%nat
    (Sample.mkComment 100 (Some 5) "top" "a.ts" None)
    (Sample.mkComment 901 (Some 5) "more" "a.ts" None)).
  - vm_compute. reflexivity.
  - vm_compute. reflexivity.
  - reflexivity.
Defined.

Lemma create_then_delete_on_sample :
  ∃ thread node1 node2,
    createNewCommentThread (H0 := Sample.manager Sample.draftReview)
      (Sample.document "a.ts" "h1") Sample.nearRange "text" Sample.node
    = (Ok (Some thread), node1)
    ∧ vscode.comments thread = [Sample.mkVsComment "900" "text"]
    ∧ deleteComment (H0 := Sample.manager Sample.draftReview)
        (Sample.document "a.ts" "h1") (Sample.mkVsComment "900" "text")
        node1 = (Ok tt, node2)
    ∧ _fileChanges node2 = _fileChanges Sample.node.
Proof.
  apply (create_then_delete_restores
    (H0 := Sample.manager Sample.draftReview) Sample.node
    (Sample.document "a.ts" "h1") Sample.nearRange "text"
    {| params_baseCommit := "base"; params_headCommit := "head";
       params_isBase := false; params_fileName := "a.ts";
       params_prNumber := 1 |} 1%nat Sample.fileA
    (Sample.mkComment 900 (Some 3) "text" "a.ts" None) false).
  - reflexivity.
  - reflexivity.
  - vm_compute. reflexivity.
  - vm_compute. discriminate.
  - reflexivity.
  - by_evaluation.
  - reflexivity.
  - reflexivity.
Defined.

Lemma refresh_on_sample :
  updateComments (H0 := Sample.manager Sample.draftReview) Sample.prComments
    (_fileChanges Sample.node) Sample.node
  = (Ok tt, Sample.node).
Proof.
  apply (refresh_without_news (H0 := Sample.manager Sample.draftReview)
    Sample.node Sample.prComments).
  - by_evaluation.
  - unfold anchoredChanges. vm_compute.
    repeat (constructor; try discriminate).
  - unfold distinctComments, Sample.node. cbn [_fileChanges].
    repeat first [apply Forall_nil | apply Forall_cons; split];
      first [exact I | by_evaluation].
Defined.

Lemma document_threads_on_sample :
  ∃ info,
    providePRDocumentComments (Sample.document "a.ts" "h1") 1
      (_fileChanges Sample.node) true = Ok (Some info)
    ∧ commentsToCommentThreads Sample.fileA (comments Sample.fileA) false
      = Ok (eventThread Sample.fileA false <$> vscode.threads info)
    ∧ vscode.inDraftMode info = true.
Proof.
  apply (document_threads_are_event_threads (Sample.document "a.ts" "h1") 1
    (_fileChanges Sample.node) true
    {| params_baseCommit := "base"; params_headCommit := "head";
       params_isBase := false; params_fileName := "a.ts";
       params_prNumber := 1 |} 1%nat Sample.fileA).
  - reflexivity.
  - reflexivity.
  - vm_compute. reflexivity.
  - vm_compute. repeat (constructor; try discriminate).
Defined.

Lemma unchanged_children_on_sample :
  updateComments (H0 := Sample.manager Sample.draftReview) Sample.prComments
    (fileChangeNodeOf "head" Sample.prComments <$> SampleChildren.rawChanges)
    SampleChildren.node
  = (Ok tt, SampleChildren.node).
Proof.
  apply (unchanged_children_fire_nothing
    (H0 := Sample.manager Sample.draftReview) "head" Sample.prComments
    SampleChildren.rawChanges SampleChildren.node).
  - reflexivity.
  - by_evaluation.
  - by_evaluation.
Defined.

Lemma draft_deletion_on_sample :
  comments <$>
    (_fileChanges
       (deleteDraft (H0 := Sample.manager Sample.draftReview)
          Sample.node).2 ≫= λ change,
       match change with InMem fileChange => [fileChange] | Remote _ => [] end)
  = [ [ Sample.mkComment 100 (Some 5) "top" "a.ts" None;
        Sample.mkComment 101 (Some 5) "reply" "a.ts" None ]; [] ].
Proof.
  destruct (draft_deletion_drops_review_comments
    (H0 := Sample.manager Sample.draftReview) Sample.node 55
    Sample.draftReview.2) as [Hfiles _].
  - reflexivity.
  - unfold anchored. vm_compute. repeat (constructor; try discriminate).
  - rewrite Hfiles. vm_compute. reflexivity.
Defined.

Lemma changed_and_removed_on_sample :
  ∃ changed' removed',
    calculateChangedAndRemovedThreads [] [] Sample.fileA
      Sample.draftReview.2 false = Ok ([] ++ changed', [] ++ removed')
    ∧ identities changed' = ["100"]
    ∧ identities removed' = ["7"].
Proof.
  destruct (changed_and_removed_split [] [] Sample.fileA
    Sample.draftReview.2 false (groupedThreads Sample.fileA false))
    as (changed' & removed' & Hrun & _).
  - vm_compute. reflexivity.
  - exists changed', removed'. split; [exact Hrun|].
    assert (Ok ([] ++ changed', [] ++ removed')
      = Ok ((λ t, set_comments
               (filter (λ c, vscode.commentId c ≠ "7") (vscode.comments t)) t)
              <$> filter (λ t, vscode.threadId t = "100")
                    (groupedThreads Sample.fileA false),
            (λ t, set_comments [] t)
              <$> filter (λ t, vscode.threadId t = "7")
                    (groupedThreads Sample.fileA false))) as Heq.
    { rewrite <- Hrun. vm_compute. reflexivity. }
    injection Heq as -> ->. split; vm_compute; reflexivity.
Defined.

Lemma failed_edit_on_sample :
  (editComment (H0 := Sample.manager Sample.draftReview)
     (Sample.document "a.ts" "h1") (Sample.mkVsComment "999" "x") "y"
     Sample.node).2 = Sample.node.
Proof.
  destruct (failed_operations_change_nothing
    (H0 := Sample.manager Sample.draftReview) Sample.node
    (Sample.document "a.ts" "h1") Sample.farRange "y"
    (Sample.mkVsComment "999" "x")
    (Sample.mkThread "999" (Sample.prUri "a.ts" "h1") []))
    as (_ & Hedit & _).
  apply Hedit. vm_compute. exact I.
Defined.


Lemma children_on_sample :
  anchoredChanges (_fileChanges SampleChildren.node)
  ∧ distinctComments (_fileChanges SampleChildren.node).
Proof.
  destruct (children_hold_anchored_comments "head" Sample.prComments
    SampleChildren.rawChanges) as (Hanchored & Hdistinct & _).
  split; [exact Hanchored|]. apply Hdistinct. by_evaluation.
Defined.

Lemma content_of_match_on_sample :
  (provideDocumentContent (Sample.prUri "new.ts" "b1") Sample.node).1
  = (provideDocumentContent (Sample.prUri "new.ts" "b1")
       (set_fileChanges [InMem Sample.fileNew] Sample.node)).1.
Proof.
  destruct (content_of_matching_file_change (Sample.prUri "new.ts" "b1")
    Sample.node) as (_ & Hmatch & _).
  apply (Hmatch 2%nat Sample.fileNew). vm_compute. reflexivity.
Defined.
